(** * legal_doc_analyzer: chunking, extraction and vector-store boundary

    A shallow embedding of the parts of the repository that the
    specification talks about:

    - [processors/pdf_processor.py]   ([PDFProcessor._split_text], [process])
    - [processors/audio_processor.py] ([AudioProcessor.process])
    - [processors/video_processor.py] ([VideoProcessor.process])
    - [chunkers/base_chunker.py]      ([BaseChunk.__len__], [_validate_chunk])
    - [storage/vector_store.py]       ([ChromaStore])

    Python [int] is [Z], [str] is [string] (one [ascii] per character),
    [dict] is a [gmap] with string keys, and a call that may raise returns
    an [outcome]. *)

From Stdlib Require Import ZArith Ascii String List Lia QArith.
From Stdlib Require Import DecimalString DecimalNat.
From stdpp Require Import base option list gmap strings sorting.

Local Open Scope string_scope.
Local Open Scope Z_scope.

(** ** Python string primitives *)

Module Py.

Definition chars (s : string) : list ascii := list_ascii_of_string s.
Definition of_chars (l : list ascii) : string := string_of_list_ascii l.

(** [len(s)] *)
Definition len (s : string) : Z := Z.of_nat (String.length s).

(** Index adjustment of a slice bound against a sequence of length [n]:
    a negative bound counts from the end, and every bound is clipped
    to [0..n]. *)
Definition adjust (n i : Z) : Z :=
  if i <? 0 then Z.max (i + n) 0 else Z.min i n.

Definition slice_chars (l : list ascii) (i j : Z) : list ascii :=
  let n := Z.of_nat (length l) in
  let lo := adjust n i in
  let hi := adjust n j in
  take (Z.to_nat (hi - lo)) (drop (Z.to_nat lo) l).

(** [s[i:j]] *)
Definition slice (s : string) (i j : Z) : string :=
  of_chars (slice_chars (chars s) i j).

(** Highest index of [c] in [l], or [-1]. *)
Fixpoint rfind_chars (c : ascii) (l : list ascii) : Z :=
  match l with
  | [] => -1
  | x :: l' =>
      let r := rfind_chars c l' in
      if 0 <=? r then r + 1
      else if Ascii.eqb x c then 0 else -1
  end.

(** [s.rfind(c)] for a one-character needle. *)
Definition rfind (s : string) (c : ascii) : Z := rfind_chars c (chars s).

(** [c.isspace()] on the code points below 256. *)
Definition isspace (c : ascii) : bool :=
  let n := nat_of_ascii c in
  ((9 <=? n) && (n <=? 13) || (28 <=? n) && (n <=? 32)
   || (n =? 133) || (n =? 160))%nat.

Fixpoint lstrip_chars (l : list ascii) : list ascii :=
  match l with
  | x :: l' => if isspace x then lstrip_chars l' else l
  | [] => []
  end.

Definition strip_chars (l : list ascii) : list ascii :=
  rev (lstrip_chars (rev (lstrip_chars l))).

(** [s.strip()] *)
Definition strip (s : string) : string := of_chars (strip_chars (chars s)).

(** ["c" * n] *)
Definition repeat (c : ascii) (n : nat) : string := of_chars (List.repeat c n).

Definition newline : ascii := ascii_of_nat 10.
Definition space : ascii := ascii_of_nat 32.

End Py.

(** ** processors/pdf_processor.py *)

Record PDFProcessor := {
  chunk_size : Z;
  chunk_overlap : Z
}.

(** [PDFProcessor()] *)
Definition PDFProcessor_default : PDFProcessor :=
  {| chunk_size := 1000; chunk_overlap := 200 |}.

(** One pass through the body of the [while] loop of [_split_text] with
    the cursor at [start]: the chunk appended and the new cursor. *)
Definition split_step (self : PDFProcessor) (text : string) (start : Z)
  : string * Z :=
  let text_len := Py.len text in
  let end_ := start + chunk_size self in
  let chunk := Py.slice text start end_ in
  let '(end_, chunk) :=
    if end_ <? text_len then
      let last_newline := Py.rfind chunk Py.newline in
      let last_space := Py.rfind chunk Py.space in
      let break_point := Z.max last_newline last_space in
      if negb (break_point =? -1) then
        let end_ := start + break_point in
        (end_, Py.slice text start end_)
      else (end_, chunk)
    else (end_, chunk) in
  (chunk, end_ - chunk_overlap self).

(** The [while start < text_len] loop.  [fuel] bounds the number of
    passes; [None] means the loop was still running when it ran out. *)
Fixpoint split_loop (fuel : nat) (self : PDFProcessor) (text : string)
    (chunks : list string) (start : Z) : option (list string) :=
  if start <? Py.len text then
    match fuel with
    | O => None
    | S fuel' =>
        let '(chunk, start') := split_step self text start in
        split_loop fuel' self text (chunks ++ [chunk]) start'
    end
  else Some chunks.

Definition _split_text (fuel : nat) (self : PDFProcessor) (text : string)
  : option (list string) :=
  split_loop fuel self text [] 0.

(** The same loop, keeping with every chunk the cursor it was cut at. *)
Fixpoint split_spans (fuel : nat) (self : PDFProcessor) (text : string)
    (spans : list (Z * string)) (start : Z) : option (list (Z * string)) :=
  if start <? Py.len text then
    match fuel with
    | O => None
    | S fuel' =>
        let '(chunk, start') := split_step self text start in
        split_spans fuel' self text (spans ++ [(start, chunk)]) start'
    end
  else Some spans.

(** Each chunk's prefix up to the start of the next chunk, then the last
    chunk in full. *)
Fixpoint reassemble (spans : list (Z * string)) : string :=
  match spans with
  | [] => ""
  | (start, chunk) :: rest =>
      match rest with
      | [] => chunk
      | (next, _) :: _ =>
          Py.of_chars (take (Z.to_nat (next - start)) (Py.chars chunk))
          ++ reassemble rest
      end
  end.

(** The spans the loop produces from the cursor [start] on. *)
Fixpoint spans_from (fuel : nat) (self : PDFProcessor) (text : string)
    (start : Z) : list (Z * string) :=
  if start <? Py.len text then
    match fuel with
    | O => []
    | S fuel' =>
        (start, fst (split_step self text start))
        :: spans_from fuel' self text (snd (split_step self text start))
    end
  else [].

(** The window cut at [start] either is a raw cut or breaks at a
    separator that lies further into the window than the overlap. *)
Definition window_advances (self : PDFProcessor) (text : string) (start : Z)
  : bool :=
  let end_ := start + chunk_size self in
  if end_ <? Py.len text then
    let chunk := Py.slice text start end_ in
    let break_point :=
      Z.max (Py.rfind chunk Py.newline) (Py.rfind chunk Py.space) in
    (break_point =? -1) || (chunk_overlap self <? break_point)
  else true.

Definition windows_advance (self : PDFProcessor) (text : string) : bool :=
  forallb (fun k => window_advances self text (Z.of_nat k))
          (seq 0 (String.length text)).

(** The scenario text of the specification:
    ["A" * 1500 + " " + "B" * 1500]. *)
Definition scenario_text : string :=
  Py.repeat "A"%char 1500 ++ " " ++ Py.repeat "B"%char 1500.

(** A two-letter word followed by a long one, with windows of 5
    characters overlapping by 2. *)
Definition stalling_processor : PDFProcessor :=
  {| chunk_size := 5; chunk_overlap := 2 |}.
Definition stalling_text : string := "ab cdefghij".

(** A text that starts with a space, with windows of 3 characters
    overlapping by 1. *)
Definition dropping_processor : PDFProcessor :=
  {| chunk_size := 3; chunk_overlap := 1 |}.
Definition dropping_text : string := " abcdef".

(** ** Python values, dictionaries and exceptions *)

(** The scalar and list values that travel in metadata dictionaries. *)
Inductive pyval :=
| VNone
| VStr (s : string)
| VInt (n : Z)
| VFloat (q : Q)
| VList (l : list string).

(** Truth value of a Python object ([if v], [not v]). *)
Definition truthy (v : pyval) : bool :=
  match v with
  | VNone => false
  | VStr s => negb (String.eqb s "")
  | VInt n => negb (n =? 0)
  | VFloat q => negb (Qeq_bool q 0)
  | VList l => match l with [] => false | _ => true end
  end.

(** [d.get(k)] and [d.get(k, default)] *)
Definition dict_get (d : gmap string pyval) (k : string) : pyval :=
  default VNone (d !! k).
Definition dict_get_default (d : gmap string pyval) (k : string) (v : pyval)
  : pyval :=
  default v (d !! k).

(** A raised exception, with [str(e)]. *)
Record exn := { exn_str : string }.

Inductive outcome (A : Type) :=
| Ok (a : A)
| Raise (e : exn).
Arguments Ok {A} a.
Arguments Raise {A} e.

#[global] Instance outcome_ret : MRet outcome := fun A a => Ok a.
#[global] Instance outcome_bind : MBind outcome := fun A B f m =>
  match m with Ok a => f a | Raise e => Raise e end.

(** [try: body except Exception as e: handler(e)] *)
Definition try_except {A} (body : outcome A) (handler : exn -> outcome A)
  : outcome A :=
  match body with Ok a => Ok a | Raise e => handler e end.

(** [l[0]] *)
Definition index0 {A} (l : list A) : outcome A :=
  match l with
  | x :: _ => Ok x
  | [] => Raise {| exn_str := "list index out of range" |}
  end.

(** ** storage/base.py *)

Record BaseChunk := {
  content : string;
  metadata : gmap string pyval
}.

Record SearchResult := {
  sr_id : string;
  sr_content : string;
  sr_score : Q;
  sr_metadata : gmap string pyval
}.

(** ** chunkers/base_chunker.py *)

Module base_chunker.

(** [str(x)] for the content type of a chunk. *)
Class PyStr (T : Type) := py_str : T -> string.
#[global] Instance str_PyStr : PyStr string := fun s => s.

Record BaseChunk (T : Type) := {
  content : T;
  metadata : gmap string pyval;
  vector : option (list Q)
}.
Arguments content {T} _.
Arguments metadata {T} _.
Arguments vector {T} _.

(** [BaseChunk(content, metadata)] *)
Definition BaseChunk_init {T} (content : T) (metadata : gmap string pyval)
  : BaseChunk T :=
  {| content := content; metadata := metadata; vector := None |}.

Definition __len__ {T} `{PyStr T} (self : BaseChunk T) : Z :=
  Py.len (Py.strip (py_str (content self))).

Record BaseChunker := {
  min_chunk_size : Z;
  overlap : Z
}.

(** The defaults of [BaseChunker.__init__]. *)
Definition BaseChunker_default : BaseChunker :=
  {| min_chunk_size := 10; overlap := 2 |}.

Definition _validate_chunk {T} `{PyStr T} (self : BaseChunker)
    (chunk : BaseChunk T) : bool :=
  min_chunk_size self <=? __len__ chunk.

End base_chunker.

(** ** processors/pdf_processor.py, [process] *)

Section PDF.

(** [Path(file_path).name] *)
Variable path_name : string -> string.

(** [open(file_path, 'rb')] followed by [pypdf.PdfReader(file)]: the
    pages of the document, each with the outcome of its
    [extract_text()]. *)
Variable read_pages : string -> outcome (list (outcome string)).

Definition _detect_language (self : PDFProcessor) (text : string) : string :=
  "en".

(** The [BaseChunk] built for chunk [j] of page [i] (both 0-based). *)
Definition pdf_chunk (self : PDFProcessor) (file_path : string)
    (i : nat) (j : nat) (chunk_text : string) : BaseChunk :=
  {| content := chunk_text;
     metadata :=
       <["document_type" := VStr "pdf"]>
       (<["page_number" := VInt (Z.of_nat i + 1)]>
       (<["chunk_index" := VInt (Z.of_nat j)]>
       (<["source_file" := VStr (path_name file_path)]>
       (<["language" := VStr (_detect_language self chunk_text)]> ∅)))) |}.

(** The [for i, page in enumerate(pdf.pages)] loop, from page [i] on.
    [None]: a call of [_split_text] did not finish within [fuel]. *)
Fixpoint process_pages (fuel : nat) (self : PDFProcessor)
    (file_path : string) (pages : list (outcome string)) (i : nat)
    (chunks : list BaseChunk) : option (outcome (list BaseChunk)) :=
  match pages with
  | [] => Some (Ok chunks)
  | page :: pages' =>
      match page with
      | Raise e => Some (Raise e)
      | Ok text =>
          if String.eqb (Py.strip text) "" then
            process_pages fuel self file_path pages' (S i) chunks
          else
            match _split_text fuel self text with
            | None => None
            | Some text_chunks =>
                process_pages fuel self file_path pages' (S i)
                  (chunks ++ imap (pdf_chunk self file_path i) text_chunks)
            end
      end
  end.

(** [PDFProcessor.process]; the [except] clause logs and re-raises. *)
Definition PDFProcessor_process (fuel : nat) (self : PDFProcessor)
    (file_path : string) : option (outcome (list BaseChunk)) :=
  let body :=
    match read_pages file_path with
    | Raise e => Some (Raise e)
    | Ok pages => process_pages fuel self file_path pages 0 []
    end in
  match body with
  | Some r => Some (try_except r (fun e => Raise e))
  | None => None
  end.

(** Extraction of [file_path] fails with [e]: the file cannot be opened or
    read, or [extract_text] raises on a page after the pages before it
    were processed. *)
Definition pdf_fails (fuel : nat) (self : PDFProcessor) (file_path : string)
    (e : exn) : Prop :=
  read_pages file_path = Raise e
  \/ exists (pre post : list (outcome string)) (chunks : list BaseChunk),
       read_pages file_path = Ok (pre ++ Raise e :: post)%list
       /\ process_pages fuel self file_path pre 0 [] = Some (Ok chunks).

End PDF.

(** ** processors/audio_processor.py *)

(** The loaded Whisper model: [transcribe] gives the result dictionary. *)
Record Whisper := {
  transcribe : string -> outcome (gmap string pyval)
}.

(** langchain's [RecursiveCharacterTextSplitter], applied to the value
    found under ["text"]. *)
Record TextSplitter := {
  split_text : pyval -> outcome (list string)
}.

Record AudioProcessor := {
  model : Whisper;
  text_splitter : TextSplitter
}.

Section Audio.

Variable path_name : string -> string.

(** [not result]: a dictionary is false when it is empty. *)
Definition dict_truthy (d : gmap string pyval) : bool :=
  negb (Nat.eqb (size d) 0).

Definition no_speech_chunk (file_path : string) : BaseChunk :=
  {| content := "[Audio content detected]";
     metadata :=
       <["document_type" := VStr "audio"]>
       (<["source_file" := VStr (path_name file_path)]>
       (<["language" := VStr "en"]>
       (<["status" := VStr "no_speech_detected"]> ∅))) |}.

Definition audio_chunk (file_path : string) (result : gmap string pyval)
    (text_chunks : list string) (i : nat) (chunk_text : string) : BaseChunk :=
  {| content := Py.strip chunk_text;
     metadata :=
       <["document_type" := VStr "audio"]>
       (<["chunk_index" := VInt (Z.of_nat i)]>
       (<["total_chunks" := VInt (Z.of_nat (length text_chunks))]>
       (<["source_file" := VStr (path_name file_path)]>
       (<["language" := dict_get_default result "language" (VStr "en")]> ∅)))) |}.

Definition error_chunk (file_path : string) (e : exn) : BaseChunk :=
  {| content := "[Error processing audio: " ++ exn_str e ++ "]";
     metadata :=
       <["document_type" := VStr "audio"]>
       (<["source_file" := VStr (path_name file_path)]>
       (<["status" := VStr "error"]>
       (<["error" := VStr (exn_str e)]> ∅))) |}.

Definition AudioProcessor_process (self : AudioProcessor)
    (file_path : string) : outcome (list BaseChunk) :=
  try_except
    (result ← transcribe (model self) file_path;
     if negb (dict_truthy result) || negb (truthy (dict_get result "text"))
     then Ok [no_speech_chunk file_path]
     else
       text_chunks ← split_text (text_splitter self) (dict_get result "text");
       Ok (imap (audio_chunk file_path result text_chunks) text_chunks))
    (fun e => Ok [error_chunk file_path e]).

(** Extraction of [file_path] fails with [e]: transcription raises, or
    splitting the transcript does. *)
Definition audio_fails (self : AudioProcessor) (file_path : string) (e : exn)
  : Prop :=
  transcribe (model self) file_path = Raise e
  \/ exists result,
       transcribe (model self) file_path = Ok result
       /\ dict_truthy result = true
       /\ truthy (dict_get result "text") = true
       /\ split_text (text_splitter self) (dict_get result "text") = Raise e.

End Audio.

(** ** processors/video_processor.py *)

Record VideoProcessor := {
  frame_sample_rate : Z;
  confidence_threshold : Q
}.

(** [range(0, stop, step)]: [0, step, 2 * step, ...] as long as the value
    is below [stop] for a positive step, above it for a negative one. *)
Definition py_range0 (stop step : Z) : outcome (list Z) :=
  if step =? 0 then Raise {| exn_str := "range() arg 3 must not be zero" |}
  else if step <? 0 then
    Ok (map (fun k => Z.of_nat k * step)
            (seq 0 (Z.to_nat ((- stop - step - 1) / (- step)))))
  else if stop <=? 0 then Ok []
  else
    Ok (map (fun k => Z.of_nat k * step)
            (seq 0 (Z.to_nat ((stop + step - 1) / step)))).

(** [', '.join(l)] *)
Fixpoint join_comma (l : list string) : string :=
  match l with
  | [] => ""
  | [x] => x
  | x :: l' => x ++ ", " ++ join_comma l'
  end.

Section Video.

Variable path_name : string -> string.

(** An opened [VideoFileClip]. *)
Variable clip : Type.
Variable open_clip : string -> outcome clip.
(** [int(video.duration)] *)
Variable duration : clip -> Z.
(** [video.audio.write_audiofile(path, logger=None)] *)
Variable write_audiofile : clip -> string -> outcome unit.
Variable close : clip -> outcome unit.
(** [tempfile.TemporaryDirectory()] *)
Variable temporary_directory : outcome string.
(** [os.path.join] *)
Variable path_join : string -> string -> string.
(** [AudioProcessor()], which loads the Whisper model. *)
Variable new_audio_processor : outcome AudioProcessor.
(** Frame extraction and DETR detection at second [t] with the given
    threshold: the detections kept, each as its label and its score
    printed with two decimals. *)
Variable detect : clip -> Z -> Q -> outcome (list (string * string)).
(** [str(t)] for an [int]. *)
Variable str_of_int : Z -> string.

Definition frame_chunk (t : Z) (detected_objects : list string) : BaseChunk :=
  {| content :=
       "Detected objects at " ++ str_of_int t ++ "s: "
       ++ join_comma detected_objects;
     metadata :=
       <["timestamp" := VInt t]>
       (<["type" := VStr "object_detection"]>
       (<["objects" := VList detected_objects]> ∅)) |}.

(** The [for t in range(...)] loop of [_process_frames]. *)
Fixpoint frames_loop (self : VideoProcessor) (video : clip) (ts : list Z)
    (chunks : list BaseChunk) : outcome (list BaseChunk) :=
  match ts with
  | [] => Ok chunks
  | t :: ts' =>
      results ← detect video t (confidence_threshold self);
      match results with
      | [] => frames_loop self video ts' chunks
      | _ :: _ =>
          let detected_objects :=
            map (fun '(label, score) => label ++ " (" ++ score ++ ")") results in
          frames_loop self video ts' (chunks ++ [frame_chunk t detected_objects])
      end
  end.

Definition _process_frames (self : VideoProcessor) (video : clip)
  : outcome (list BaseChunk) :=
  try_except
    (ts ← py_range0 (duration video) (frame_sample_rate self);
     frames_loop self video ts [])
    (fun e => Raise e).

Definition VideoProcessor_process (self : VideoProcessor)
    (file_path : string) : outcome (list BaseChunk) :=
  try_except
    (video ← open_clip file_path;
     temp_dir ← temporary_directory;
     let temp_audio_path := path_join temp_dir "temp_audio.wav" in
     write_audiofile video temp_audio_path;;
     audio_processor ← new_audio_processor;
     audio_chunks ← AudioProcessor_process path_name audio_processor temp_audio_path;
     frame_chunks ← _process_frames self video;
     close video;;
     Ok (audio_chunks ++ frame_chunks)%list)
    (fun e => Raise e).

(** Detection succeeds at second [t] of [video]. *)
Definition detects (self : VideoProcessor) (video : clip) (t : Z) : Prop :=
  exists results, detect video t (confidence_threshold self) = Ok results.

(** The frames of [video] fail with [e]: the sampled seconds cannot be
    enumerated (a sample rate of 0), or extraction or detection raises [e]
    at a sampled second after succeeding at the ones before. *)
Definition frames_fail (self : VideoProcessor) (video : clip) (e : exn)
  : Prop :=
  py_range0 (duration video) (frame_sample_rate self) = Raise e
  \/ exists (pre : list Z) (t : Z) (post : list Z),
       py_range0 (duration video) (frame_sample_rate self)
       = Ok (pre ++ t :: post)%list
       /\ Forall (detects self video) pre
       /\ detect video t (confidence_threshold self) = Raise e.

(** Extraction and detection succeed at every sampled second. *)
Definition frames_succeed (self : VideoProcessor) (video : clip) : Prop :=
  exists ts : list Z,
    py_range0 (duration video) (frame_sample_rate self) = Ok ts
    /\ Forall (detects self video) ts.

(** Extraction of [file_path] fails with [e]: [e] is raised by the first
    step that does not succeed, among opening the clip, creating the
    temporary directory, writing the audio track, loading the audio
    processor, looking at the sampled frames and closing the clip.
    Speech-to-text on the extracted track is not among them. *)
Definition video_fails (self : VideoProcessor) (file_path : string) (e : exn)
  : Prop :=
  open_clip file_path = Raise e
  \/ exists video, open_clip file_path = Ok video
     /\ (temporary_directory = Raise e
         \/ exists temp_dir, temporary_directory = Ok temp_dir
            /\ (write_audiofile video (path_join temp_dir "temp_audio.wav")
                = Raise e
                \/ write_audiofile video (path_join temp_dir "temp_audio.wav")
                   = Ok tt
                   /\ (new_audio_processor = Raise e
                       \/ exists audio_processor,
                            new_audio_processor = Ok audio_processor
                            /\ (frames_fail self video e
                                \/ frames_succeed self video
                                   /\ close video = Raise e)))).

End Video.

(** ** storage/vector_store.py *)

(** A document as the LangChain vector store returns it. *)
Record Document := {
  page_content : string;
  doc_metadata : gmap string pyval
}.

(** The answer of [vectorstore.get(ids=...)]. *)
Record GetResult := {
  documents : list string;
  metadatas : list (gmap string pyval)
}.

(** The calls [ChromaStore] makes on [self.vectorstore]. *)
Inductive vs_call : Type -> Type :=
| AddTexts (texts : list string) (metadatas : list (gmap string pyval))
    : vs_call (list string)
| SimilaritySearchWithScore (query : string) (k : Z)
    (filter : option (gmap string pyval)) : vs_call (list (Document * Q))
| Get (ids : list string) : vs_call GetResult
| Delete (ids : list string) : vs_call unit.

(** A method body: it ends with an outcome, or calls the vector store
    and goes on with whatever the call returned or raised. *)
Inductive prog (A : Type) : Type :=
| Done (r : outcome A)
| Call {R : Type} (c : vs_call R) (k : outcome R -> prog A).
Arguments Done {A} r.
Arguments Call {A R} c k.

(** A call recorded in the order it was made. *)
Inductive event :=
| Event {R : Type} (c : vs_call R).

(** A vector store: how each call answers and changes the store. *)
Definition backend (S : Type) : Type :=
  forall R : Type, vs_call R -> S -> outcome R * S.

(** Running a method against a vector store: the outcome, the store
    afterwards, and the calls made. *)
Fixpoint run {S A : Type} (h : backend S) (p : prog A) (s : S)
  : outcome A * S * list event :=
  match p with
  | Done r => (r, s, [])
  | Call c k =>
      let '(r, s') := h _ c s in
      let '(a, s'', evs) := run h (k r) s' in
      (a, s'', Event c :: evs)
  end.

(** What a method does with the outcome of a method it called. *)
Fixpoint and_then {A B : Type} (p : prog A) (f : outcome A -> outcome B)
  : prog B :=
  match p with
  | Done r => Done (f r)
  | Call c k => Call c (fun r => and_then (k r) f)
  end.

(** A vector store on which every call raises [e]. *)
Definition broken_backend (e : exn) : backend unit :=
  fun R _ s => (Raise e, s).

(** A vector store that holds nothing and accepts every call. *)
Definition empty_backend : backend unit :=
  fun R c s =>
    match c in vs_call R return outcome R * unit with
    | AddTexts texts _ => (Ok (map (fun _ => "id") texts), s)
    | SimilaritySearchWithScore _ _ _ => (Ok [], s)
    | Get _ => (Ok {| documents := []; metadatas := [] |}, s)
    | Delete _ => (Ok tt, s)
    end.

(** The [AddTexts] calls among the recorded ones: texts and metadata. *)
Fixpoint added (evs : list event)
  : list (list string * list (gmap string pyval)) :=
  match evs with
  | [] => []
  | Event c :: evs' =>
      match c with
      | AddTexts texts metadatas => (texts, metadatas) :: added evs'
      | _ => added evs'
      end
  end.

Module ChromaStore.

(** The metadata dictionary built in [add_document]. *)
Definition add_document_metadata (chunk : BaseChunk) : gmap string pyval :=
  <["document_type" := dict_get (metadata chunk) "document_type"]>
  (<["page_number" := dict_get (metadata chunk) "page_number"]>
  (<["timestamp" := dict_get_default (metadata chunk) "timestamp" (VFloat 0)]>
  (<["source_file" := dict_get (metadata chunk) "source_file"]>
  (<["chunk_index" := dict_get_default (metadata chunk) "chunk_index" (VInt 0)]>
  (<["language" := dict_get_default (metadata chunk) "language" (VStr "en")]>
   ∅))))).

Definition add_texts (texts : list string)
    (metadatas : list (gmap string pyval)) : prog (list string) :=
  Call (AddTexts texts metadatas)
       (fun r => Done (try_except r (fun e => Raise e))).

Definition add_document (chunk : BaseChunk) : prog string :=
  let metadata := add_document_metadata chunk in
  and_then (add_texts [content chunk] [metadata])
    (fun r => try_except (ids ← r; index0 ids) (fun e => Raise e)).

(** The [for chunk in chunks] loop of [batch_add_documents]. *)
Fixpoint batch_collect (chunks : list BaseChunk) (texts : list string)
    (metadatas : list (gmap string pyval))
  : list string * list (gmap string pyval) :=
  match chunks with
  | [] => (texts, metadatas)
  | chunk :: chunks' =>
      batch_collect chunks' (texts ++ [content chunk])
        (metadatas ++
           [ <["document_type" := dict_get (metadata chunk) "document_type"]>
             (<["page_number" := dict_get (metadata chunk) "page_number"]>
             (<["timestamp" :=
                  dict_get_default (metadata chunk) "timestamp" (VFloat 0)]>
             (<["source_file" := dict_get (metadata chunk) "source_file"]>
             (<["chunk_index" :=
                  dict_get_default (metadata chunk) "chunk_index" (VInt 0)]>
             (<["language" :=
                  dict_get_default (metadata chunk) "language" (VStr "en")]>
              ∅))))) ])
  end.

Definition batch_add_documents (chunks : list BaseChunk) (batch_size : Z)
  : prog unit :=
  let '(texts, metadatas) := batch_collect chunks [] [] in
  Call (AddTexts texts metadatas)
       (fun r =>
          Done (try_except (r;; Ok tt) (fun e => Raise e))).

(** [{"document_type": document_type} if document_type else None] *)
Definition filter_dict (document_type : option string)
  : option (gmap string pyval) :=
  match document_type with
  | Some t =>
      if negb (String.eqb t "")
      then Some (<["document_type" := VStr t]> ∅) else None
  | None => None
  end.

Section Search.

(** Validation of the [id] field of [SearchResult] (declared [str])
    by pydantic. *)
Variable validate_str : pyval -> outcome string.

Definition search_result (doc : Document) (score : Q)
  : outcome SearchResult :=
  id ← validate_str (dict_get_default (doc_metadata doc) "id" (VStr ""));
  Ok {| sr_id := id;
        sr_content := page_content doc;
        sr_score := score;
        sr_metadata :=
          <["document_type" := dict_get (doc_metadata doc) "document_type"]>
          (<["page_number" := dict_get (doc_metadata doc) "page_number"]>
          (<["source_file" := dict_get (doc_metadata doc) "source_file"]>
          (<["language" := dict_get (doc_metadata doc) "language"]> ∅))) |}.

(** The [for doc, score in docs_and_scores] loop. *)
Fixpoint search_results (docs_and_scores : list (Document * Q))
    (results : list SearchResult) : outcome (list SearchResult) :=
  match docs_and_scores with
  | [] => Ok results
  | (doc, score) :: rest =>
      r ← search_result doc score;
      search_results rest (results ++ [r])
  end.

Definition search (query : string) (document_type : option string)
    (limit : Z) : prog (list SearchResult) :=
  Call (SimilaritySearchWithScore query limit (filter_dict document_type))
       (fun r =>
          Done (try_except
                  (docs_and_scores ← r; search_results docs_and_scores [])
                  (fun e => Ok []))).

End Search.

(** The dictionary returned by [get_document]. *)
Record StoredDocument := {
  sd_content : string;
  sd_metadata : gmap string pyval
}.

Definition get_document (document_id : string)
  : prog (option StoredDocument) :=
  Call (Get [document_id])
       (fun r =>
          Done (try_except
                  (results ← r;
                   match documents results with
                   | [] => Ok None
                   | _ :: _ =>
                       doc ← index0 (documents results);
                       metadata ← index0 (metadatas results);
                       Ok (Some
                         {| sd_content := doc;
                            sd_metadata :=
                              <["document_type" := dict_get metadata "document_type"]>
                              (<["page_number" := dict_get metadata "page_number"]>
                              (<["source_file" := dict_get metadata "source_file"]>
                              (<["language" := dict_get metadata "language"]> ∅))) |})
                   end)
                  (fun e => Ok None))).

Definition delete_document (document_id : string) : prog unit :=
  Call (Delete [document_id])
       (fun r => Done (try_except r (fun e => Raise e))).

End ChromaStore.

(** ** Stand-ins for the external capabilities *)

(** A Whisper model that hears nothing. *)
Definition silent_whisper : Whisper :=
  {| transcribe := fun _ =>
       Ok (<["text" := VStr ""]> (<["language" := VStr "en"]> ∅)) |}.

(** A Whisper model that fails on every file. *)
Definition failing_whisper (e : exn) : Whisper :=
  {| transcribe := fun _ => Raise e |}.

(** A Whisper model that hears the same English sentence in every file. *)
Definition talking_whisper (text : string) : Whisper :=
  {| transcribe := fun _ =>
       Ok (<["text" := VStr text]> (<["language" := VStr "en"]> ∅)) |}.

(** A splitter that cuts nothing: the whole text is the only chunk. *)
Definition whole_text_splitter : TextSplitter :=
  {| split_text := fun v =>
       match v with
       | VStr s => Ok [s]
       | _ => Raise {| exn_str := "expected string or bytes-like object" |}
       end |}.

(** A splitter that cuts at every space. *)
Fixpoint words_from (l : list ascii) (word : list ascii) : list string :=
  match l with
  | [] => [Py.of_chars (rev word)]
  | c :: l' =>
      if Ascii.eqb c Py.space then Py.of_chars (rev word) :: words_from l' []
      else words_from l' (c :: word)
  end.
Definition word_splitter : TextSplitter :=
  {| split_text := fun v =>
       match v with
       | VStr s => Ok (words_from (Py.chars s) [])
       | _ => Raise {| exn_str := "expected string or bytes-like object" |}
       end |}.

(** A vector store that is unreachable for every call but [get], and
    that holds no document. *)
Definition flaky_backend (e : exn) : backend unit :=
  fun R c s =>
    match c in vs_call R return outcome R * unit with
    | Get _ => (Ok {| documents := []; metadatas := [] |}, s)
    | _ => (Raise e, s)
    end.

(** The metadata keys the specification lists as recognized. *)
Definition recognized_keys : gset string :=
  {[ "document_type"; "source_file"; "chunk_index"; "total_chunks";
     "page_number"; "timestamp"; "language"; "status" ]}.

(** The keys of a persisted metadata record. *)
Definition persisted_keys : gset string :=
  {[ "document_type"; "page_number"; "timestamp"; "source_file";
     "chunk_index"; "language" ]}.

(** [md] is the record persisted for [chunk]: the six keys, each with the
    chunk's value or, when the chunk has none, [None] or the default. *)
Definition persisted_for (chunk : BaseChunk) (md : gmap string pyval) : Prop :=
  dom md = persisted_keys
  /\ md !! "document_type"
     = Some (default VNone (metadata chunk !! "document_type"))
  /\ md !! "page_number"
     = Some (default VNone (metadata chunk !! "page_number"))
  /\ md !! "source_file"
     = Some (default VNone (metadata chunk !! "source_file"))
  /\ md !! "timestamp"
     = Some (default (VFloat 0) (metadata chunk !! "timestamp"))
  /\ md !! "chunk_index"
     = Some (default (VInt 0) (metadata chunk !! "chunk_index"))
  /\ md !! "language"
     = Some (default (VStr "en") (metadata chunk !! "language"))
  /\ md !! "status" = None.

(** A chunk sequence numbered as the specification asks: the chunk at
    position [i] has [chunk_index = i], and every chunk has [total_chunks]
    equal to the length of the sequence. *)
Definition indexed_sequence (chunks : list BaseChunk) : Prop :=
  forall (i : nat) (chunk : BaseChunk),
    chunks !! i = Some chunk ->
    metadata chunk !! "chunk_index" = Some (VInt (Z.of_nat i))
    /\ metadata chunk !! "total_chunks"
       = Some (VInt (Z.of_nat (length chunks))).

(** The chunk is tagged with page number [p]. *)
Definition on_page (p : Z) (chunk : BaseChunk) : bool :=
  match metadata chunk !! "page_number" with
  | Some (VInt q) => q =? p
  | _ => false
  end.

(** What holds of the chunks collected before page [i] (0-based) is
    reached: they are tagged with earlier pages, carry no [total_chunks],
    and are numbered from 0 within each page. *)
Definition numbered_by_page (i : nat) (chunks : list BaseChunk) : Prop :=
  Forall (fun chunk =>
            (exists p, metadata chunk !! "page_number" = Some (VInt p)
                       /\ 1 <= p <= Z.of_nat i)
            /\ metadata chunk !! "total_chunks" = None) chunks
  /\ forall (p : Z) (j : nat) (chunk : BaseChunk),
       List.filter (on_page p) chunks !! j = Some chunk ->
       metadata chunk !! "chunk_index" = Some (VInt (Z.of_nat j)).

(** A one-page document. *)
Definition one_page_pdf : string -> outcome (list (outcome string)) :=
  fun _ => Ok [Ok "Lease agreement"].

(** Validation that accepts a string and nothing else. *)
Definition strict_str (v : pyval) : outcome string :=
  match v with
  | VStr s => Ok s
  | _ => Raise {| exn_str := "Input should be a valid string" |}
  end.

(** A document whose second page cannot be read. *)
Definition damaged_pdf (e : exn) : string -> outcome (list (outcome string)) :=
  fun _ => Ok [Ok "Lease agreement"; Raise e].

(** A clip whose frame at second 1 cannot be looked at; nothing is
    detected in the others. *)
Definition damaged_frame (e : exn)
  : unit -> Z -> Q -> outcome (list (string * string)) :=
  fun _ t _ => if t =? 1 then Raise e else Ok [].

(** The text has neither a space nor a newline. *)
Definition separator_free (text : string) : bool :=
  forallb (fun c => negb (Ascii.eqb c Py.newline || Ascii.eqb c Py.space))
          (Py.chars text).

(** The characters [_split_text] breaks at. *)
Definition is_separator (c : ascii) : bool :=
  Ascii.eqb c Py.newline || Ascii.eqb c Py.space.

(** The cursor after [k] passes of the loop of [_split_text]. *)
Fixpoint cursor_after (k : nat) (self : PDFProcessor) (text : string) : Z :=
  match k with
  | O => 0
  | S k' => snd (split_step self text (cursor_after k' self text))
  end.

(** The page is blank: its text is empty once trimmed. *)
Definition blank_page (page : outcome string) : Prop :=
  exists text, page = Ok text /\ Py.strip text = "".

(** A document with a cover page that is blank and one page of text. *)
Definition cover_and_text_pdf : string -> outcome (list (outcome string)) :=
  fun _ => Ok [Ok "   "; Ok "Lease agreement"].

(** A document of two blank pages. *)
Definition blank_pdf : string -> outcome (list (outcome string)) :=
  fun _ => Ok [Ok ""; Ok "   "].

(** A document whose only page holds [stalling_text]. *)
Definition stalling_pdf : string -> outcome (list (outcome string)) :=
  fun _ => Ok [Ok stalling_text].

(** The chunk is the one built for some piece of the text of some page of
    [pages] that is not blank. *)
Definition from_pages (path_name : string -> string) (self : PDFProcessor)
    (file_path : string) (fuel : nat) (pages : list (outcome string))
    (chunk : BaseChunk) : Prop :=
  exists (i j : nat) (text : string) (text_chunks : list string)
         (chunk_text : string),
    pages !! i = Some (Ok text)
    /\ Py.strip text <> ""
    /\ _split_text fuel self text = Some text_chunks
    /\ text_chunks !! j = Some chunk_text
    /\ chunk = pdf_chunk path_name self file_path i j chunk_text.

(** The string starts, or ends, with a whitespace character. *)
Definition starts_with_space (s : string) : bool :=
  match Py.chars s with
  | c :: _ => Py.isspace c
  | [] => false
  end.
Definition ends_with_space (s : string) : bool :=
  match rev (Py.chars s) with
  | c :: _ => Py.isspace c
  | [] => false
  end.

(** The chunk [_process_frames] builds at second [t] from the detections
    [results], each a label and a printed score. *)
Definition detection_chunk (str_of_int : Z -> string) (t : Z)
    (results : list (string * string)) : BaseChunk :=
  frame_chunk str_of_int t
    (map (fun '(label, score) => label ++ " (" ++ score ++ ")") results).

(** How a chunk returned for a video is tagged: as a transcript chunk of
    the extracted audio track, or as a detection chunk. *)
Definition video_chunk_tags (audio_name : string) (chunk : BaseChunk) : Prop :=
  (metadata chunk !! "document_type" = Some (VStr "audio")
   /\ metadata chunk !! "source_file" = Some (VStr audio_name))
  \/ (metadata chunk !! "document_type" = None
      /\ metadata chunk !! "source_file" = None
      /\ metadata chunk !! "type" = Some (VStr "object_detection")).

(** A clip of [d] seconds in which a gavel is seen at every even second. *)
Definition gavel_detect : unit -> Z -> Q -> outcome (list (string * string)) :=
  fun _ t _ => if Z.even t then Ok [("gavel", "0.97")] else Ok [].

(** The keys of the metadata that [search] and [get_document] give
    back. *)
Definition returned_keys : gset string :=
  {[ "document_type"; "page_number"; "source_file"; "language" ]}.

(** A vector store holding one document, which it returns for every id
    and every query. *)
Definition single_document_backend (text : string) (md : gmap string pyval)
  : backend unit :=
  fun R c s =>
    match c in vs_call R return outcome R * unit with
    | AddTexts texts _ => (Ok (map (fun _ => "id-0") texts), s)
    | SimilaritySearchWithScore _ _ _ =>
        (Ok [({| page_content := text; doc_metadata := md |}, 0.25%Q)], s)
    | Get _ => (Ok {| documents := [text]; metadatas := [md] |}, s)
    | Delete _ => (Ok tt, s)
    end.

(** A vector store whose answer to [get] has a document but no
    metadata. *)
Definition lopsided_backend : backend unit :=
  fun R c s =>
    match c in vs_call R return outcome R * unit with
    | AddTexts texts _ => (Ok [], s)
    | SimilaritySearchWithScore _ _ _ => (Ok [], s)
    | Get _ => (Ok {| documents := ["text"]; metadatas := [] |}, s)
    | Delete _ => (Ok tt, s)
    end.

(** [result] is the search result built from the document [doc] found
    with [score]: content and score as found, the id validated from the
    document's ["id"] entry (or [""]), and the four returned keys. *)
Definition result_of (validate_str : pyval -> outcome string)
    (found : Document * Q) (result : SearchResult) : Prop :=
  sr_content result = page_content found.1
  /\ sr_score result = found.2
  /\ validate_str (default (VStr "") (doc_metadata found.1 !! "id"))
     = Ok (sr_id result)
  /\ dom (sr_metadata result) = returned_keys
  /\ (forall k, k ∈ returned_keys ->
        sr_metadata result !! k
        = Some (default VNone (doc_metadata found.1 !! k))).

(** ** storage/mock_store.py *)

(** [str(n)] for a length. *)
Definition str_of_nat (n : nat) : string :=
  NilEmpty.string_of_uint (Nat.to_uint n).

(** [v != t] for a string [t]. *)
Definition differs_from_str (v : pyval) (t : string) : bool :=
  match v with
  | VStr s => negb (String.eqb s t)
  | _ => true
  end.

Module MockStore.

(** [self.documents], a dictionary from id to chunk, in insertion order;
    the chunks hold text. *)
Record t := {
  documents : list (string * base_chunker.BaseChunk string)
}.

(** [MockStore()] *)
Definition init : t := {| documents := [] |}.

(** [d[k] = v]: the entry of an existing key is replaced in place, a new
    key goes to the end. *)
Fixpoint dict_set {V} (d : list (string * V)) (k : string) (v : V)
  : list (string * V) :=
  match d with
  | [] => [(k, v)]
  | (k', v') :: d' =>
      if String.eqb k' k then (k, v) :: d' else (k', v') :: dict_set d' k v
  end.

(** [d[k]] *)
Fixpoint dict_lookup {V} (d : list (string * V)) (k : string) : option V :=
  match d with
  | [] => None
  | (k', v') :: d' => if String.eqb k' k then Some v' else dict_lookup d' k
  end.

Definition add_document (self : t) (chunk : base_chunker.BaseChunk string)
  : string * t :=
  let doc_id := str_of_nat (length (documents self)) in
  (doc_id, {| documents := dict_set (documents self) doc_id chunk |}).

(** The [for doc_id, chunk in self.documents.items()] loop of [search]. *)
Fixpoint search_loop (items : list (string * base_chunker.BaseChunk string))
    (document_type : option string) (results : list SearchResult)
  : list SearchResult :=
  match items with
  | [] => results
  | (doc_id, chunk) :: items' =>
      if match document_type with
         | Some t =>
             negb (String.eqb t "")
             && differs_from_str
                  (dict_get (base_chunker.metadata chunk) "document_type") t
         | None => false
         end
      then search_loop items' document_type results
      else
        search_loop items' document_type
          (results ++ [ {| sr_id := doc_id;
                           sr_content := base_chunker.content chunk;
                           sr_score := 1;
                           sr_metadata := base_chunker.metadata chunk |} ])
  end.

Definition search (self : t) (query : string) (document_type : option string)
    (limit : Z) : list SearchResult :=
  let results := search_loop (documents self) document_type [] in
  take (Z.to_nat (Py.adjust (Z.of_nat (length results)) limit)) results.

(** [add_document] called on each chunk in turn: the ids returned and the
    store afterwards. *)
Fixpoint add_all (self : t) (chunks : list (base_chunker.BaseChunk string))
  : list string * t :=
  match chunks with
  | [] => ([], self)
  | chunk :: chunks' =>
      let '(doc_id, self') := add_document self chunk in
      let '(ids, self'') := add_all self' chunks' in
      (doc_id :: ids, self'')
  end.

End MockStore.

(** The chunk passes the [document_type] filter of a search. *)
Definition matches_type (document_type : option string)
    (chunk : base_chunker.BaseChunk string) : Prop :=
  match document_type with
  | Some t =>
      t = "" \/ base_chunker.metadata chunk !! "document_type" = Some (VStr t)
  | None => True
  end.

(** The search result [MockStore.search] builds for a stored entry. *)
Definition mock_result (entry : string * base_chunker.BaseChunk string)
  : SearchResult :=
  {| sr_id := entry.1;
     sr_content := base_chunker.content entry.2;
     sr_score := 1;
     sr_metadata := base_chunker.metadata entry.2 |}.

(** The ids of a store filled by [add_document] alone are the numbers
    below its size, in order. *)
Definition numbered (m : nat)
    (d : list (string * base_chunker.BaseChunk string)) : Prop :=
  map fst d = map str_of_nat (seq 0 m).

(** ** services/mistral_service.py *)

(** The one-character string ["\n"]. *)
Definition nl : string := String Py.newline "".

(** [l] starts with [sep]. *)
Fixpoint starts_with (sep l : list ascii) : bool :=
  match sep, l with
  | [], _ => true
  | c :: sep', x :: l' => Ascii.eqb c x && starts_with sep' l'
  | _ :: _, [] => false
  end.

(** Cutting [l] at every occurrence of [sep], left to right, occurrences
    not overlapping: [skip] characters of a separator just found are
    still to be passed over, [cur] is the piece being read, reversed. *)
Fixpoint split_chars (sep : list ascii) (skip : nat) (cur l : list ascii)
  : list (list ascii) :=
  match l with
  | [] => [rev cur]
  | x :: l' =>
      match skip with
      | S k => split_chars sep k cur l'
      | O =>
          if starts_with sep l
          then rev cur :: split_chars sep (length sep - 1) [] l'
          else split_chars sep 0 (x :: cur) l'
      end
  end.

(** [s.split(sep)] for a separator that is not empty. *)
Definition py_split (s sep : string) : list string :=
  map Py.of_chars (split_chars (Py.chars sep) 0 [] (Py.chars s)).

(** [c in s] for a one-character [c]. *)
Definition contains (s : string) (c : ascii) : bool :=
  existsb (Ascii.eqb c) (Py.chars s).

(** The number of occurrences of [c] in [s]. *)
Definition count_char (s : string) (c : ascii) : nat :=
  length (List.filter (Ascii.eqb c) (Py.chars s)).

(** [l[i]] *)
Definition index_at {A} (l : list A) (i : nat) : outcome A :=
  match l !! i with
  | Some x => Ok x
  | None => Raise {| exn_str := "list index out of range" |}
  end.

(** [a, b, c = l] *)
Definition unpack3 (l : list string) : outcome (string * string * string) :=
  match l with
  | [a; b; c] => Ok (a, b, c)
  | _ :: _ :: _ :: _ :: _ =>
      Raise {| exn_str := "too many values to unpack (expected 3)" |}
  | _ =>
      Raise {| exn_str := "not enough values to unpack (expected 3, got "
                          ++ str_of_nat (length l) ++ ")" |}
  end.

(** [a, b, c, d = l] *)
Definition unpack4 (l : list string)
  : outcome (string * string * string * string) :=
  match l with
  | [a; b; c; d] => Ok (a, b, c, d)
  | _ :: _ :: _ :: _ :: _ :: _ =>
      Raise {| exn_str := "too many values to unpack (expected 4)" |}
  | _ =>
      Raise {| exn_str := "not enough values to unpack (expected 4, got "
                          ++ str_of_nat (length l) ++ ")" |}
  end.

(** What a service method raises: an exception of the standard library
    or of the client, or FastAPI's [HTTPException]. *)
Inductive raised :=
| Plain (e : exn)
| HTTPException (status_code : Z) (detail : string).

Inductive result (A : Type) :=
| Returns (a : A)
| Raises (r : raised).
Arguments Returns {A} a.
Arguments Raises {A} r.

(** An [outcome] inside a service method. *)
Definition lift {A} (o : outcome A) : result A :=
  match o with Ok a => Returns a | Raise e => Raises (Plain e) end.

Definition result_bind {A B} (m : result A) (f : A -> result B) : result B :=
  match m with Returns a => f a | Raises r => Raises r end.

Module MistralService.

Record t := {
  api_key : string;
  model : string
}.

Section Service.

(** [str(e)] for an [HTTPException]. *)
Variable http_str : Z -> string -> string.
(** [self.client.chat(model, messages, temperature, max_tokens)]: the
    message contents of [response.choices]. *)
Variable chat :
  string -> list (gmap string pyval) -> Q -> Z -> outcome (list string).
(** [float(s)] *)
Variable py_float : string -> outcome Q.

Definition str_raised (r : raised) : string :=
  match r with
  | Plain e => exn_str e
  | HTTPException status_code detail => http_str status_code detail
  end.

(** [try: body except Exception as e:
      raise HTTPException(status_code=500, detail=f"{prefix}{str(e)}")] *)
Definition or_http_500 {A} (prefix : string) (body : result A) : result A :=
  match body with
  | Returns a => Returns a
  | Raises r => Raises (HTTPException 500 (prefix ++ str_raised r))
  end.

Definition _create_messages (self : t) (system_content user_content : string)
  : list (gmap string pyval) :=
  [ <["role" := VStr "system"]> (<["content" := VStr system_content]> ∅);
    <["role" := VStr "user"]> (<["content" := VStr user_content]> ∅) ].

Definition _make_request (self : t) (messages : list (gmap string pyval))
    (max_tokens : Z) (temperature : Q) : result string :=
  or_http_500 "API request failed: "
    (lift (choices ← chat (model self) messages temperature max_tokens;
           index0 choices)).

Definition analyze_document (self : t) (content query : string)
  : result string :=
  or_http_500 "Document analysis failed: "
    (_make_request self
       (_create_messages self
          ("You are a legal document analysis assistant. Analyze the provided document and answer questions about it.")
          ("Document content: " ++ content ++ nl ++ nl ++ "Query: " ++ query))
       1000 0.1).

Definition summarize_document (self : t) (content : string) : result string :=
  or_http_500 "Document summarization failed: "
    (_make_request self
       (_create_messages self
          ("You are a legal document analysis assistant. Provide clear and concise summaries of legal documents.")
          ("Please summarize this legal document:" ++ nl ++ nl ++ content))
       500 0.1).

(** [[point.strip() for point in lines if point.strip()]] *)
Fixpoint stripped_points (lines : list string) : list string :=
  match lines with
  | [] => []
  | point :: lines' =>
      if negb (String.eqb (Py.strip point) "")
      then Py.strip point :: stripped_points lines'
      else stripped_points lines'
  end.

Definition extract_key_points (self : t) (content : string)
  : result (list string) :=
  or_http_500 "Key point extraction failed: "
    (result_bind
       (_make_request self
          (_create_messages self
             ("You are a legal document analysis assistant. Extract and list the key points from legal documents.")
             ("Extract the key points from this document:" ++ nl ++ nl
              ++ content))
          500 0.1)
       (fun response => Returns (stripped_points (py_split response nl)))).

(** The [for line in response.split('\n')] loop of
    [extract_legal_citations]. *)
Fixpoint citations_loop (lines : list string)
    (citations : list (gmap string pyval))
  : outcome (list (gmap string pyval)) :=
  match lines with
  | [] => Ok citations
  | line :: lines' =>
      if contains line "|" then
        '(citation, type_, relevance) ←
          unpack3 (map Py.strip (py_split line "|"));
        citations_loop lines'
          (citations
           ++ [ <["citation" := VStr citation]>
                (<["type" := VStr type_]>
                (<["relevance" := VStr relevance]> ∅)) ])
      else citations_loop lines' citations
  end.

Definition extract_legal_citations (self : t) (content : string)
  : result (list (gmap string pyval)) :=
  or_http_500 "Citation extraction failed: "
    (result_bind
       (_make_request self
          (_create_messages self
             ("You are a legal citation expert. Extract and analyze legal citations from documents."
              ++ nl ++ "                For each citation, provide:"
              ++ nl ++ "                1. The full citation text"
              ++ nl ++ "                2. The type of citation (case law, statute, regulation, etc.)"
              ++ nl ++ "                3. A brief explanation of its relevance"
              ++ nl ++ "                Format your response as a list with each citation on a new line, separated by '|' characters.")
             ("Extract and analyze all legal citations from this document:"
              ++ nl ++ nl ++ content))
          1000 0.1)
       (fun response => lift (citations_loop (py_split response nl) []))).

(** The loop of [analyze_contract_clauses]. *)
Fixpoint clauses_loop (lines : list string)
    (analyses : list (gmap string pyval))
  : outcome (list (gmap string pyval)) :=
  match lines with
  | [] => Ok analyses
  | line :: lines' =>
      if contains line "|" then
        '(clause, type_, risk, comments) ←
          unpack4 (map Py.strip (py_split line "|"));
        clauses_loop lines'
          (analyses
           ++ [ <["clause" := VStr clause]>
                (<["type" := VStr type_]>
                (<["risk_level" := VStr risk]>
                (<["comments" := VStr comments]> ∅))) ])
      else clauses_loop lines' analyses
  end.

Definition analyze_contract_clauses (self : t) (content : string)
  : result (list (gmap string pyval)) :=
  or_http_500 "Contract analysis failed: "
    (result_bind
       (_make_request self
          (_create_messages self
             ("You are a contract analysis expert. Analyze contract clauses and provide insights."
              ++ nl ++ "                For each significant clause:"
              ++ nl ++ "                1. Identify the clause type"
              ++ nl ++ "                2. Assess risk level"
              ++ nl ++ "                3. Provide analysis and highlight potential issues"
              ++ nl ++ "                Format your response as a list with each clause analysis on a new line, using '|' as separator.")
             ("Analyze the clauses in this contract:" ++ nl ++ nl ++ content))
          1500 0.1)
       (fun response => lift (clauses_loop (py_split response nl) []))).

(** The loop of [identify_parties]. *)
Fixpoint parties_loop (lines : list string)
    (parties : list (gmap string pyval))
  : outcome (list (gmap string pyval)) :=
  match lines with
  | [] => Ok parties
  | line :: lines' =>
      if contains line "|" then
        '(name, role, type_, obligations) ←
          unpack4 (map Py.strip (py_split line "|"));
        parties_loop lines'
          (parties
           ++ [ <["name" := VStr name]>
                (<["role" := VStr role]>
                (<["type" := VStr type_]>
                (<["obligations" := VStr obligations]> ∅))) ])
      else parties_loop lines' parties
  end.

Definition identify_parties (self : t) (content : string)
  : result (list (gmap string pyval)) :=
  or_http_500 "Party identification failed: "
    (result_bind
       (_make_request self
          (_create_messages self
             ("You are a legal party analysis expert. Identify and analyze parties in legal documents."
              ++ nl ++ "                For each party provide:"
              ++ nl ++ "                1. Full name/identifier"
              ++ nl ++ "                2. Role in the document"
              ++ nl ++ "                3. Type of party"
              ++ nl ++ "                4. Key obligations or rights"
              ++ nl ++ "                Format each party on a new line with '|' separators.")
             ("Identify and analyze all parties in this document:"
              ++ nl ++ nl ++ content))
          1000 0.1)
       (fun response => lift (parties_loop (py_split response nl) []))).

(** The result of [assess_legal_risks]. *)
Record RiskAssessment := {
  overall_risk_level : string;
  risk_factors : list string;
  recommendations : list string;
  priority_issues : list string
}.

(** [[x.strip() for x in section.split('\n')[1:]]] *)
Definition items_after_heading (section : string) : list string :=
  map Py.strip (drop 1 (py_split section nl)).

Definition risk_sections (sections : list string) : outcome RiskAssessment :=
  s0 ← index_at sections 0;
  level ← index_at (py_split s0 ":") 1;
  s1 ← index_at sections 1;
  s2 ← index_at sections 2;
  s3 ← index_at sections 3;
  Ok {| overall_risk_level := Py.strip level;
        risk_factors := items_after_heading s1;
        recommendations := items_after_heading s2;
        priority_issues := items_after_heading s3 |}.

Definition assess_legal_risks (self : t) (content : string)
  : result RiskAssessment :=
  or_http_500 "Risk assessment failed: "
    (result_bind
       (_make_request self
          (_create_messages self
             ("You are a legal risk assessment expert. Analyze documents for potential legal risks."
              ++ nl ++ "                Provide:"
              ++ nl ++ "                1. Overall risk level (low, medium, high)"
              ++ nl ++ "                2. Specific risk factors identified"
              ++ nl ++ "                3. Recommendations for risk mitigation"
              ++ nl ++ "                4. High-priority issues requiring immediate attention")
             ("Perform a legal risk assessment of this document:"
              ++ nl ++ nl ++ content))
          1000 0.1)
       (fun response => lift (risk_sections (py_split response (nl ++ nl))))).

(** The result of [classify_document]. *)
Record Classification := {
  document_type : string;
  sub_type : string;
  jurisdiction : string;
  practice_area : string;
  confidence : Q
}.

(** [lines[i].split(':')[1].strip()] *)
Definition field_of_line (lines : list string) (i : nat) : outcome string :=
  line ← index_at lines i;
  value ← index_at (py_split line ":") 1;
  Ok (Py.strip value).

Definition classification_lines (lines : list string)
  : outcome Classification :=
  f0 ← field_of_line lines 0;
  f1 ← field_of_line lines 1;
  f2 ← field_of_line lines 2;
  f3 ← field_of_line lines 3;
  f4 ← field_of_line lines 4;
  c ← py_float f4;
  Ok {| document_type := f0; sub_type := f1; jurisdiction := f2;
        practice_area := f3; confidence := c |}.

Definition classify_document (self : t) (content : string)
  : result Classification :=
  or_http_500 "Document classification failed: "
    (result_bind
       (_make_request self
          (_create_messages self
             ("You are a legal document classification expert. Analyze and categorize legal documents."
              ++ nl ++ "                Provide:"
              ++ nl ++ "                1. Primary document type"
              ++ nl ++ "                2. Specific sub-type"
              ++ nl ++ "                3. Relevant jurisdiction"
              ++ nl ++ "                4. Legal practice area"
              ++ nl ++ "                5. Classification confidence (0-1)"
              ++ nl ++ "                Format as JSON-like structure.")
             ("Classify this legal document:" ++ nl ++ nl ++ content))
          500 0.1)
       (fun response => lift (classification_lines (py_split response nl)))).

End Service.

End MistralService.

(** A point of [extract_key_points]: not empty, no whitespace around. *)
Definition clean_point (p : string) : Prop :=
  p <> "" /\ starts_with_space p = false /\ ends_with_space p = false.

(** A chat client that always answers [response]. *)
Definition canned_chat (response : string)
  : string -> list (gmap string pyval) -> Q -> Z -> outcome (list string) :=
  fun _ _ _ _ => Ok [response].

(** A chat client that is unreachable. *)
Definition failing_chat (e : exn)
  : string -> list (gmap string pyval) -> Q -> Z -> outcome (list string) :=
  fun _ _ _ _ => Raise e.

(** [str(e)] of an [HTTPException] as Starlette prints it. *)
Definition starlette_str (status_code : Z) (detail : string) : string :=
  (if status_code =? 500 then "500" else "400") ++ ": " ++ detail.

Definition a_service : MistralService.t :=
  {| MistralService.api_key := "key"; MistralService.model := "mistral-medium" |}.

(** A result that is a value or an [HTTPException] with status 500. *)
Definition value_or_500 {A} (r : result A) : Prop :=
  match r with
  | Returns _ => True
  | Raises (HTTPException status_code _) => status_code = 500
  | Raises (Plain _) => False
  end.

(** The line has a ['|'] but not exactly two. *)
Definition malformed_citation_line (line : string) : Prop :=
  count_char line "|" <> 0%nat /\ count_char line "|" <> 2%nat.

(** The dictionary [extract_legal_citations] builds from a line. *)
Definition citation_of_line (line : string) (c : gmap string pyval) : Prop :=
  exists citation type_ relevance,
    map Py.strip (py_split line "|") = [citation; type_; relevance]
    /\ c = <["citation" := VStr citation]>
           (<["type" := VStr type_]>
           (<["relevance" := VStr relevance]> ∅)).

(** Answers of the model used below. *)
Definition key_points_answer : string :=
  "  Rent is due monthly " ++ nl ++ "   " ++ nl ++ "Deposit: two months".
Definition citations_answer : string :=
  "Smith v. Jones | case law | notice period" ++ nl ++ "No other citation.".
Definition broken_citations_answer : string :=
  "Smith v. Jones | case law | notice period" ++ nl ++ "Doe v. Roe | statute".
Definition short_risk_answer : string := "Overall risk level: high".

(** ** api/routes.py, [upload_document] *)

(** [c.lower()] on the code points below 256. *)
Definition lower_char (c : ascii) : ascii :=
  let n := nat_of_ascii c in
  if ((65 <=? n) && (n <=? 90)
      || (192 <=? n) && (n <=? 222) && negb (n =? 215))%nat
  then ascii_of_nat (n + 32) else c.

(** [s.lower()] *)
Definition py_lower (s : string) : string :=
  Py.of_chars (map lower_char (Py.chars s)).

(** [l[-1]] for the list a [split] returns, which is never empty. *)
Definition last_piece (l : list string) : string := List.last l "".

Module Routes.

Section Upload.

(** [str(e)] for an [HTTPException]. *)
Variable http_str : Z -> string -> string.
(** [uploads_dir.mkdir(exist_ok=True)] *)
Variable mkdir_uploads : outcome unit.
(** [str(uploads_dir / filename)] *)
Variable upload_path : string -> string.
(** Opening the file at a path, reading the upload and writing it. *)
Variable save_upload : string -> outcome unit.
(** [file_path.unlink(missing_ok=True)] *)
Variable unlink : string -> outcome unit.
(** The [process] methods of the module's [pdf_processor],
    [audio_processor] and [video_processor]. *)
Variable pdf_process : nat -> string -> option (outcome (list BaseChunk)).
Variable audio_process : string -> outcome (list BaseChunk).
Variable video_process : string -> outcome (list BaseChunk).

Definition str_raised (r : raised) : string :=
  match r with
  | Plain e => exn_str e
  | HTTPException status_code detail => http_str status_code detail
  end.

(** [vector_store.add_documents(chunks)]: [vector_store] is a
    [ChromaStore], and [ChromaStore] has no attribute [add_documents]. *)
Definition add_documents (chunks : list BaseChunk) : outcome unit :=
  Raise {| exn_str := "'ChromaStore' object has no attribute 'add_documents'" |}.

(** The [try] block once [file_path] is bound.  [None]: the text-document
    extractor did not return within [fuel]. *)
Definition upload_try (fuel : nat) (filename file_path : string)
  : option (result (gmap string pyval)) :=
  match save_upload file_path with
  | Raise e => Some (Raises (Plain e))
  | Ok _ =>
      let file_extension := last_piece (py_split (py_lower filename) ".") in
      let processed : option (result (list BaseChunk)) :=
        if String.eqb file_extension "pdf" then
          option_map lift (pdf_process fuel file_path)
        else if String.eqb file_extension "mp3"
                || String.eqb file_extension "wav" then
          Some (lift (audio_process file_path))
        else if String.eqb file_extension "mp4"
                || String.eqb file_extension "avi" then
          Some (lift (video_process file_path))
        else
          Some (Raises (HTTPException 400
                          ("Unsupported file type: " ++ file_extension))) in
      match processed with
      | None => None
      | Some r =>
          Some (result_bind r (fun chunks =>
                  result_bind (lift (add_documents chunks)) (fun _ =>
                    Returns
                      (<["message" := VStr "Document processed successfully"]>
                         (∅ : gmap string pyval)))))
      end
  end.

(** [upload_document]: the [except] clause turns every exception into an
    [HTTPException] of status 500, and the [finally] clause removes the
    file once [file_path] is bound. *)
Definition upload_document (fuel : nat) (filename : string)
  : option (result (gmap string pyval)) :=
  match mkdir_uploads with
  | Raise e => Some (Raises (HTTPException 500 (exn_str e)))
  | Ok _ =>
      let file_path := upload_path filename in
      match upload_try fuel filename file_path with
      | None => None
      | Some r =>
          let handled :=
            match r with
            | Returns v => Returns v
            | Raises x => Raises (HTTPException 500 (str_raised x))
            end in
          match unlink file_path with
          | Ok _ => Some handled
          | Raise e => Some (Raises (Plain e))
          end
      end
  end.

End Upload.

End Routes.

(** Every character of [s] is whitespace ([s] may be empty). *)
Definition all_space (s : string) : bool :=
  forallb Py.isspace (Py.chars s).

(** * Properties *)

(** ** Worked examples *)

Example slice_neg : Py.slice " abcdef" (-1) 2 = "".
Proof. reflexivity. Qed.
Example slice_mid : Py.slice " abcdef" 1 4 = "abc".
Proof. reflexivity. Qed.
Example slice_past : Py.slice " abcdef" 5 8 = "ef".
Proof. reflexivity. Qed.
Example rfind_hit : Py.rfind "a b c" Py.space = 3.
Proof. reflexivity. Qed.
Example rfind_miss : Py.rfind "abc" Py.space = -1.
Proof. reflexivity. Qed.
Example strip_ex : Py.strip "  a b  " = "a b".
Proof. reflexivity. Qed.

Example split_small :
  _split_text 10 {| chunk_size := 3; chunk_overlap := 1 |} " abcdef"
  = Some [""; ""; "abc"; "cde"; "ef"].
Proof. reflexivity. Qed.

Example split_words :
  _split_text 10 {| chunk_size := 6; chunk_overlap := 1 |} "ab cd ef gh"
  = Some ["ab cd"; "d ef"; "f gh"].
Proof. vm_compute. reflexivity. Qed.

(** ** The splitting loop *)

Section SplitLoop.

Variable self : PDFProcessor.
Variable text : string.

Lemma split_loop_unfold fuel chunks start :
  start < Py.len text ->
  split_loop (S fuel) self text chunks start
  = split_loop fuel self text
      (chunks ++ [fst (split_step self text start)])
      (snd (split_step self text start)).
Proof.
  intros Hlt. simpl.
  destruct (Z.ltb_spec start (Py.len text)); [| lia].
  destruct (split_step self text start); reflexivity.
Qed.

Lemma split_loop_exit fuel chunks start :
  Py.len text <= start ->
  split_loop fuel self text chunks start = Some chunks.
Proof.
  intros Hge. destruct fuel; simpl;
    destruct (Z.ltb_spec start (Py.len text)); try lia; reflexivity.
Qed.

(** A cursor that the loop body maps to itself is never left. *)
Lemma split_loop_stuck start :
  start < Py.len text ->
  snd (split_step self text start) = start ->
  forall fuel chunks, split_loop fuel self text chunks start = None.
Proof.
  intros Hlt Hfix fuel. induction fuel as [| fuel IH]; intros chunks.
  - simpl. destruct (Z.ltb_spec start (Py.len text)); [reflexivity | lia].
  - rewrite split_loop_unfold by exact Hlt. rewrite Hfix. apply IH.
Qed.

(** Divergence is inherited by every cursor that leads to it. *)
Lemma split_loop_diverges_before start :
  start < Py.len text ->
  (forall fuel chunks,
      split_loop fuel self text chunks (snd (split_step self text start))
      = None) ->
  forall fuel chunks, split_loop fuel self text chunks start = None.
Proof.
  intros Hlt Hnext [| fuel] chunks.
  - simpl. destruct (Z.ltb_spec start (Py.len text)); [reflexivity | lia].
  - rewrite split_loop_unfold by exact Hlt. apply Hnext.
Qed.

(** More fuel does not change a result already reached. *)
Lemma split_loop_fuel_mono fuel fuel' chunks start result :
  (fuel <= fuel')%nat ->
  split_loop fuel self text chunks start = Some result ->
  split_loop fuel' self text chunks start = Some result.
Proof.
  revert fuel' chunks start.
  induction fuel as [| fuel IH]; intros fuel' chunks start Hle Hrun.
  - simpl in Hrun.
    destruct (Z.ltb_spec start (Py.len text)); [discriminate |].
    rewrite split_loop_exit by lia. exact Hrun.
  - destruct fuel' as [| fuel']; [lia |].
    destruct (Z.ltb_spec start (Py.len text)) as [Hlt | Hge].
    + rewrite split_loop_unfold in * by exact Hlt.
      eapply IH; [lia | exact Hrun].
    + rewrite split_loop_exit in * by lia. exact Hrun.
Qed.

End SplitLoop.

(** Empty input yields an empty chunk sequence. *)
Lemma split_text_empty (fuel : nat) (self : PDFProcessor) :
  _split_text fuel self "" = Some [].
Proof. unfold _split_text. apply split_loop_exit. unfold Py.len. simpl. lia. Qed.

(** ** The scenario of the specification *)

Lemma scenario_len : Py.len scenario_text = 3001.
Proof. vm_compute. reflexivity. Qed.

Lemma scenario_step_0 :
  split_step PDFProcessor_default scenario_text 0
  = (Py.repeat "A"%char 1000, 800).
Proof. vm_compute. reflexivity. Qed.

Lemma scenario_step_800 :
  split_step PDFProcessor_default scenario_text 800
  = (Py.repeat "A"%char 700, 1300).
Proof. vm_compute. reflexivity. Qed.

Lemma scenario_step_1300 :
  split_step PDFProcessor_default scenario_text 1300
  = (Py.repeat "A"%char 200, 1300).
Proof. vm_compute. reflexivity. Qed.

(** C8.  On ["A" * 1500 + " " + "B" * 1500] with the default sizes
    (1000, 200) the first pass cuts the raw window [text[0:1000]] and moves
    the cursor to 800, the second cuts [text[800:1500]] and moves it to
    1300; the third cuts [text[1300:1500]] at the space, which lies exactly
    [overlap] characters into the window, and leaves the cursor at 1300.
    The loop never ends, so [_split_text] returns no chunk list at all. *)
Theorem scenario_never_returns :
  Py.slice scenario_text 0 1000 = Py.repeat "A"%char 1000
  /\ Py.rfind (Py.slice scenario_text 0 1000) Py.space = -1
  /\ Py.rfind (Py.slice scenario_text 0 1000) Py.newline = -1
  /\ split_step PDFProcessor_default scenario_text 0
     = (Py.slice scenario_text 0 1000, 1000 - 200)
  /\ split_step PDFProcessor_default scenario_text 800
     = (Py.slice scenario_text 800 1500, 1300)
  /\ split_step PDFProcessor_default scenario_text 1300
     = (Py.slice scenario_text 1300 1500, 1300)
  /\ forall fuel, _split_text fuel PDFProcessor_default scenario_text = None.
Proof.
  split; [vm_compute; reflexivity |].
  split; [vm_compute; reflexivity |].
  split; [vm_compute; reflexivity |].
  split; [vm_compute; reflexivity |].
  split; [vm_compute; reflexivity |].
  split; [vm_compute; reflexivity |].
  intros fuel. unfold _split_text.
  apply split_loop_diverges_before; [rewrite scenario_len; lia |].
  rewrite scenario_step_0. cbn [snd].
  apply split_loop_diverges_before; [rewrite scenario_len; lia |].
  rewrite scenario_step_800. cbn [snd].
  apply split_loop_stuck; [rewrite scenario_len; lia |].
  rewrite scenario_step_1300. reflexivity.
Qed.

(** ** Inputs on which the cursor does not advance *)

(** C2.  The precondition [max_size > overlap >= 0] does not make the loop
    terminate: with [max_size = 5 > overlap = 2 >= 0] the first window
    ["ab cd"] is cut at its space, 2 characters in, the cursor goes back to
    [2 - 2 = 0], where it was, and no amount of fuel lets the loop finish.
    [_split_text] has no check that would report this as a configuration
    error: the call returns nothing at all. *)
Theorem stalling_input_loops :
  0 <= chunk_overlap stalling_processor < chunk_size stalling_processor
  /\ split_step stalling_processor stalling_text 0 = ("ab", 0)
  /\ ~ (0 < snd (split_step stalling_processor stalling_text 0))
  /\ ~ (exists fuel chunks,
          _split_text fuel stalling_processor stalling_text = Some chunks).
Proof.
  assert (Hstep : split_step stalling_processor stalling_text 0 = ("ab", 0))
    by reflexivity.
  split; [simpl; lia |].
  split; [exact Hstep |].
  split; [rewrite Hstep; simpl; lia |].
  intros (fuel & chunks & Hrun).
  unfold _split_text in Hrun.
  rewrite split_loop_stuck in Hrun; [discriminate | reflexivity |].
  rewrite Hstep. reflexivity.
Qed.

Lemma dropping_spans :
  split_spans 5 dropping_processor dropping_text [] 0
  = Some [(0, ""); (-1, ""); (1, "abc"); (3, "cde"); (5, "ef")].
Proof. reflexivity. Qed.

(** C1.  With [max_size = 3 > overlap = 1 >= 0] the text [" abcdef"] is
    split into [""], [""], ["abc"], ["cde"], ["ef"], cut at the cursors 0,
    -1, 1, 3 and 5: the window [" ab"] is cut at its leading space, the
    cursor goes back to [-1], and the space ends up in no chunk.  Joining
    each chunk's prefix up to the start of the next chunk with the last
    chunk gives ["abcdef"], not the text. *)
Theorem split_text_drops_leading_space :
  0 <= chunk_overlap dropping_processor < chunk_size dropping_processor
  /\ exists spans,
       split_spans 5 dropping_processor dropping_text [] 0 = Some spans
       /\ _split_text 5 dropping_processor dropping_text
          = Some (map snd spans)
       /\ map snd spans = [""; ""; "abc"; "cde"; "ef"]
       /\ Forall (fun chunk => Py.rfind chunk Py.space = -1) (map snd spans)
       /\ reassemble spans = "abcdef"
       /\ reassemble spans <> dropping_text.
Proof.
  split; [simpl; lia |].
  exists [(0, ""); (-1, ""); (1, "abc"); (3, "cde"); (5, "ef")].
  split; [exact dropping_spans |].
  split; [reflexivity |]. split; [reflexivity |].
  split; [repeat constructor |].
  split; [reflexivity | discriminate].
Qed.

(** ** Forward progress where every window advances *)

Section Progress.

Variable self : PDFProcessor.
Variable text : string.
Hypothesis sizes : 0 <= chunk_overlap self < chunk_size self.

Lemma split_step_advances start :
  window_advances self text start = true ->
  start < snd (split_step self text start).
Proof.
  unfold window_advances, split_step.
  destruct (start + chunk_size self <? Py.len text); simpl.
  - set (bp := Z.max _ _).
    destruct (Z.eqb_spec bp (-1)) as [Heq | Hne]; simpl.
    + intros _. lia.
    + intros Hlt. apply Z.ltb_lt in Hlt. lia.
  - intros _. lia.
Qed.

Lemma windows_advance_at start :
  windows_advance self text = true ->
  0 <= start < Py.len text ->
  window_advances self text start = true.
Proof.
  unfold windows_advance, Py.len. intros Hall Hrange.
  rewrite forallb_forall in Hall.
  specialize (Hall (Z.to_nat start)).
  rewrite Z2Nat.id in Hall by lia.
  apply Hall. apply in_seq. lia.
Qed.

Lemma split_loop_finishes fuel :
  windows_advance self text = true ->
  forall chunks start,
    0 <= start ->
    Py.len text - start <= Z.of_nat fuel ->
    exists result, split_loop fuel self text chunks start = Some result.
Proof.
  intros Hall. induction fuel as [| fuel IH]; intros chunks start Hpos Hfuel.
  - exists chunks. apply split_loop_exit. lia.
  - destruct (Z.ltb_spec start (Py.len text)) as [Hlt | Hge].
    + rewrite split_loop_unfold by exact Hlt.
      pose proof (split_step_advances start
                    (windows_advance_at start Hall (conj Hpos Hlt))) as Hadv.
      apply IH; lia.
    + exists chunks. apply split_loop_exit. lia.
Qed.

End Progress.

(** *** Reassembling the text where every window advances *)

Lemma chars_of_chars (l : list ascii) : Py.chars (Py.of_chars l) = l.
Proof. apply list_ascii_of_string_of_list_ascii. Qed.

Lemma of_chars_chars (s : string) : Py.of_chars (Py.chars s) = s.
Proof. apply string_of_list_ascii_of_string. Qed.

Lemma of_chars_app (l1 l2 : list ascii) :
  Py.of_chars (l1 ++ l2) = (Py.of_chars l1 ++ Py.of_chars l2)%string.
Proof.
  induction l1 as [| c l1 IH]; simpl; [reflexivity |].
  unfold Py.of_chars in *. simpl. rewrite IH. reflexivity.
Qed.

Lemma len_chars (s : string) : Py.len s = Z.of_nat (length (Py.chars s)).
Proof.
  unfold Py.len, Py.chars. f_equal.
  induction s as [| c s IH]; simpl; [reflexivity | rewrite IH; reflexivity].
Qed.

Lemma reassemble_cons start chunk next chunk' rest :
  reassemble ((start, chunk) :: (next, chunk') :: rest)
  = (Py.of_chars (take (Z.to_nat (next - start)) (Py.chars chunk))
     ++ reassemble ((next, chunk') :: rest))%string.
Proof. reflexivity. Qed.

(** A slice with a cursor inside the text, on the characters. *)
Lemma slice_chars_from (text : string) (start e : Z) :
  0 <= start <= Py.len text ->
  start <= e ->
  Py.chars (Py.slice text start e)
  = take (Z.to_nat (Z.min e (Py.len text) - start))
         (drop (Z.to_nat start) (Py.chars text)).
Proof.
  intros Hstart He. unfold Py.slice. rewrite chars_of_chars.
  unfold Py.slice_chars, Py.adjust. rewrite <- len_chars.
  destruct (Z.ltb_spec start 0); [lia |].
  destruct (Z.ltb_spec e 0); [lia |].
  replace (Z.min start (Py.len text)) with start by lia.
  reflexivity.
Qed.

Section Reassemble.

Variable self : PDFProcessor.
Variable text : string.
Hypothesis sizes : 0 <= chunk_overlap self < chunk_size self.
Hypothesis advance : windows_advance self text = true.

Lemma split_step_window start :
  0 <= start < Py.len text ->
  exists e,
    fst (split_step self text start) = Py.slice text start e
    /\ snd (split_step self text start) = e - chunk_overlap self
    /\ start + chunk_overlap self < e.
Proof.
  intros Hrange.
  pose proof (windows_advance_at self text start advance Hrange) as Hwin.
  revert Hwin. unfold window_advances, split_step.
  destruct (start + chunk_size self <? Py.len text); simpl.
  - set (bp := Z.max _ _).
    destruct (Z.eqb_spec bp (-1)) as [Heq | Hne]; simpl.
    + intros _. exists (start + chunk_size self). repeat split; lia.
    + intros Hlt. apply Z.ltb_lt in Hlt.
      exists (start + bp). repeat split; lia.
  - intros _. exists (start + chunk_size self). repeat split; lia.
Qed.

Lemma spans_from_exit fuel start :
  Py.len text <= start -> spans_from fuel self text start = [].
Proof.
  intros Hge. destruct fuel; simpl;
    destruct (Z.ltb_spec start (Py.len text)); try lia; reflexivity.
Qed.

Lemma spans_from_unfold fuel start :
  start < Py.len text ->
  spans_from (S fuel) self text start
  = (start, fst (split_step self text start))
    :: spans_from fuel self text (snd (split_step self text start)).
Proof.
  intros Hlt. simpl.
  destruct (Z.ltb_spec start (Py.len text)); [reflexivity | lia].
Qed.

(** From any cursor inside the text on, the prefixes and the last chunk
    spell the rest of the text. *)
Lemma reassemble_spans_from fuel :
  forall start,
    0 <= start ->
    Py.len text - start <= Z.of_nat fuel ->
    reassemble (spans_from fuel self text start)
    = Py.of_chars (drop (Z.to_nat start) (Py.chars text)).
Proof.
  induction fuel as [| fuel IH]; intros start Hpos Hfuel.
  - rewrite spans_from_exit by lia.
    rewrite drop_ge by (pose proof (len_chars text); lia). reflexivity.
  - destruct (Z.ltb_spec start (Py.len text)) as [Hlt | Hge].
    2:{ rewrite spans_from_exit by lia.
        rewrite drop_ge by (pose proof (len_chars text); lia). reflexivity. }
    rewrite spans_from_unfold by exact Hlt.
    destruct (split_step_window start (conj Hpos Hlt)) as (e & Hchunk & Hnext & He).
    rewrite Hchunk, Hnext.
    pose proof (len_chars text) as Hlen.
    destruct (Z.ltb_spec (e - chunk_overlap self) (Py.len text)) as [Hin | Hout].
    + (* another chunk follows *)
      specialize (IH (e - chunk_overlap self) ltac:(lia) ltac:(lia)).
      destruct fuel as [| fuel']; [lia |].
      rewrite (spans_from_unfold fuel' _ Hin), reassemble_cons.
      rewrite <- (spans_from_unfold fuel' _ Hin), IH.
      rewrite slice_chars_from by lia.
      rewrite take_take.
      replace (Z.to_nat (e - chunk_overlap self - start)
                 `min` Z.to_nat (Z.min e (Py.len text) - start))%nat
        with (Z.to_nat (e - chunk_overlap self - start)) by lia.
      rewrite <- of_chars_app. f_equal.
      replace (Z.to_nat (e - chunk_overlap self))
        with (Z.to_nat start + Z.to_nat (e - chunk_overlap self - start))%nat
        by lia.
      rewrite <- drop_drop. apply take_drop.
    + (* this chunk is the last one *)
      rewrite spans_from_exit by lia. cbn [reassemble].
      rewrite <- (of_chars_chars (Py.slice text start e)).
      rewrite slice_chars_from by lia. f_equal.
      apply take_ge. rewrite length_drop. lia.
Qed.

Lemma split_spans_from fuel :
  forall spans start result,
    split_spans fuel self text spans start = Some result ->
    result = (spans ++ spans_from fuel self text start)%list.
Proof.
  induction fuel as [| fuel IH]; intros spans start result; simpl;
    destruct (Z.ltb_spec start (Py.len text)) as [Hlt | Hge];
    try discriminate.
  - intros [= <-]. rewrite app_nil_r. reflexivity.
  - destruct (split_step self text start) as [chunk start'] eqn:Hstep.
    intros Hrun. apply IH in Hrun. rewrite Hrun, <- app_assoc. reflexivity.
  - intros [= <-]. rewrite app_nil_r. reflexivity.
Qed.

Lemma split_spans_chunks fuel :
  forall spans start,
    option_map (map snd) (split_spans fuel self text spans start)
    = split_loop fuel self text (map snd spans) start.
Proof.
  induction fuel as [| fuel IH]; intros spans start; simpl;
    destruct (Z.ltb_spec start (Py.len text)); try reflexivity.
  destruct (split_step self text start) as [chunk start'].
  rewrite IH, map_app. reflexivity.
Qed.

End Reassemble.

Lemma split_loop_reassembles (self : PDFProcessor) (text : string) :
  0 <= chunk_overlap self < chunk_size self ->
  windows_advance self text = true ->
  exists spans,
    split_spans (String.length text) self text [] 0 = Some spans
    /\ _split_text (String.length text) self text = Some (map snd spans)
    /\ reassemble spans = text.
Proof.
  intros Hsizes Hall.
  destruct (split_loop_finishes self text Hsizes (String.length text) Hall
              [] 0) as [chunks Hrun]; [lia | unfold Py.len; lia |].
  pose proof (split_spans_chunks self text (String.length text) [] 0) as Hrel.
  simpl in Hrel. rewrite Hrun in Hrel.
  destruct (split_spans (String.length text) self text [] 0) as [spans |] eqn:Hspans;
    [| discriminate].
  simpl in Hrel. injection Hrel as Hchunks.
  exists spans. split; [reflexivity |].
  split; [unfold _split_text; rewrite Hrun, Hchunks; reflexivity |].
  apply split_spans_from in Hspans. simpl in Hspans. subst spans.
  rewrite (reassemble_spans_from self text Hsizes Hall) by (unfold Py.len; lia).
  simpl. apply of_chars_chars.
Qed.

(** X1. Where every window advances, the chunks reassemble to the text: under
    [max_size > overlap >= 0] the loop returns, and joining each chunk's
    prefix up to the start of the next chunk with the last chunk in full
    gives back the text. *)
Theorem split_text_reassembles (self : PDFProcessor) (text : string) :
  0 <= chunk_overlap self < chunk_size self ->
  windows_advance self text = true ->
  exists spans,
    split_spans (String.length text) self text [] 0 = Some spans
    /\ _split_text (String.length text) self text = Some (map snd spans)
    /\ reassemble spans = text.
Proof.
  exact (split_loop_reassembles self text).
Qed.

Lemma split_text_reassembles_witness :
  exists spans,
    split_spans (String.length "ab cd ef gh")
      {| chunk_size := 6; chunk_overlap := 1 |} "ab cd ef gh" [] 0 = Some spans
    /\ _split_text (String.length "ab cd ef gh")
         {| chunk_size := 6; chunk_overlap := 1 |} "ab cd ef gh"
       = Some (map snd spans)
    /\ reassemble spans = "ab cd ef gh".
Proof.
  apply (split_text_reassembles
           {| chunk_size := 6; chunk_overlap := 1 |} "ab cd ef gh").
  - simpl. lia.
  - reflexivity.
Defined.

(** Where the loop does end.  Under [max_size > overlap >= 0], when every
    window that is cut short of the end of the text is either a raw cut or
    breaks at a separator lying more than [overlap] characters into the
    window, each pass of the loop moves the cursor strictly forward and the
    loop ends after at most [len(text)] passes, returning a chunk list. *)
Lemma split_text_terminates_when_windows_advance
    (self : PDFProcessor) (text : string) :
  0 <= chunk_overlap self < chunk_size self ->
  windows_advance self text = true ->
  (forall start, 0 <= start < Py.len text ->
     start < snd (split_step self text start))
  /\ exists chunks, forall fuel,
       (String.length text <= fuel)%nat ->
       _split_text fuel self text = Some chunks.
Proof.
  intros Hsizes Hall. split.
  - intros start Hrange.
    apply split_step_advances; [exact Hsizes |].
    apply windows_advance_at; assumption.
  - destruct (split_loop_finishes self text Hsizes (String.length text) Hall
                [] 0) as [chunks Hrun]; [lia | unfold Py.len; lia |].
    exists chunks. intros fuel Hfuel. unfold _split_text.
    eapply split_loop_fuel_mono; [exact Hfuel | exact Hrun].
Qed.

Lemma split_text_terminates_witness :
  0 <= 1 < 6
  /\ windows_advance {| chunk_size := 6; chunk_overlap := 1 |} "ab cd ef gh"
     = true
  /\ (forall start, 0 <= start < Py.len "ab cd ef gh" ->
        start < snd (split_step {| chunk_size := 6; chunk_overlap := 1 |}
                       "ab cd ef gh" start))
  /\ exists chunks, forall fuel,
       (String.length "ab cd ef gh" <= fuel)%nat ->
       _split_text fuel {| chunk_size := 6; chunk_overlap := 1 |}
         "ab cd ef gh" = Some chunks.
Proof.
  split; [lia |]. split; [reflexivity |].
  apply (split_text_terminates_when_windows_advance
           {| chunk_size := 6; chunk_overlap := 1 |} "ab cd ef gh").
  - simpl. lia.
  - reflexivity.
Defined.

(** ** The chunk validity check *)

Section Validity.

Import base_chunker.

(** The claim of C4 fails on the code: a chunk with content ["oops"] and
    [status = "error"] is rejected by the default chunker like any other
    chunk of four characters. *)
Lemma validate_rejects_short_error_chunk :
  metadata (BaseChunk_init "oops" {["status" := VStr "error"]}) !! "status"
  = Some (VStr "error")
  /\ __len__ (BaseChunk_init "oops" {["status" := VStr "error"]}) = 4
  /\ min_chunk_size BaseChunker_default = 10
  /\ _validate_chunk BaseChunker_default
       (BaseChunk_init "oops" {["status" := VStr "error"]}) = false.
Proof. repeat split; reflexivity. Qed.

(** C4, as the code has it.  The validity check looks at the content
    only: a chunk whose content, after trimming whitespace, is shorter
    than the configured minimum is rejected whatever its metadata says,
    [status = "error"] included; a chunk at least as long is accepted. *)
Theorem validate_chunk_ignores_metadata {T} `{PyStr T}
    (self : BaseChunker) (c : T) (md : gmap string pyval)
    (v : option (list Q)) :
  Py.len (Py.strip (py_str c)) < min_chunk_size self ->
  _validate_chunk self {| content := c; metadata := md; vector := v |}
  = false
  /\ _validate_chunk self
       {| content := c;
          metadata := <["status" := VStr "error"]> md;
          vector := v |}
     = false.
Proof.
  intros Hshort. unfold _validate_chunk, __len__. simpl.
  split; apply Z.leb_gt; exact Hshort.
Qed.

Lemma validate_chunk_ignores_metadata_witness :
  Py.len (Py.strip (py_str "  short  ")) < 10
  /\ _validate_chunk BaseChunker_default
       {| content := "  short  "; metadata := ∅; vector := None |}
     = false
  /\ _validate_chunk BaseChunker_default
       {| content := "  short  ";
          metadata := <["status" := VStr "error"]> ∅;
          vector := None |}
     = false.
Proof.
  split; [vm_compute; reflexivity |].
  apply (validate_chunk_ignores_metadata BaseChunker_default "  short  " ∅ None).
  vm_compute. reflexivity.
Defined.

End Validity.

(** ** Audio extraction *)

Section AudioProperties.

Variable path_name : string -> string.

(** The audio extractor returns a chunk list on every path. *)
Lemma audio_process_returns (self : AudioProcessor) (file_path : string) :
  exists chunks, AudioProcessor_process path_name self file_path = Ok chunks.
Proof.
  unfold AudioProcessor_process.
  destruct (transcribe (model self) file_path) as [result | e]; simpl;
    [| eexists; reflexivity].
  destruct (negb (dict_truthy result) || negb (truthy (dict_get result "text")));
    simpl; [eexists; reflexivity |].
  destruct (split_text (text_splitter self) (dict_get result "text"));
    simpl; eexists; reflexivity.
Qed.

Lemma audio_transcribe_failure (self : AudioProcessor) (file_path : string)
    (e : exn) :
  transcribe (model self) file_path = Raise e ->
  AudioProcessor_process path_name self file_path
  = Ok [error_chunk path_name file_path e].
Proof. intros Hfail. unfold AudioProcessor_process. rewrite Hfail. reflexivity. Qed.

Lemma audio_splitter_failure (self : AudioProcessor) (file_path : string)
    (result : gmap string pyval) (e : exn) :
  transcribe (model self) file_path = Ok result ->
  dict_truthy result = true ->
  truthy (dict_get result "text") = true ->
  split_text (text_splitter self) (dict_get result "text") = Raise e ->
  AudioProcessor_process path_name self file_path
  = Ok [error_chunk path_name file_path e].
Proof.
  intros Hres Hdict Htext Hfail. unfold AudioProcessor_process.
  rewrite Hres. simpl. rewrite Hdict, Htext. simpl. rewrite Hfail. reflexivity.
Qed.

Lemma error_chunk_status (file_path : string) (e : exn) :
  content (error_chunk path_name file_path e)
  = "[Error processing audio: " ++ exn_str e ++ "]"
  /\ metadata (error_chunk path_name file_path e) !! "status"
     = Some (VStr "error")
  /\ metadata (error_chunk path_name file_path e) !! "error"
     = Some (VStr (exn_str e)).
Proof. repeat split; reflexivity. Qed.

(** C7.  When the transcription result carries no text (the ["text"] entry
    is missing, [None] or the empty string), the audio extractor returns
    exactly one chunk, with the placeholder content and
    [status = "no_speech_detected"]. *)
Theorem no_speech_single_chunk (self : AudioProcessor) (file_path : string)
    (result : gmap string pyval) :
  transcribe (model self) file_path = Ok result ->
  truthy (dict_get result "text") = false ->
  exists chunk,
    AudioProcessor_process path_name self file_path = Ok [chunk]
    /\ content chunk = "[Audio content detected]"
    /\ metadata chunk !! "status" = Some (VStr "no_speech_detected").
Proof.
  intros Hres Htext. exists (no_speech_chunk path_name file_path).
  split; [| split; reflexivity].
  unfold AudioProcessor_process. rewrite Hres. simpl. rewrite Htext.
  rewrite orb_true_r. reflexivity.
Qed.

End AudioProperties.

Lemma no_speech_single_chunk_witness :
  transcribe silent_whisper "uploads/hearing.wav"
  = Ok (<["text" := VStr ""]> (<["language" := VStr "en"]> ∅))
  /\ exists chunk,
       AudioProcessor_process (fun p => p)
         {| model := silent_whisper; text_splitter := whole_text_splitter |}
         "uploads/hearing.wav" = Ok [chunk]
       /\ content chunk = "[Audio content detected]"
       /\ metadata chunk !! "status" = Some (VStr "no_speech_detected").
Proof.
  split; [reflexivity |].
  apply (no_speech_single_chunk (fun p => p)
           {| model := silent_whisper; text_splitter := whole_text_splitter |}
           "uploads/hearing.wav"
           (<["text" := VStr ""]> (<["language" := VStr "en"]> ∅))).
  - reflexivity.
  - reflexivity.
Defined.

(** ** Text-document extraction *)

Section PDFProperties.

Variable path_name : string -> string.
Variable read_pages : string -> outcome (list (outcome string)).

Lemma process_pages_app fuel self file_path
    (pre post : list (outcome string)) i chunks :
  process_pages path_name fuel self file_path (pre ++ post)%list i chunks
  = match process_pages path_name fuel self file_path pre i chunks with
    | Some (Ok chunks') =>
        process_pages path_name fuel self file_path post
          (i + length pre)%nat chunks'
    | other => other
    end.
Proof.
  revert i chunks. induction pre as [| page pre IH]; intros i chunks; simpl.
  - rewrite Nat.add_0_r. reflexivity.
  - destruct page as [text | e]; [| reflexivity].
    destruct (String.eqb (Py.strip text) "").
    + rewrite IH. replace (S i + length pre)%nat with (i + S (length pre))%nat
        by lia. reflexivity.
    + destruct (_split_text fuel self text); [| reflexivity].
      rewrite IH. replace (S i + length pre)%nat with (i + S (length pre))%nat
        by lia. reflexivity.
Qed.

Lemma pdf_open_failure fuel self file_path e :
  read_pages file_path = Raise e ->
  PDFProcessor_process path_name read_pages fuel self file_path
  = Some (Raise e).
Proof. intros Hfail. unfold PDFProcessor_process. rewrite Hfail. reflexivity. Qed.

Lemma pdf_page_failure fuel self file_path
    (pre post : list (outcome string)) e chunks :
  read_pages file_path = Ok (pre ++ Raise e :: post)%list ->
  process_pages path_name fuel self file_path pre 0 [] = Some (Ok chunks) ->
  PDFProcessor_process path_name read_pages fuel self file_path
  = Some (Raise e).
Proof.
  intros Hpages Hpre. unfold PDFProcessor_process.
  rewrite Hpages, process_pages_app, Hpre. reflexivity.
Qed.

End PDFProperties.

(** ** Video extraction *)

Section VideoProperties.

Variable path_name : string -> string.
Variable clip : Type.
Variable open_clip : string -> outcome clip.
Variable duration : clip -> Z.
Variable write_audiofile : clip -> string -> outcome unit.
Variable close : clip -> outcome unit.
Variable temporary_directory : outcome string.
Variable path_join : string -> string -> string.
Variable new_audio_processor : outcome AudioProcessor.
Variable detect : clip -> Z -> Q -> outcome (list (string * string)).
Variable str_of_int : Z -> string.

Local Abbreviation process :=
  (VideoProcessor_process path_name clip open_clip duration write_audiofile
     close temporary_directory path_join new_audio_processor detect str_of_int).
Local Abbreviation process_frames :=
  (_process_frames clip duration detect str_of_int).
Local Abbreviation frames := (frames_loop clip detect str_of_int).

Lemma frames_loop_failure self video (pre : list Z) t post e :
  Forall (fun t' => exists r, detect video t' (confidence_threshold self) = Ok r)
         pre ->
  detect video t (confidence_threshold self) = Raise e ->
  forall chunks, frames self video (pre ++ t :: post)%list chunks = Raise e.
Proof.
  intros Hpre Hfail. induction Hpre as [| t' pre [r Hr] _ IH]; intros chunks.
  - simpl. rewrite Hfail. reflexivity.
  - simpl. rewrite Hr. simpl. destruct r; apply IH.
Qed.

Lemma video_open_failure self file_path e :
  open_clip file_path = Raise e -> process self file_path = Raise e.
Proof.
  intros Hfail. unfold VideoProcessor_process. rewrite Hfail. reflexivity.
Qed.

Lemma video_audio_track_failure self file_path video temp_dir e :
  open_clip file_path = Ok video ->
  temporary_directory = Ok temp_dir ->
  write_audiofile video (path_join temp_dir "temp_audio.wav") = Raise e ->
  process self file_path = Raise e.
Proof.
  intros Hopen Htmp Hfail. unfold VideoProcessor_process.
  rewrite Hopen. simpl. rewrite Htmp. simpl. rewrite Hfail. reflexivity.
Qed.

Lemma video_frames_failure self file_path video temp_dir audio_processor e :
  open_clip file_path = Ok video ->
  temporary_directory = Ok temp_dir ->
  write_audiofile video (path_join temp_dir "temp_audio.wav") = Ok tt ->
  new_audio_processor = Ok audio_processor ->
  process_frames self video = Raise e ->
  process self file_path = Raise e.
Proof.
  intros Hopen Htmp Hwrite Hnew Hfail. unfold VideoProcessor_process.
  rewrite Hopen. simpl. rewrite Htmp. simpl. rewrite Hwrite. simpl.
  rewrite Hnew. simpl.
  destruct (audio_process_returns path_name audio_processor
              (path_join temp_dir "temp_audio.wav")) as [audio_chunks ->].
  simpl. rewrite Hfail. reflexivity.
Qed.

Lemma process_frames_detection_failure self video (pre : list Z) t post e :
  py_range0 (duration video) (frame_sample_rate self)
  = Ok (pre ++ t :: post)%list ->
  Forall (fun t' => exists r, detect video t' (confidence_threshold self) = Ok r)
         pre ->
  detect video t (confidence_threshold self) = Raise e ->
  process_frames self video = Raise e.
Proof.
  intros Hrange Hpre Hfail. unfold _process_frames. rewrite Hrange. simpl.
  rewrite (frames_loop_failure self video pre t post e Hpre Hfail).
  reflexivity.
Qed.

Lemma frames_loop_success self video (ts : list Z) :
  Forall (detects clip detect self video) ts ->
  forall chunks, exists result, frames self video ts chunks = Ok result.
Proof.
  induction 1 as [| t ts [r Hr] _ IH]; intros chunks; simpl.
  - eexists; reflexivity.
  - rewrite Hr. simpl. destruct r; apply IH.
Qed.

(** The loop read backwards: it returns only if detection succeeded at
    every second, and raises only what detection raised at the first
    second where it failed. *)
Lemma frames_loop_inv self video (ts : list Z) :
  forall chunks,
    match frames self video ts chunks with
    | Ok _ => Forall (detects clip detect self video) ts
    | Raise e =>
        exists (pre : list Z) (t : Z) (post : list Z),
          ts = (pre ++ t :: post)%list
          /\ Forall (detects clip detect self video) pre
          /\ detect video t (confidence_threshold self) = Raise e
    end.
Proof.
  induction ts as [| t ts IH]; intros chunks; simpl; [constructor |].
  destruct (detect video t (confidence_threshold self)) as [r | e] eqn:Hdet;
    simpl.
  2:{ exists [], t, ts. repeat split; [constructor | exact Hdet]. }
  assert (Hnext : forall chunks',
             match frames self video ts chunks' with
             | Ok _ => Forall (detects clip detect self video) (t :: ts)
             | Raise e =>
                 exists (pre : list Z) (t0 : Z) (post : list Z),
                   t :: ts = (pre ++ t0 :: post)%list
                   /\ Forall (detects clip detect self video) pre
                   /\ detect video t0 (confidence_threshold self) = Raise e
             end).
  { intros chunks'. specialize (IH chunks').
    destruct (frames self video ts chunks') as [result | e].
    - constructor; [exists r; exact Hdet | exact IH].
    - destruct IH as (pre & t0 & post & -> & Hpre & Hfail).
      exists (t :: pre), t0, post. split; [reflexivity |].
      split; [constructor; [exists r; exact Hdet | exact Hpre] | exact Hfail]. }
  destruct r; apply Hnext.
Qed.

Lemma frames_fail_raises self video e :
  frames_fail clip duration detect self video e ->
  process_frames self video = Raise e.
Proof.
  intros [Hrange | (pre & t & post & Hrange & Hpre & Hfail)].
  - unfold _process_frames. rewrite Hrange. reflexivity.
  - eapply process_frames_detection_failure; eassumption.
Qed.

Lemma frames_succeed_returns self video :
  frames_succeed clip duration detect self video ->
  exists frame_chunks, process_frames self video = Ok frame_chunks.
Proof.
  intros (ts & Hrange & Hall). unfold _process_frames. rewrite Hrange. simpl.
  destruct (frames_loop_success self video ts Hall []) as [result ->].
  eexists; reflexivity.
Qed.

Lemma process_frames_inv self video :
  match process_frames self video with
  | Ok _ => frames_succeed clip duration detect self video
  | Raise e => frames_fail clip duration detect self video e
  end.
Proof.
  unfold _process_frames, frames_succeed, frames_fail.
  destruct (py_range0 (duration video) (frame_sample_rate self))
    as [ts | e]; simpl; [| left; reflexivity].
  pose proof (frames_loop_inv self video ts []) as Hinv.
  destruct (frames self video ts []) as [result | e]; simpl.
  - exists ts. split; [reflexivity | exact Hinv].
  - destruct Hinv as (pre & t & post & -> & Hpre & Hfail).
    right. exists pre, t, post. repeat split; assumption.
Qed.

End VideoProperties.

(** ** Failure policy of the extractors *)

Section FailurePolicy.

Variable path_name : string -> string.
Variable read_pages : string -> outcome (list (outcome string)).
Variable clip : Type.
Variable open_clip : string -> outcome clip.
Variable duration : clip -> Z.
Variable write_audiofile : clip -> string -> outcome unit.
Variable close : clip -> outcome unit.
Variable temporary_directory : outcome string.
Variable path_join : string -> string -> string.
Variable new_audio_processor : outcome AudioProcessor.
Variable detect : clip -> Z -> Q -> outcome (list (string * string)).
Variable str_of_int : Z -> string.

Local Abbreviation video_process :=
  (VideoProcessor_process path_name clip open_clip duration write_audiofile
     close temporary_directory path_join new_audio_processor detect str_of_int).
Local Abbreviation video_failure :=
  (video_fails clip open_clip duration write_audiofile close
     temporary_directory path_join new_audio_processor detect).
Local Abbreviation process_frames :=
  (_process_frames clip duration detect str_of_int).

Lemma audio_failure_gives_sentinel audio file_path e :
  audio_fails audio file_path e ->
  AudioProcessor_process path_name audio file_path
  = Ok [error_chunk path_name file_path e].
Proof.
  intros [Hfail | (result & Hres & Hdict & Htext & Hfail)].
  - apply audio_transcribe_failure. exact Hfail.
  - eapply audio_splitter_failure; eassumption.
Qed.

Lemma pdf_failure_propagates fuel pdf file_path e :
  pdf_fails path_name read_pages fuel pdf file_path e ->
  PDFProcessor_process path_name read_pages fuel pdf file_path
  = Some (Raise e).
Proof.
  intros [Hfail | (pre & post & chunks & Hpages & Hpre)].
  - apply pdf_open_failure. exact Hfail.
  - eapply pdf_page_failure; eassumption.
Qed.

Lemma video_failure_propagates video file_path e :
  video_failure video file_path e ->
  video_process video file_path = Raise e.
Proof.
  unfold VideoProcessor_process.
  intros [Hopen | (v & Hopen & Hrest)]; rewrite Hopen; simpl; [reflexivity |].
  destruct Hrest as [Htmp | (temp_dir & Htmp & Hrest)]; rewrite Htmp; simpl;
    [reflexivity |].
  destruct Hrest as [Hwrite | (Hwrite & Hrest)]; rewrite Hwrite; simpl;
    [reflexivity |].
  destruct Hrest as [Hnew | (ap & Hnew & Hrest)]; rewrite Hnew; simpl;
    [reflexivity |].
  destruct (audio_process_returns path_name ap
              (path_join temp_dir "temp_audio.wav")) as [audio_chunks ->].
  simpl.
  destruct Hrest as [Hframes | (Hframes & Hclose)].
  - rewrite (frames_fail_raises clip duration detect str_of_int _ _ _ Hframes).
    reflexivity.
  - destruct (frames_succeed_returns clip duration detect str_of_int _ _
                Hframes) as [frame_chunks ->].
    simpl. rewrite Hclose. reflexivity.
Qed.

(** Whatever [process] raises for a video was raised by one of the steps
    that [video_fails] lists. *)
Lemma video_raises_only_failures video file_path e :
  video_process video file_path = Raise e ->
  video_failure video file_path e.
Proof.
  unfold VideoProcessor_process, video_fails.
  destruct (open_clip file_path) as [v | e0]; simpl;
    [| intros [= ->]; left; reflexivity].
  intros Hrun. right. exists v. split; [reflexivity |].
  destruct temporary_directory as [temp_dir | e0]; simpl in Hrun;
    [| injection Hrun as ->; left; reflexivity].
  right. exists temp_dir. split; [reflexivity |].
  destruct (write_audiofile v (path_join temp_dir "temp_audio.wav"))
    as [[] | e0]; simpl in Hrun; [| injection Hrun as ->; left; reflexivity].
  right. split; [reflexivity |].
  destruct new_audio_processor as [ap | e0]; simpl in Hrun;
    [| injection Hrun as ->; left; reflexivity].
  right. exists ap. split; [reflexivity |].
  destruct (audio_process_returns path_name ap
              (path_join temp_dir "temp_audio.wav")) as [audio_chunks Haudio].
  rewrite Haudio in Hrun. simpl in Hrun.
  pose proof (process_frames_inv clip duration detect str_of_int video v)
    as Hinv.
  destruct (process_frames video v) as [frame_chunks | e0]; simpl in Hrun.
  - right. split; [exact Hinv |].
    destruct (close v) as [[] | e0]; simpl in Hrun; [discriminate |].
    injection Hrun as ->. reflexivity.
  - injection Hrun as ->. left. exact Hinv.
Qed.

(** A speech-to-text failure on the extracted track does not stop
    [process]: the audio extractor's error chunk comes first, the
    detection chunks follow. *)
Lemma video_transcription_failure_swallowed video file_path v temp_dir track e :
  open_clip file_path = Ok v ->
  temporary_directory = Ok temp_dir ->
  write_audiofile v (path_join temp_dir "temp_audio.wav") = Ok tt ->
  new_audio_processor = Ok track ->
  audio_fails track (path_join temp_dir "temp_audio.wav") e ->
  frames_succeed clip duration detect video v ->
  close v = Ok tt ->
  exists frame_chunks,
    process_frames video v = Ok frame_chunks
    /\ video_process video file_path
       = Ok (error_chunk path_name (path_join temp_dir "temp_audio.wav") e
               :: frame_chunks).
Proof.
  intros Hopen Htmp Hwrite Hnew Haudio Hframes Hclose.
  destruct (frames_succeed_returns clip duration detect str_of_int _ _ Hframes)
    as [frame_chunks Hrun].
  exists frame_chunks. split; [exact Hrun |].
  unfold VideoProcessor_process.
  rewrite Hopen. simpl. rewrite Htmp. simpl. rewrite Hwrite. simpl.
  rewrite Hnew. simpl.
  rewrite (audio_failure_gives_sentinel _ _ _ Haudio). simpl.
  rewrite Hrun. simpl. rewrite Hclose. reflexivity.
Qed.


End FailurePolicy.



(** ** The vector store *)

Section VectorStore.

Import ChromaStore.

Context {S : Type}.
Variable h : backend S.

Lemma run_add_document (s : S) (chunk : BaseChunk) :
  run h (add_document chunk) s
  = let '(r, s') :=
      h _ (AddTexts [content chunk] [add_document_metadata chunk]) s in
    (ids ← r; index0 ids, s',
     [Event (AddTexts [content chunk] [add_document_metadata chunk])]).
Proof.
  unfold add_document, add_texts. simpl.
  destruct (h _ _ s) as [[ids | e] s']; simpl; [| reflexivity].
  destruct ids; reflexivity.
Qed.

Lemma batch_collect_spec chunks texts metadatas :
  batch_collect chunks texts metadatas
  = ((texts ++ map content chunks)%list,
     (metadatas ++ map add_document_metadata chunks)%list).
Proof.
  revert texts metadatas.
  induction chunks as [| chunk chunks IH]; intros texts metadatas; simpl.
  - rewrite !app_nil_r. reflexivity.
  - rewrite IH, <- !app_assoc. reflexivity.
Qed.

Lemma run_batch_add_documents (s : S) chunks batch_size :
  run h (batch_add_documents chunks batch_size) s
  = let '(r, s') :=
      h _ (AddTexts (map content chunks)
             (map add_document_metadata chunks)) s in
    (r;; Ok tt, s',
     [Event (AddTexts (map content chunks)
               (map add_document_metadata chunks))]).
Proof.
  unfold batch_add_documents. rewrite batch_collect_spec. simpl.
  destruct (h _ _ s) as [[ids | e] s']; reflexivity.
Qed.

Lemma add_document_metadata_dom chunk :
  dom (add_document_metadata chunk) = persisted_keys.
Proof.
  unfold add_document_metadata, persisted_keys.
  rewrite !dom_insert_L, dom_empty_L. set_solver.
Qed.

Lemma add_document_metadata_persisted chunk :
  persisted_for chunk (add_document_metadata chunk).
Proof.
  split; [apply add_document_metadata_dom |].
  unfold add_document_metadata, dict_get, dict_get_default.
  repeat split; reflexivity.
Qed.

Lemma persisted_keys_recognized : persisted_keys ⊆ recognized_keys.
Proof.
  unfold persisted_keys, recognized_keys. intros k.
  rewrite !elem_of_union, !elem_of_singleton. tauto.
Qed.

End VectorStore.

Section StorageBoundary.

Import ChromaStore.

Context {S : Type}.
Variable h : backend S.
Variable s : S.

Lemma added_by_add_document chunk :
  added (run h (add_document chunk) s).2
  = [([content chunk], [add_document_metadata chunk])].
Proof.
  rewrite run_add_document. destruct (h _ _ s) as [r s']. reflexivity.
Qed.

Lemma added_by_batch_add_documents chunks batch_size :
  added (run h (batch_add_documents chunks batch_size) s).2
  = [(map content chunks, map add_document_metadata chunks)].
Proof.
  rewrite run_batch_add_documents. destruct (h _ _ s) as [r s']. reflexivity.
Qed.

Lemma unrecognized_key_dropped chunk k :
  k ∉ recognized_keys -> add_document_metadata chunk !! k = None.
Proof.
  intros Hk. apply not_elem_of_dom. rewrite add_document_metadata_dom.
  intros Hin. apply Hk. apply persisted_keys_recognized. exact Hin.
Qed.

(** C9.  Whatever the vector store answers, single and batched insertion
    hand it each chunk's content unchanged, together with a metadata
    record whose keys all lie among the recognized ones: a key of the
    chunk's metadata outside that set is not in the record. *)
Theorem persisted_metadata_within_recognized
    (chunk : BaseChunk) (chunks : list BaseChunk) (batch_size : Z) :
  (exists md,
      added (run h (add_document chunk) s).2 = [([content chunk], [md])]
      /\ dom md ⊆ recognized_keys
      /\ forall k, k ∉ recognized_keys -> md !! k = None)
  /\ (exists mds,
        added (run h (batch_add_documents chunks batch_size) s).2
        = [(map content chunks, mds)]
        /\ length mds = length chunks
        /\ Forall (fun md =>
                     dom md ⊆ recognized_keys
                     /\ forall k, k ∉ recognized_keys -> md !! k = None)
                  mds).
Proof.
  split.
  - exists (add_document_metadata chunk).
    split; [apply added_by_add_document |]. split.
    + rewrite add_document_metadata_dom. apply persisted_keys_recognized.
    + intros k. apply unrecognized_key_dropped.
  - exists (map add_document_metadata chunks).
    split; [apply added_by_batch_add_documents |]. split.
    + apply length_map.
    + apply Forall_forall. intros md Hin.
      apply list_elem_of_In, in_map_iff in Hin. destruct Hin as (c & <- & _).
      split.
      * rewrite add_document_metadata_dom. apply persisted_keys_recognized.
      * intros k. apply unrecognized_key_dropped.
Qed.

(** C10.  Whatever the vector store answers, single and batched insertion
    hand it, for every chunk, a metadata record with exactly the keys
    [document_type], [page_number], [timestamp], [source_file],
    [chunk_index] and [language]; a key the chunk lacks is filled with
    [None], or with [0.0], [0] and ["en"] for [timestamp], [chunk_index] and
    [language].  There is no [status] key in the record, so the markers
    of the audio extractor's sentinel chunks are not persisted. *)
Theorem persisted_metadata_six_keys
    (chunk : BaseChunk) (chunks : list BaseChunk) (batch_size : Z)
    (path_name : string -> string) (file_path : string) (e : exn) :
  (exists md,
      added (run h (add_document chunk) s).2 = [([content chunk], [md])]
      /\ persisted_for chunk md)
  /\ (exists mds,
        added (run h (batch_add_documents chunks batch_size) s).2
        = [(map content chunks, mds)]
        /\ Forall2 persisted_for chunks mds)
  /\ metadata (no_speech_chunk path_name file_path) !! "status"
     = Some (VStr "no_speech_detected")
  /\ add_document_metadata (no_speech_chunk path_name file_path) !! "status"
     = None
  /\ metadata (error_chunk path_name file_path e) !! "status"
     = Some (VStr "error")
  /\ add_document_metadata (error_chunk path_name file_path e) !! "status"
     = None.
Proof.
  split.
  { exists (add_document_metadata chunk).
    split; [apply added_by_add_document | apply add_document_metadata_persisted]. }
  split.
  { exists (map add_document_metadata chunks).
    split; [apply added_by_batch_add_documents |].
    induction chunks as [| c cs IH]; simpl; constructor;
      [apply add_document_metadata_persisted | exact IH]. }
  repeat split; reflexivity.
Qed.

End StorageBoundary.

Section ErrorPolicy.

Import ChromaStore.

Variable validate_str : pyval -> outcome string.

Lemma pair_of_fst {A B : Type} (p : A * B) (a : A) :
  p.1 = a -> exists b, p = (a, b).
Proof. destruct p as [a' b]. simpl. intros ->. exists b. reflexivity. Qed.

Lemma run_search {S} (h : backend S) (s : S) query document_type limit :
  run h (search validate_str query document_type limit) s
  = let '(r, s') :=
      h _ (SimilaritySearchWithScore query limit (filter_dict document_type))
        s in
    (try_except (docs ← r; search_results validate_str docs [])
                (fun _ => Ok []),
     s',
     [Event (SimilaritySearchWithScore query limit
               (filter_dict document_type))]).
Proof. unfold search. cbn [run]. destruct (h _ _ s). reflexivity. Qed.

Lemma run_delete_document {S} (h : backend S) (s : S) document_id :
  run h (delete_document document_id) s
  = let '(r, s') := h _ (Delete [document_id]) s in
    (r, s', [Event (Delete [document_id])]).
Proof.
  unfold delete_document. cbn [run].
  destruct (h _ _ s) as [[[] | e] s']; reflexivity.
Qed.

Lemma run_get_document_absent {S} (h : backend S) (s : S) document_id found :
  (h _ (Get [document_id]) s).1 = Ok found ->
  documents found = [] ->
  (run h (get_document document_id) s).1.1 = Ok None.
Proof.
  intros Hget Habsent. unfold get_document. cbn [run].
  destruct (pair_of_fst _ _ Hget) as [s' Hcall]. rewrite Hcall.
  simpl. rewrite Habsent. reflexivity.
Qed.

(** [search] ends with a result list whatever the vector store does. *)
Lemma search_never_raises {S} (h : backend S) (s : S) query document_type
    limit :
  exists results,
    (run h (search validate_str query document_type limit) s).1.1 = Ok results.
Proof.
  rewrite run_search.
  destruct (h _ _ s) as [[docs | e] s']; simpl; [| eexists; reflexivity].
  destruct (search_results validate_str docs []); simpl; eexists; reflexivity.
Qed.

(** [get_document] ends without raising whatever the vector store does. *)
Lemma get_document_never_raises {S} (h : backend S) (s : S) document_id :
  exists r, (run h (get_document document_id) s).1.1 = Ok r.
Proof.
  unfold get_document. cbn [run].
  destruct (h _ _ s) as [[results | e] s']; simpl; [| eexists; reflexivity].
  destruct (documents results) as [| doc docs]; simpl; [eexists; reflexivity |].
  destruct (metadatas results); simpl; eexists; reflexivity.
Qed.

(** C3.  [search] never raises, and returns the empty list when the
    vector store raises or when a returned document fails validation.
    A failure of the vector store during single insertion, batched
    insertion or deletion is raised to the caller.  [get_document]
    returns [None] when the vector store holds no document under the
    id. *)
Theorem vector_store_error_policy {S} (h : backend S) (s : S)
    (query : string) (document_type : option string) (limit : Z)
    (chunk : BaseChunk) (chunks : list BaseChunk) (batch_size : Z)
    (document_id absent_id : string) (e : exn) (found : GetResult) :
  (h _ (SimilaritySearchWithScore query limit (filter_dict document_type)) s).1
  = Raise e ->
  (h _ (AddTexts [content chunk] [add_document_metadata chunk]) s).1
  = Raise e ->
  (h _ (AddTexts (map content chunks) (map add_document_metadata chunks)) s).1
  = Raise e ->
  (h _ (Delete [document_id]) s).1 = Raise e ->
  (h _ (Get [absent_id]) s).1 = Ok found ->
  documents found = [] ->
  (run h (search validate_str query document_type limit) s).1.1 = Ok []
  /\ (forall T (h' : backend T) (t : T) query' document_type' limit',
        exists results,
          (run h' (search validate_str query' document_type' limit') t).1.1
          = Ok results)
  /\ (forall T (h' : backend T) (t t' : T) query' document_type' limit' docs e',
        h' _ (SimilaritySearchWithScore query' limit'
                (filter_dict document_type')) t = (Ok docs, t') ->
        search_results validate_str docs [] = Raise e' ->
        (run h' (search validate_str query' document_type' limit') t).1.1
        = Ok [])
  /\ (run h (add_document chunk) s).1.1 = Raise e
  /\ (run h (batch_add_documents chunks batch_size) s).1.1 = Raise e
  /\ (run h (delete_document document_id) s).1.1 = Raise e
  /\ (run h (get_document absent_id) s).1.1 = Ok None.
Proof.
  intros Hsearch Hadd Hbatch Hdelete Hget Habsent.
  split.
  { destruct (pair_of_fst _ _ Hsearch) as [s' Hcall].
    rewrite run_search, Hcall. reflexivity. }
  split; [intros; apply search_never_raises |].
  split.
  { intros T h' t t' query' document_type' limit' docs e' Hcall Hbad.
    rewrite run_search, Hcall. simpl. rewrite Hbad. reflexivity. }
  split.
  { destruct (pair_of_fst _ _ Hadd) as [s' Hcall].
    rewrite run_add_document, Hcall. reflexivity. }
  split.
  { destruct (pair_of_fst _ _ Hbatch) as [s' Hcall].
    rewrite run_batch_add_documents, Hcall. reflexivity. }
  split.
  { destruct (pair_of_fst _ _ Hdelete) as [s' Hcall].
    rewrite run_delete_document, Hcall. reflexivity. }
  eapply run_get_document_absent; eassumption.
Qed.

End ErrorPolicy.

Lemma vector_store_error_policy_witness :
  let e := {| exn_str := "connection refused" |} in
  let chunk :=
    {| content := "Lease agreement"; metadata := {["document_type" := VStr "pdf"]} |} in
  (run (flaky_backend e) (ChromaStore.search strict_str "rent" (Some "pdf") 5) tt).1.1
  = Ok []
  /\ (run (flaky_backend e) (ChromaStore.add_document chunk) tt).1.1 = Raise e
  /\ (run (flaky_backend e) (ChromaStore.batch_add_documents [chunk; chunk] 100) tt).1.1
     = Raise e
  /\ (run (flaky_backend e) (ChromaStore.delete_document "42") tt).1.1 = Raise e
  /\ (run (flaky_backend e) (ChromaStore.get_document "42") tt).1.1 = Ok None.
Proof.
  intros e chunk.
  destruct (vector_store_error_policy strict_str (flaky_backend e) tt "rent" (Some "pdf")
              5 chunk [chunk; chunk] 100 "42" "42" e
              {| documents := []; metadatas := [] |}
              eq_refl eq_refl eq_refl eq_refl eq_refl eq_refl)
    as (Hs & _ & _ & Ha & Hb & Hd & Hg).
  repeat split; assumption.
Defined.

(** ** Chunk numbering *)

Lemma filter_all {A} (f : A -> bool) (l : list A) :
  Forall (fun x => f x = true) l -> List.filter f l = l.
Proof.
  induction 1 as [| x l Hx _ IH]; simpl; [reflexivity |].
  rewrite Hx, IH. reflexivity.
Qed.

Lemma filter_none {A} (f : A -> bool) (l : list A) :
  Forall (fun x => f x = false) l -> List.filter f l = [].
Proof.
  induction 1 as [| x l Hx _ IH]; simpl; [reflexivity |].
  rewrite Hx, IH. reflexivity.
Qed.

Section Numbering.

Variable path_name : string -> string.
Variable read_pages : string -> outcome (list (outcome string)).
Variable self : PDFProcessor.
Variable file_path : string.

Lemma page_group_lookup i text_chunks (j : nat) chunk :
  imap (pdf_chunk path_name self file_path i) text_chunks !! j = Some chunk ->
  metadata chunk !! "chunk_index" = Some (VInt (Z.of_nat j))
  /\ metadata chunk !! "page_number" = Some (VInt (Z.of_nat i + 1))
  /\ metadata chunk !! "total_chunks" = None.
Proof.
  rewrite list_lookup_imap. destruct (text_chunks !! j); [| discriminate].
  simpl. intros [= <-]. repeat split; reflexivity.
Qed.

Lemma page_group_filter i text_chunks p :
  List.filter (on_page p)
    (imap (pdf_chunk path_name self file_path i) text_chunks)
  = if p =? Z.of_nat i + 1
    then imap (pdf_chunk path_name self file_path i) text_chunks
    else [].
Proof.
  destruct (Z.eqb_spec p (Z.of_nat i + 1)) as [-> | Hne].
  - apply filter_all. apply Forall_lookup. intros j chunk Hj.
    apply page_group_lookup in Hj as (_ & Hpage & _).
    unfold on_page. rewrite Hpage. apply Z.eqb_refl.
  - apply filter_none. apply Forall_lookup. intros j chunk Hj.
    apply page_group_lookup in Hj as (_ & Hpage & _).
    unfold on_page. rewrite Hpage. apply Z.eqb_neq. congruence.
Qed.

Lemma numbered_by_page_skip i chunks :
  numbered_by_page i chunks -> numbered_by_page (S i) chunks.
Proof.
  intros [Hold Hidx]. split; [| exact Hidx].
  eapply Forall_impl; [exact Hold |].
  intros chunk [(p & Hp & Hrange) Htotal]. split; [| exact Htotal].
  exists p. split; [exact Hp | lia].
Qed.

Lemma numbered_by_page_extend i chunks text_chunks :
  numbered_by_page i chunks ->
  numbered_by_page (S i)
    (chunks ++ imap (pdf_chunk path_name self file_path i) text_chunks).
Proof.
  intros [Hold Hidx]. split.
  - apply Forall_app. split.
    + apply (numbered_by_page_skip i chunks (conj Hold Hidx)).
    + apply Forall_lookup. intros j chunk Hj.
      apply page_group_lookup in Hj as (_ & Hpage & Htotal).
      split; [| exact Htotal]. exists (Z.of_nat i + 1). split; [exact Hpage | lia].
  - intros p j chunk. rewrite List.filter_app, page_group_filter.
    destruct (Z.eqb_spec p (Z.of_nat i + 1)) as [-> | Hne].
    + rewrite (filter_none (on_page (Z.of_nat i + 1)) chunks).
      * simpl. intros Hj. apply page_group_lookup in Hj as (Hj & _). exact Hj.
      * eapply Forall_impl; [exact Hold |].
        intros c [(q & Hq & Hrange) _]. unfold on_page. rewrite Hq.
        apply Z.eqb_neq. lia.
    + rewrite app_nil_r. apply Hidx.
Qed.

Lemma process_pages_numbered fuel pages :
  forall i chunks result,
    numbered_by_page i chunks ->
    process_pages path_name fuel self file_path pages i chunks
    = Some (Ok result) ->
    numbered_by_page (i + length pages) result.
Proof.
  induction pages as [| page pages IH]; intros i chunks result Hinv Hrun;
    simpl in Hrun.
  - injection Hrun as <-. simpl. rewrite Nat.add_0_r. exact Hinv.
  - destruct page as [text | e]; [| discriminate].
    simpl. replace (i + S (length pages))%nat with (S i + length pages)%nat
      by lia.
    destruct (String.eqb (Py.strip text) "").
    + eapply IH; [| exact Hrun]. apply numbered_by_page_skip. exact Hinv.
    + destruct (_split_text fuel self text) as [text_chunks |];
        [| discriminate].
      eapply IH; [| exact Hrun]. apply numbered_by_page_extend. exact Hinv.
Qed.

Lemma pdf_process_numbered fuel chunks :
  PDFProcessor_process path_name read_pages fuel self file_path
  = Some (Ok chunks) ->
  exists pages : list (outcome string),
    numbered_by_page (length pages) chunks.
Proof.
  unfold PDFProcessor_process.
  destruct (read_pages file_path) as [pages | e]; [| discriminate].
  destruct (process_pages path_name fuel self file_path pages 0 [])
    as [[result | e] |] eqn:Hrun; simpl; try discriminate.
  intros [= <-]. exists pages.
  apply (process_pages_numbered fuel pages 0%nat [] result); [| exact Hrun].
  split; [constructor | intros p j chunk Hj; destruct j; discriminate].
Qed.

End Numbering.

Lemma text_entry_makes_dict_truthy (result : gmap string pyval) :
  truthy (dict_get result "text") = true -> dict_truthy result = true.
Proof.
  unfold dict_get, dict_truthy. intros Htext.
  destruct (result !! "text") as [v |] eqn:Hlookup; [| discriminate].
  destruct (Nat.eqb_spec (size result) 0) as [Hzero | Hne]; [| reflexivity].
  apply map_size_empty_iff in Hzero. subst result.
  rewrite lookup_empty in Hlookup. discriminate.
Qed.

Lemma audio_transcript_chunks path_name audio file_path result text_chunks :
  transcribe (model audio) file_path = Ok result ->
  truthy (dict_get result "text") = true ->
  split_text (text_splitter audio) (dict_get result "text") = Ok text_chunks ->
  AudioProcessor_process path_name audio file_path
  = Ok (imap (audio_chunk path_name file_path result text_chunks) text_chunks).
Proof.
  intros Hres Htext Hsplit. unfold AudioProcessor_process.
  rewrite Hres. simpl.
  rewrite (text_entry_makes_dict_truthy result Htext), Htext. simpl.
  rewrite Hsplit. reflexivity.
Qed.

Lemma audio_transcript_indexed path_name file_path result text_chunks :
  indexed_sequence
    (imap (audio_chunk path_name file_path result text_chunks) text_chunks).
Proof.
  intros i chunk. rewrite list_lookup_imap, length_imap.
  destruct (text_chunks !! i); [| discriminate].
  simpl. intros [= <-]. split; reflexivity.
Qed.

(** The claim of C5 fails on the code: the one chunk of a one-page
    document has [chunk_index = 0] but no [total_chunks], and the one chunk
    returned for a silent recording has neither key. *)
Lemma emitted_sequences_not_indexed :
  (exists chunk,
      PDFProcessor_process (fun p => p) one_page_pdf 20 PDFProcessor_default
        "lease.pdf" = Some (Ok [chunk])
      /\ metadata chunk !! "chunk_index" = Some (VInt 0)
      /\ metadata chunk !! "total_chunks" = None
      /\ ~ indexed_sequence [chunk])
  /\ (exists chunk,
        AudioProcessor_process (fun p => p)
          {| model := silent_whisper; text_splitter := whole_text_splitter |}
          "hearing.wav" = Ok [chunk]
        /\ metadata chunk !! "chunk_index" = None
        /\ metadata chunk !! "total_chunks" = None
        /\ ~ indexed_sequence [chunk]).
Proof.
  split.
  - exists (pdf_chunk (fun p => p) PDFProcessor_default "lease.pdf" 0 0
              "Lease agreement").
    split; [vm_compute; reflexivity |].
    split; [reflexivity |]. split; [reflexivity |].
    intros Hidx. destruct (Hidx 0%nat _ eq_refl) as [_ Htotal].
    vm_compute in Htotal. discriminate.
  - exists (no_speech_chunk (fun p => p) "hearing.wav").
    split; [reflexivity |].
    split; [reflexivity |]. split; [reflexivity |].
    intros Hidx. destruct (Hidx 0%nat _ eq_refl) as [Hindex _].
    vm_compute in Hindex. discriminate.
Qed.

(** C5, as the code has it.  In the sequence returned by the
    text-document extractor every chunk is tagged with a page number, the
    chunks of one page are numbered [chunk_index = 0, 1, 2, ...] in order,
    and no chunk carries [total_chunks].  In the sequence the audio
    extractor builds from a transcript, [chunk_index] runs from 0 over the
    whole sequence and every [total_chunks] equals the length of the
    sequence.  The audio extractor's two sentinel chunks carry neither
    key. *)
Theorem chunk_numbering_as_emitted
    (path_name : string -> string)
    (read_pages : string -> outcome (list (outcome string)))
    (fuel : nat) (pdf : PDFProcessor) (pdf_path : string)
    (pdf_chunks : list BaseChunk)
    (audio : AudioProcessor) (audio_path : string)
    (result : gmap string pyval) (text_chunks : list string) (e : exn) :
  PDFProcessor_process path_name read_pages fuel pdf pdf_path
  = Some (Ok pdf_chunks) ->
  transcribe (model audio) audio_path = Ok result ->
  truthy (dict_get result "text") = true ->
  split_text (text_splitter audio) (dict_get result "text") = Ok text_chunks ->
  (forall (p : Z) (j : nat) (chunk : BaseChunk),
      List.filter (on_page p) pdf_chunks !! j = Some chunk ->
      metadata chunk !! "chunk_index" = Some (VInt (Z.of_nat j)))
  /\ Forall (fun chunk =>
               (exists p, metadata chunk !! "page_number" = Some (VInt p)
                          /\ 1 <= p)
               /\ metadata chunk !! "total_chunks" = None) pdf_chunks
  /\ (exists audio_chunks,
        AudioProcessor_process path_name audio audio_path = Ok audio_chunks
        /\ length audio_chunks = length text_chunks
        /\ indexed_sequence audio_chunks)
  /\ metadata (no_speech_chunk path_name audio_path) !! "chunk_index" = None
  /\ metadata (no_speech_chunk path_name audio_path) !! "total_chunks" = None
  /\ metadata (error_chunk path_name audio_path e) !! "chunk_index" = None
  /\ metadata (error_chunk path_name audio_path e) !! "total_chunks" = None.
Proof.
  intros Hpdf Hres Htext Hsplit.
  destruct (pdf_process_numbered path_name read_pages pdf pdf_path fuel
              pdf_chunks Hpdf) as (pages & Hall & Hidx).
  split; [exact Hidx |].
  split.
  { eapply Forall_impl; [exact Hall |].
    intros chunk [(p & Hp & Hrange) Htotal]. split; [| exact Htotal].
    exists p. split; [exact Hp | lia]. }
  split.
  { exists (imap (audio_chunk path_name audio_path result text_chunks)
              text_chunks).
    split; [apply audio_transcript_chunks; assumption |].
    split; [apply length_imap | apply audio_transcript_indexed]. }
  repeat split; reflexivity.
Qed.

Lemma chunk_numbering_as_emitted_witness :
  let audio :=
    {| model := talking_whisper "rent is due";
       text_splitter := word_splitter |} in
  (exists pdf_chunks,
      PDFProcessor_process (fun p => p) one_page_pdf 20 PDFProcessor_default
        "lease.pdf" = Some (Ok pdf_chunks)
      /\ forall (p : Z) (j : nat) (chunk : BaseChunk),
           List.filter (on_page p) pdf_chunks !! j = Some chunk ->
           metadata chunk !! "chunk_index" = Some (VInt (Z.of_nat j)))
  /\ exists audio_chunks,
       AudioProcessor_process (fun p => p) audio "hearing.wav" = Ok audio_chunks
       /\ length audio_chunks = 3%nat
       /\ indexed_sequence audio_chunks.
Proof.
  intros audio.
  assert (Hpdf : PDFProcessor_process (fun p => p) one_page_pdf 20
                   PDFProcessor_default "lease.pdf"
                 = Some (Ok [pdf_chunk (fun p => p) PDFProcessor_default
                               "lease.pdf" 0 0 "Lease agreement"]))
    by (vm_compute; reflexivity).
  destruct (chunk_numbering_as_emitted (fun p => p) one_page_pdf 20
              PDFProcessor_default "lease.pdf" _ audio "hearing.wav"
              (<["text" := VStr "rent is due"]> (<["language" := VStr "en"]> ∅))
              ["rent"; "is"; "due"] {| exn_str := "" |}
              Hpdf eq_refl eq_refl eq_refl)
    as (Hidx & _ & Haudio & _).
  split; [eexists; split; [exact Hpdf | exact Hidx] | exact Haudio].
Defined.

(** * Further properties of the code *)

(** ** [_split_text]: size of the chunks *)

Lemma rfind_chars_bounds (c : ascii) (l : list ascii) :
  -1 <= Py.rfind_chars c l < Z.of_nat (length l).
Proof.
  induction l as [| x l IH]; simpl; [lia |].
  destruct (Z.leb_spec 0 (Py.rfind_chars c l)); [lia |].
  destruct (Ascii.eqb x c); lia.
Qed.

Lemma rfind_bounds (s : string) (c : ascii) : -1 <= Py.rfind s c < Py.len s.
Proof. unfold Py.rfind. rewrite len_chars. apply rfind_chars_bounds. Qed.

(** A slice [s[a:b]] with [a <= b] has at most [b - a] characters. *)
Lemma slice_len_le (s : string) (a b : Z) :
  a <= b -> Py.len (Py.slice s a b) <= b - a.
Proof.
  intros Hab. rewrite len_chars. unfold Py.slice. rewrite chars_of_chars.
  unfold Py.slice_chars. rewrite length_take, length_drop.
  unfold Py.adjust.
  destruct (Z.ltb_spec a 0); destruct (Z.ltb_spec b 0); lia.
Qed.

Lemma split_step_chunk_len (self : PDFProcessor) (text : string) (start : Z) :
  0 <= chunk_size self ->
  Py.len (fst (split_step self text start)) <= chunk_size self.
Proof.
  intros Hsize. unfold split_step.
  pose proof (slice_len_le text start (start + chunk_size self) ltac:(lia))
    as Hwin.
  destruct (start + chunk_size self <? Py.len text); simpl; [| lia].
  set (chunk := Py.slice text start (start + chunk_size self)) in *.
  pose proof (rfind_bounds chunk Py.newline).
  pose proof (rfind_bounds chunk Py.space).
  destruct (Z.eqb_spec (Z.max (Py.rfind chunk Py.newline)
                              (Py.rfind chunk Py.space)) (-1)); simpl; [lia |].
  etransitivity; [apply slice_len_le; lia | lia].
Qed.

Lemma split_loop_chunks_bounded (self : PDFProcessor) (text : string) fuel :
  0 <= chunk_size self ->
  forall chunks start result,
    Forall (fun chunk => Py.len chunk <= chunk_size self) chunks ->
    split_loop fuel self text chunks start = Some result ->
    Forall (fun chunk => Py.len chunk <= chunk_size self) result.
Proof.
  intros Hsize. induction fuel as [| fuel IH]; intros chunks start result Hall;
    simpl; destruct (start <? Py.len text); try discriminate;
    try (intros [= <-]; exact Hall).
  pose proof (split_step_chunk_len self text start Hsize) as Hlen.
  destruct (split_step self text start) as [chunk start']. simpl in Hlen.
  apply IH. apply Forall_app. split; [exact Hall |].
  constructor; [exact Hlen | constructor].
Qed.

(** X2.  Whatever the text, and whether or not the cursor advances, a chunk
    list returned by [_split_text] holds no chunk longer than [chunk_size]. *)
Theorem split_text_chunks_bounded (fuel : nat) (self : PDFProcessor)
    (text : string) (chunks : list string) :
  0 <= chunk_size self ->
  _split_text fuel self text = Some chunks ->
  Forall (fun chunk => Py.len chunk <= chunk_size self) chunks.
Proof.
  intros Hsize Hrun.
  eapply split_loop_chunks_bounded; [exact Hsize | constructor | exact Hrun].
Qed.

Lemma split_text_chunks_bounded_witness :
  0 <= 3
  /\ _split_text 5 dropping_processor dropping_text
     = Some [""; ""; "abc"; "cde"; "ef"]
  /\ Forall (fun chunk => Py.len chunk <= 3) [""; ""; "abc"; "cde"; "ef"].
Proof.
  split; [lia |]. split; [reflexivity |].
  apply (split_text_chunks_bounded 5 dropping_processor dropping_text).
  - simpl. lia.
  - reflexivity.
Defined.


(** ** [_split_text]: text without separators *)

Lemma rfind_chars_absent (c : ascii) (l : list ascii) :
  Forall (fun x => Ascii.eqb x c = false) l -> Py.rfind_chars c l = -1.
Proof.
  induction 1 as [| x l Hx _ IH]; simpl; [reflexivity |].
  rewrite IH, Hx. reflexivity.
Qed.

Lemma separator_free_chars (text : string) :
  separator_free text = true ->
  Forall (fun x => Ascii.eqb x Py.newline = false
                   /\ Ascii.eqb x Py.space = false) (Py.chars text).
Proof.
  unfold separator_free. rewrite forallb_forall, Forall_forall.
  intros Hall x Hx. apply list_elem_of_In in Hx. specialize (Hall x Hx).
  apply negb_true_iff, orb_false_iff in Hall. exact Hall.
Qed.

Lemma separator_free_slice (text : string) (a b : Z) :
  separator_free text = true ->
  Py.rfind (Py.slice text a b) Py.newline = -1
  /\ Py.rfind (Py.slice text a b) Py.space = -1.
Proof.
  intros Hfree. apply separator_free_chars in Hfree.
  unfold Py.rfind, Py.slice. rewrite chars_of_chars. unfold Py.slice_chars.
  split; apply rfind_chars_absent; apply Forall_take, Forall_drop;
    (eapply Forall_impl; [exact Hfree |]); intros x [Hn Hs]; assumption.
Qed.

Section SeparatorFree.

Variable self : PDFProcessor.
Variable text : string.
Hypothesis sizes : 0 <= chunk_overlap self < chunk_size self.
Hypothesis free : separator_free text = true.

(** Every pass takes the raw window and moves on by
    [chunk_size - chunk_overlap]. *)
Lemma split_step_raw start :
  split_step self text start
  = (Py.slice text start (start + chunk_size self),
     start + chunk_size self - chunk_overlap self).
Proof.
  unfold split_step.
  destruct (separator_free_slice text start (start + chunk_size self) free)
    as [-> ->].
  destruct (start + chunk_size self <? Py.len text); reflexivity.
Qed.

Lemma separator_free_windows_advance : windows_advance self text = true.
Proof.
  unfold windows_advance. apply forallb_forall. intros k _.
  unfold window_advances.
  destruct (separator_free_slice text (Z.of_nat k)
              (Z.of_nat k + chunk_size self) free) as [-> ->].
  destruct (Z.of_nat k + chunk_size self <? Py.len text); reflexivity.
Qed.

Lemma spans_from_count fuel :
  forall start,
    0 <= start ->
    Py.len text - start <= Z.of_nat fuel ->
    Z.of_nat (length (spans_from fuel self text start))
    = Z.max 0 ((Py.len text - start + (chunk_size self - chunk_overlap self)
                - 1) / (chunk_size self - chunk_overlap self)).
Proof.
  set (d := chunk_size self - chunk_overlap self).
  assert (Hd : 0 < d) by (unfold d; lia).
  induction fuel as [| fuel IH]; intros start Hpos Hfuel.
  - rewrite (spans_from_exit self text) by lia. simpl.
    assert ((Py.len text - start + d - 1) / d <= 0); [| lia].
    apply Z.lt_succ_r. apply Z.div_lt_upper_bound; lia.
  - destruct (Z.ltb_spec start (Py.len text)) as [Hlt | Hge].
    + rewrite (spans_from_unfold self text) by exact Hlt.
      rewrite split_step_raw. cbn [snd length].
      replace (start + chunk_size self - chunk_overlap self) with (start + d)
        by (unfold d; lia).
      rewrite Nat2Z.inj_succ, IH by lia.
      replace (Py.len text - start + d - 1)
        with (Py.len text - start - 1 + 1 * d) by lia.
      rewrite Z.div_add by lia.
      replace (Py.len text - (start + d) + d - 1)
        with (Py.len text - start - 1) by lia.
      assert (0 <= (Py.len text - start - 1) / d)
        by (apply Z.div_pos; lia).
      lia.
    + rewrite (spans_from_exit self text) by lia. simpl.
      assert ((Py.len text - start + d - 1) / d <= 0); [| lia].
      apply Z.lt_succ_r. apply Z.div_lt_upper_bound; lia.
Qed.

End SeparatorFree.

(** X3.  A text with neither space nor newline is always split, whatever
    its length, when [chunk_size > chunk_overlap >= 0]: the loop returns,
    the chunks reassemble to the text, and their number is [len(text)]
    divided by [chunk_size - chunk_overlap], rounded up. *)
Theorem split_text_separator_free (self : PDFProcessor) (text : string) :
  0 <= chunk_overlap self < chunk_size self ->
  separator_free text = true ->
  exists spans,
    split_spans (String.length text) self text [] 0 = Some spans
    /\ _split_text (String.length text) self text = Some (map snd spans)
    /\ reassemble spans = text
    /\ Z.of_nat (length spans)
       = (Py.len text + (chunk_size self - chunk_overlap self) - 1)
         / (chunk_size self - chunk_overlap self).
Proof.
  intros Hsizes Hfree.
  pose proof (separator_free_windows_advance self text Hfree) as Hall.
  destruct (split_loop_reassembles self text Hsizes Hall)
    as (spans & Hspans & Hchunks & Hjoin).
  exists spans. repeat (split; [assumption |]).
  pose proof (split_spans_from self text _ _ _ _ Hspans) as Heq.
  simpl in Heq. subst spans.
  rewrite (spans_from_count self text Hsizes Hfree) by (unfold Py.len; lia).
  rewrite Z.sub_0_r. apply Z.max_r. apply Z.div_pos; unfold Py.len; lia.
Qed.

Lemma split_text_separator_free_witness :
  0 <= 2 < 5
  /\ separator_free "abcdefghij" = true
  /\ exists spans,
       split_spans 10 {| chunk_size := 5; chunk_overlap := 2 |}
         "abcdefghij" [] 0 = Some spans
       /\ _split_text 10 {| chunk_size := 5; chunk_overlap := 2 |}
            "abcdefghij" = Some (map snd spans)
       /\ reassemble spans = "abcdefghij"
       /\ Z.of_nat (length spans) = (10 + (5 - 2) - 1) / (5 - 2).
Proof.
  split; [lia |]. split; [reflexivity |].
  apply (split_text_separator_free
           {| chunk_size := 5; chunk_overlap := 2 |} "abcdefghij").
  - simpl. lia.
  - reflexivity.
Defined.


(** ** [_split_text]: short texts and break points *)

Lemma slice_whole (text : string) (b : Z) :
  Py.len text <= b -> Py.slice text 0 b = text.
Proof.
  intros Hb. rewrite <- (of_chars_chars (Py.slice text 0 b)).
  rewrite slice_chars_from by (pose proof (len_chars text); lia).
  rewrite <- (of_chars_chars text) at 3. f_equal.
  simpl. apply take_ge. pose proof (len_chars text). lia.
Qed.

(** X4.  A non-empty text of at most [chunk_size - chunk_overlap]
    characters comes back as exactly one chunk, the text itself, spaces and
    newlines included. *)
Theorem split_text_short_text (fuel : nat) (self : PDFProcessor)
    (text : string) :
  0 <= chunk_overlap self ->
  0 < Py.len text <= chunk_size self - chunk_overlap self ->
  _split_text (S fuel) self text = Some [text].
Proof.
  intros Hover Hlen. unfold _split_text.
  rewrite split_loop_unfold by lia.
  assert (Hstep : split_step self text 0
                  = (text, chunk_size self - chunk_overlap self)).
  { unfold split_step. rewrite Z.add_0_l.
    destruct (Z.ltb_spec (chunk_size self) (Py.len text)); [lia |].
    rewrite slice_whole by lia. reflexivity. }
  rewrite Hstep. simpl. apply split_loop_exit. lia.
Qed.

Lemma split_text_short_text_witness :
  0 <= 200
  /\ 0 < Py.len "Lease agreement" <= 1000 - 200
  /\ _split_text 1 PDFProcessor_default "Lease agreement"
     = Some ["Lease agreement"].
Proof.
  split; [lia |]. split; [vm_compute; split; [reflexivity | discriminate] |].
  apply (split_text_short_text 0 PDFProcessor_default "Lease agreement").
  - simpl. lia.
  - vm_compute. split; [reflexivity | discriminate].
Defined.

(** After the index [rfind] returns there is no further occurrence, and
    the index itself holds the character. *)
Lemma rfind_chars_spec (c : ascii) (l : list ascii) :
  Forall (fun x => Ascii.eqb x c = false)
         (drop (Z.to_nat (Py.rfind_chars c l + 1)) l)
  /\ (0 <= Py.rfind_chars c l ->
      l !! Z.to_nat (Py.rfind_chars c l) = Some c).
Proof.
  induction l as [| x l [IHafter IHat]]; simpl.
  - split; [constructor | lia].
  - pose proof (rfind_chars_bounds c l) as Hb.
    destruct (Z.leb_spec 0 (Py.rfind_chars c l)) as [Hpos | Hneg].
    + replace (Z.to_nat (Py.rfind_chars c l + 1 + 1))
        with (S (Z.to_nat (Py.rfind_chars c l + 1))) by lia.
      split; [exact IHafter |].
      intros _. replace (Z.to_nat (Py.rfind_chars c l + 1))
        with (S (Z.to_nat (Py.rfind_chars c l))) by lia.
      simpl. apply IHat. exact Hpos.
    + replace (Py.rfind_chars c l) with (-1) in IHafter by lia.
      simpl in IHafter.
      destruct (Ascii.eqb x c) eqn:Hx; simpl.
      * split; [exact IHafter |]. intros _. apply Ascii.eqb_eq in Hx.
        subst x. reflexivity.
      * split; [constructor; assumption | lia].
Qed.

Lemma separator_free_of_chars (l : list ascii) :
  Forall (fun x => is_separator x = false) l ->
  separator_free (Py.of_chars l) = true.
Proof.
  intros Hall. unfold separator_free. rewrite chars_of_chars.
  apply forallb_forall. intros x Hx.
  rewrite Forall_forall in Hall. apply list_elem_of_In in Hx.
  apply negb_true_iff. exact (Hall x Hx).
Qed.

(** X5.  A window cut before the end of the text is broken at its last
    separator: either the window holds neither space nor newline and is
    taken whole, or the chunk is the window up to its last space or
    newline, which is left out, and nothing after that separator in the
    window is a separator. *)
Theorem split_step_breaks_at_last_separator (self : PDFProcessor)
    (text : string) (start : Z) :
  0 <= start ->
  0 <= chunk_size self ->
  start + chunk_size self < Py.len text ->
  let window := Py.slice text start (start + chunk_size self) in
  let chunk := fst (split_step self text start) in
  (separator_free window = true /\ chunk = window)
  \/ exists (sep : ascii) (rest : string),
       window = (chunk ++ String sep rest)%string
       /\ is_separator sep = true
       /\ separator_free rest = true.
Proof.
  intros Hstart Hsize Hcut window chunk. subst chunk. unfold split_step.
  destruct (Z.ltb_spec (start + chunk_size self) (Py.len text)); [| lia].
  fold window. unfold Py.rfind.
  set (w := Py.chars window).
  destruct (rfind_chars_spec Py.newline w) as [Hn_after Hn_at].
  destruct (rfind_chars_spec Py.space w) as [Hs_after Hs_at].
  pose proof (rfind_chars_bounds Py.newline w) as Hn_b.
  pose proof (rfind_chars_bounds Py.space w) as Hs_b.
  set (rn := Py.rfind_chars Py.newline w) in *.
  set (rs := Py.rfind_chars Py.space w) in *.
  assert (Hw : w = take (Z.to_nat (chunk_size self))
                     (drop (Z.to_nat start) (Py.chars text))).
  { unfold w, window. rewrite slice_chars_from by lia. f_equal. lia. }
  destruct (Z.eqb_spec (Z.max rn rs) (-1)) as [Hnone | Hsome]; simpl.
  - left. split; [| reflexivity].
    rewrite <- (of_chars_chars window). fold w.
    apply separator_free_of_chars.
    replace rn with (-1) in Hn_after by lia.
    replace rs with (-1) in Hs_after by lia.
    simpl in Hn_after, Hs_after.
    apply Forall_forall. intros x Hx. unfold is_separator.
    rewrite Forall_forall in Hn_after, Hs_after.
    rewrite (Hn_after x Hx), (Hs_after x Hx). reflexivity.
  - right. set (bp := Z.max rn rs) in *.
    assert (Hbp : 0 <= bp < Z.of_nat (length w)) by lia.
    assert (Hchunk : Py.chars (Py.slice text start (start + bp))
                     = take (Z.to_nat bp) w).
    { rewrite slice_chars_from by lia. rewrite Hw, take_take.
      f_equal. rewrite Hw, length_take, length_drop in Hbp.
      pose proof (len_chars text). lia. }
    assert (Hsep : exists sep, w !! Z.to_nat bp = Some sep
                               /\ is_separator sep = true).
    { destruct (Z.max_spec rn rs) as [[_ Hmax] | [_ Hmax]]; fold bp in Hmax.
      - exists Py.space. split; [rewrite Hmax; apply Hs_at; lia | reflexivity].
      - exists Py.newline. split; [rewrite Hmax; apply Hn_at; lia | reflexivity]. }
    destruct Hsep as (sep & Hat & Hsep).
    exists sep, (Py.of_chars (drop (S (Z.to_nat bp)) w)).
    split; [| split; [exact Hsep |]].
    + rewrite <- (of_chars_chars window). fold w.
      rewrite <- (of_chars_chars (Py.slice text start (start + bp))), Hchunk.
      rewrite <- (take_drop_middle w (Z.to_nat bp) sep Hat) at 1.
      rewrite of_chars_app. reflexivity.
    + apply separator_free_of_chars.
      assert (Hn' : Forall (fun x => Ascii.eqb x Py.newline = false)
                      (drop (S (Z.to_nat bp)) w)).
      { replace (S (Z.to_nat bp))
          with (Z.to_nat (rn + 1) + Z.to_nat (bp - rn))%nat by lia.
        rewrite <- drop_drop. apply Forall_drop. exact Hn_after. }
      assert (Hs' : Forall (fun x => Ascii.eqb x Py.space = false)
                      (drop (S (Z.to_nat bp)) w)).
      { replace (S (Z.to_nat bp))
          with (Z.to_nat (rs + 1) + Z.to_nat (bp - rs))%nat by lia.
        rewrite <- drop_drop. apply Forall_drop. exact Hs_after. }
      apply Forall_forall. intros x Hx. unfold is_separator.
      rewrite Forall_forall in Hn', Hs'.
      rewrite (Hn' x Hx), (Hs' x Hx). reflexivity.
Qed.

Lemma split_step_breaks_at_last_separator_witness :
  0 <= 0
  /\ 0 <= 6
  /\ 0 + 6 < Py.len "ab cd ef gh"
  /\ ((separator_free (Py.slice "ab cd ef gh" 0 (0 + 6)) = true
       /\ fst (split_step {| chunk_size := 6; chunk_overlap := 1 |}
                 "ab cd ef gh" 0)
          = Py.slice "ab cd ef gh" 0 (0 + 6))
      \/ exists (sep : ascii) (rest : string),
           Py.slice "ab cd ef gh" 0 (0 + 6)
           = (fst (split_step {| chunk_size := 6; chunk_overlap := 1 |}
                     "ab cd ef gh" 0) ++ String sep rest)%string
           /\ is_separator sep = true
           /\ separator_free rest = true).
Proof.
  split; [lia |]. split; [lia |]. split; [vm_compute; reflexivity |].
  apply (split_step_breaks_at_last_separator
           {| chunk_size := 6; chunk_overlap := 1 |} "ab cd ef gh" 0).
  - lia.
  - simpl. lia.
  - vm_compute. reflexivity.
Defined.


(** ** [_split_text]: when the loop never ends *)

Lemma split_loop_diverges_from_cursor (self : PDFProcessor) (text : string)
    (k : nat) :
  (forall j, (j <= k)%nat -> cursor_after j self text < Py.len text) ->
  (forall fuel chunks,
      split_loop fuel self text chunks (cursor_after k self text) = None) ->
  forall fuel chunks, split_loop fuel self text chunks 0 = None.
Proof.
  induction k as [| k IH]; intros Hin Hdiv; [exact Hdiv |].
  apply IH; [intros j Hj; apply Hin; lia |].
  apply split_loop_diverges_before; [apply Hin; lia | exact Hdiv].
Qed.

(** X6.  If after some number of passes the window at the cursor is cut
    before the end of the text and its last separator lies exactly
    [chunk_overlap] characters in, the next cursor is the same cursor: the
    loop never ends and [_split_text] returns nothing, however long it is
    left to run. *)
Theorem split_text_stalls_at_overlap (self : PDFProcessor) (text : string)
    (k : nat) :
  let start := cursor_after k self text in
  let window := Py.slice text start (start + chunk_size self) in
  (forall j, (j <= k)%nat -> cursor_after j self text < Py.len text) ->
  start + chunk_size self < Py.len text ->
  0 <= chunk_overlap self ->
  Z.max (Py.rfind window Py.newline) (Py.rfind window Py.space)
  = chunk_overlap self ->
  forall fuel, _split_text fuel self text = None.
Proof.
  intros start window Hin Hcut Hover Hbp fuel. unfold _split_text.
  apply (split_loop_diverges_from_cursor self text k Hin).
  apply split_loop_stuck; [apply Hin; lia |].
  fold start. unfold split_step.
  destruct (Z.ltb_spec (start + chunk_size self) (Py.len text)); [| lia].
  fold window. rewrite Hbp.
  destruct (Z.eqb_spec (chunk_overlap self) (-1)); [lia |].
  simpl. lia.
Qed.

Lemma split_text_stalls_at_overlap_witness :
  (forall j, (j <= 0)%nat ->
     cursor_after j stalling_processor stalling_text < Py.len stalling_text)
  /\ cursor_after 0 stalling_processor stalling_text + 5
     < Py.len stalling_text
  /\ forall fuel, _split_text fuel stalling_processor stalling_text = None.
Proof.
  assert (Hin : forall j, (j <= 0)%nat ->
                  cursor_after j stalling_processor stalling_text
                  < Py.len stalling_text).
  { intros j Hj. replace j with 0%nat by lia. vm_compute. reflexivity. }
  split; [exact Hin |]. split; [vm_compute; reflexivity |].
  apply (split_text_stalls_at_overlap stalling_processor stalling_text 0 Hin).
  - vm_compute. reflexivity.
  - simpl. lia.
  - reflexivity.
Defined.

(** ** [PDFProcessor.process]: pages *)

Section PDFPages.

Variable path_name : string -> string.
Variable read_pages : string -> outcome (list (outcome string)).
Variable self : PDFProcessor.
Variable file_path : string.

Lemma process_pages_blank fuel pages :
  Forall blank_page pages ->
  forall i chunks,
    process_pages path_name fuel self file_path pages i chunks
    = Some (Ok chunks).
Proof.
  induction 1 as [| page pages (text & -> & Hblank) _ IH]; intros i chunks;
    simpl; [reflexivity |].
  rewrite Hblank. simpl. apply IH.
Qed.

Lemma process_pages_from_pages fuel (pages : list (outcome string)) :
  forall (pre rest : list (outcome string)) chunks result,
    pages = (pre ++ rest)%list ->
    Forall (from_pages path_name self file_path fuel pages) chunks ->
    process_pages path_name fuel self file_path rest (length pre) chunks
    = Some (Ok result) ->
    Forall (from_pages path_name self file_path fuel pages) result.
Proof.
  intros pre rest. revert pre.
  induction rest as [| page rest IH]; intros pre chunks result Hpages Hall;
    simpl.
  - intros [= <-]. exact Hall.
  - destruct page as [text | e]; [| discriminate].
    assert (Hnext : pages = ((pre ++ [Ok text]) ++ rest)%list)
      by (rewrite <- app_assoc; exact Hpages).
    assert (Hlen : S (length pre) = length (pre ++ [Ok text]))
      by (rewrite length_app; simpl; lia).
    destruct (String.eqb_spec (Py.strip text) "") as [Hblank | Hfull].
    + rewrite Hlen. apply IH; assumption.
    + destruct (_split_text fuel self text) as [text_chunks |] eqn:Hsplit;
        [| discriminate].
      rewrite Hlen. apply IH; [exact Hnext |].
      apply Forall_app. split; [exact Hall |].
      apply Forall_lookup. intros j chunk Hj.
      rewrite list_lookup_imap in Hj.
      destruct (text_chunks !! j) as [chunk_text |] eqn:Hpiece;
        [| discriminate].
      injection Hj as <-.
      exists (length pre), j, text, text_chunks, chunk_text.
      repeat split; try assumption.
      rewrite Hpages. rewrite lookup_app_r by lia.
      rewrite Nat.sub_diag. reflexivity.
Qed.

End PDFPages.

(** X7.  A document that opens and whose pages are all blank (or that has
    no page) gives the empty chunk list, not an error. *)
Theorem pdf_blank_document_gives_no_chunk
    (path_name : string -> string)
    (read_pages : string -> outcome (list (outcome string)))
    (fuel : nat) (self : PDFProcessor) (file_path : string)
    (pages : list (outcome string)) :
  read_pages file_path = Ok pages ->
  Forall blank_page pages ->
  PDFProcessor_process path_name read_pages fuel self file_path
  = Some (Ok []).
Proof.
  intros Hread Hblank. unfold PDFProcessor_process.
  rewrite Hread, (process_pages_blank path_name self file_path fuel pages Hblank).
  reflexivity.
Qed.

Lemma pdf_blank_document_gives_no_chunk_witness :
  blank_pdf "blank.pdf" = Ok [Ok ""; Ok "   "]
  /\ Forall blank_page [Ok ""; Ok "   "]
  /\ PDFProcessor_process (fun p => p) blank_pdf 0 PDFProcessor_default
       "blank.pdf" = Some (Ok []).
Proof.
  assert (Hblank : Forall blank_page [Ok ""; Ok "   "]).
  { repeat constructor; eexists; split; reflexivity. }
  split; [reflexivity |]. split; [exact Hblank |].
  apply (pdf_blank_document_gives_no_chunk (fun p => p) blank_pdf 0
           PDFProcessor_default "blank.pdf" [Ok ""; Ok "   "]).
  - reflexivity.
  - exact Hblank.
Defined.

(** X8.  Every chunk the text-document extractor returns was cut from the
    text of a page that is not blank, and is tagged with that page's
    1-based number (blank pages are counted), its 0-based position among
    the page's chunks, [document_type = "pdf"], [language = "en"] and the
    name of the file. *)
Theorem pdf_chunks_come_from_pages
    (path_name : string -> string)
    (read_pages : string -> outcome (list (outcome string)))
    (fuel : nat) (self : PDFProcessor) (file_path : string)
    (pages : list (outcome string)) (chunks : list BaseChunk) :
  read_pages file_path = Ok pages ->
  PDFProcessor_process path_name read_pages fuel self file_path
  = Some (Ok chunks) ->
  Forall (fun chunk =>
            exists (i j : nat) (text : string) (text_chunks : list string),
              pages !! i = Some (Ok text)
              /\ Py.strip text <> ""
              /\ _split_text fuel self text = Some text_chunks
              /\ text_chunks !! j = Some (content chunk)
              /\ metadata chunk !! "page_number"
                 = Some (VInt (Z.of_nat i + 1))
              /\ metadata chunk !! "chunk_index" = Some (VInt (Z.of_nat j))
              /\ metadata chunk !! "document_type" = Some (VStr "pdf")
              /\ metadata chunk !! "language" = Some (VStr "en")
              /\ metadata chunk !! "source_file"
                 = Some (VStr (path_name file_path)))
         chunks.
Proof.
  intros Hread. unfold PDFProcessor_process. rewrite Hread.
  destruct (process_pages path_name fuel self file_path pages 0 [])
    as [[result | e] |] eqn:Hrun; simpl; try discriminate.
  intros [= <-].
  pose proof (process_pages_from_pages path_name self file_path fuel pages
                [] pages [] result eq_refl ltac:(constructor) Hrun) as Hall.
  eapply Forall_impl; [exact Hall |].
  intros chunk (i & j & text & text_chunks & chunk_text
                & Hpage & Hfull & Hsplit & Hpiece & ->).
  exists i, j, text, text_chunks. repeat split; try assumption; reflexivity.
Qed.

Lemma pdf_chunks_come_from_pages_witness :
  cover_and_text_pdf "lease.pdf" = Ok [Ok "   "; Ok "Lease agreement"]
  /\ PDFProcessor_process (fun p => p) cover_and_text_pdf 1
       PDFProcessor_default "lease.pdf"
     = Some (Ok [pdf_chunk (fun p => p) PDFProcessor_default "lease.pdf" 1 0
                   "Lease agreement"])
  /\ Forall (fun chunk =>
               exists (i j : nat) (text : string) (text_chunks : list string),
                 [Ok "   "; Ok "Lease agreement"] !! i = Some (Ok text)
                 /\ Py.strip text <> ""
                 /\ _split_text 1 PDFProcessor_default text = Some text_chunks
                 /\ text_chunks !! j = Some (content chunk)
                 /\ metadata chunk !! "page_number"
                    = Some (VInt (Z.of_nat i + 1))
                 /\ metadata chunk !! "chunk_index"
                    = Some (VInt (Z.of_nat j))
                 /\ metadata chunk !! "document_type" = Some (VStr "pdf")
                 /\ metadata chunk !! "language" = Some (VStr "en")
                 /\ metadata chunk !! "source_file"
                    = Some (VStr "lease.pdf"))
            [pdf_chunk (fun p => p) PDFProcessor_default "lease.pdf" 1 0
               "Lease agreement"].
Proof.
  assert (Hrun : PDFProcessor_process (fun p => p) cover_and_text_pdf 1
                   PDFProcessor_default "lease.pdf"
                 = Some (Ok [pdf_chunk (fun p => p) PDFProcessor_default
                               "lease.pdf" 1 0 "Lease agreement"]))
    by (vm_compute; reflexivity).
  split; [reflexivity |]. split; [exact Hrun |].
  exact (pdf_chunks_come_from_pages (fun p => p) cover_and_text_pdf 1
           PDFProcessor_default "lease.pdf"
           [Ok "   "; Ok "Lease agreement"] _ eq_refl Hrun).
Defined.


Lemma process_pages_readable (path_name : string -> string) fuel self
    file_path (pages : list (outcome string)) :
  Forall (fun page => exists text, page = Ok text) pages ->
  forall i chunks,
    process_pages path_name fuel self file_path pages i chunks = None
    \/ exists result,
         process_pages path_name fuel self file_path pages i chunks
         = Some (Ok result).
Proof.
  induction 1 as [| page pages (text & ->) _ IH]; intros i chunks; simpl.
  - right. eexists. reflexivity.
  - destruct (String.eqb (Py.strip text) ""); [apply IH |].
    destruct (_split_text fuel self text); [apply IH | left; reflexivity].
Qed.

(** X9.  When the splitting loop never ends on the text of one page, and
    the pages before it can be read, [process] never returns for that
    document: the hang of [_split_text] is a hang of the extractor. *)
Theorem pdf_process_hangs_with_the_splitter
    (path_name : string -> string)
    (read_pages : string -> outcome (list (outcome string)))
    (self : PDFProcessor) (file_path : string)
    (pre post : list (outcome string)) (text : string) :
  read_pages file_path = Ok (pre ++ Ok text :: post)%list ->
  Forall (fun page => exists t, page = Ok t) pre ->
  Py.strip text <> "" ->
  (forall fuel, _split_text fuel self text = None) ->
  forall fuel,
    PDFProcessor_process path_name read_pages fuel self file_path = None.
Proof.
  intros Hread Hpre Hfull Hdiv fuel. unfold PDFProcessor_process.
  rewrite Hread, process_pages_app.
  destruct (process_pages_readable path_name fuel self file_path pre Hpre 0 [])
    as [-> | (result & ->)]; [reflexivity |].
  simpl. destruct (String.eqb_spec (Py.strip text) ""); [contradiction |].
  rewrite Hdiv. reflexivity.
Qed.

Lemma stalling_text_diverges fuel :
  _split_text fuel stalling_processor stalling_text = None.
Proof.
  unfold _split_text. apply split_loop_stuck; reflexivity.
Qed.

Lemma pdf_process_hangs_with_the_splitter_witness :
  stalling_pdf "hang.pdf" = Ok ([] ++ Ok stalling_text :: [])%list
  /\ Py.strip stalling_text <> ""
  /\ forall fuel,
       PDFProcessor_process (fun p => p) stalling_pdf fuel stalling_processor
         "hang.pdf" = None.
Proof.
  split; [reflexivity |]. split; [discriminate |].
  apply (pdf_process_hangs_with_the_splitter (fun p => p) stalling_pdf
           stalling_processor "hang.pdf" [] [] stalling_text).
  - reflexivity.
  - constructor.
  - discriminate.
  - exact stalling_text_diverges.
Defined.


(** ** [AudioProcessor.process]: the transcript chunks *)

Lemma lstrip_chars_head (l : list ascii) :
  match Py.lstrip_chars l with
  | c :: _ => Py.isspace c = false
  | [] => True
  end.
Proof.
  induction l as [| x l IH]; simpl; [exact I |].
  destruct (Py.isspace x) eqn:Hx; [exact IH | exact Hx].
Qed.

(** Trimming on the left keeps the last character of what is left. *)
Lemma lstrip_chars_suffix (l : list ascii) :
  exists ws, l = (ws ++ Py.lstrip_chars l)%list.
Proof.
  induction l as [| x l [ws IH]]; simpl; [exists []; reflexivity |].
  destruct (Py.isspace x).
  - exists (x :: ws). simpl. rewrite <- IH. reflexivity.
  - exists []. reflexivity.
Qed.

Lemma rstrip_keeps_head (m : list ascii) :
  match m with c :: _ => Py.isspace c = false | [] => True end ->
  match rev (Py.lstrip_chars (rev m)) with
  | c :: _ => Py.isspace c = false
  | [] => True
  end.
Proof.
  intros Hhead.
  destruct (lstrip_chars_suffix (rev m)) as [ws Hws].
  assert (Hm : m = (rev (Py.lstrip_chars (rev m)) ++ rev ws)%list).
  { rewrite <- rev_app_distr, <- Hws, rev_involutive. reflexivity. }
  destruct (rev (Py.lstrip_chars (rev m))) as [| c k]; [exact I |].
  rewrite Hm in Hhead. exact Hhead.
Qed.

Lemma strip_chars_ends (l : list ascii) :
  match Py.strip_chars l with
  | c :: _ => Py.isspace c = false
  | [] => True
  end
  /\ match rev (Py.strip_chars l) with
     | c :: _ => Py.isspace c = false
     | [] => True
     end.
Proof.
  unfold Py.strip_chars. rewrite rev_involutive. split.
  - apply rstrip_keeps_head. apply lstrip_chars_head.
  - apply lstrip_chars_head.
Qed.

Lemma strip_no_outer_space (s : string) :
  starts_with_space (Py.strip s) = false
  /\ ends_with_space (Py.strip s) = false.
Proof.
  unfold starts_with_space, ends_with_space, Py.strip.
  rewrite chars_of_chars.
  destruct (strip_chars_ends (Py.chars s)) as [Hhead Hlast].
  split.
  - destruct (Py.strip_chars (Py.chars s)); [reflexivity | exact Hhead].
  - destruct (rev (Py.strip_chars (Py.chars s))); [reflexivity | exact Hlast].
Qed.

(** X10.  When the transcription has text and the splitter returns its
    pieces, the audio extractor returns one chunk per piece, in order (none
    when there is no piece): the content is the piece with the whitespace
    around it removed, so it neither starts nor ends with a whitespace
    character, and the chunk is tagged [document_type = "audio"], the name
    of the file, and the detected language, or ["en"] when the result
    names none. *)
Theorem audio_transcript_chunks_are_trimmed_pieces
    (path_name : string -> string) (audio : AudioProcessor)
    (file_path : string) (result : gmap string pyval)
    (pieces : list string) :
  transcribe (model audio) file_path = Ok result ->
  truthy (dict_get result "text") = true ->
  split_text (text_splitter audio) (dict_get result "text") = Ok pieces ->
  exists chunks,
    AudioProcessor_process path_name audio file_path = Ok chunks
    /\ map content chunks = map Py.strip pieces
    /\ Forall (fun chunk =>
                 starts_with_space (content chunk) = false
                 /\ ends_with_space (content chunk) = false
                 /\ metadata chunk !! "document_type" = Some (VStr "audio")
                 /\ metadata chunk !! "source_file"
                    = Some (VStr (path_name file_path))
                 /\ metadata chunk !! "language"
                    = Some (default (VStr "en") (result !! "language")))
              chunks.
Proof.
  intros Hres Htext Hsplit.
  exists (imap (audio_chunk path_name file_path result pieces) pieces).
  split; [apply audio_transcript_chunks; assumption |].
  split.
  - apply list_eq. intros i.
    rewrite !list_lookup_fmap, list_lookup_imap.
    destruct (pieces !! i); reflexivity.
  - apply Forall_lookup. intros i chunk Hi.
    rewrite list_lookup_imap in Hi.
    destruct (pieces !! i) as [piece |]; [| discriminate].
    injection Hi as <-. simpl.
    destruct (strip_no_outer_space piece) as [Hs He].
    repeat split; try assumption; reflexivity.
Qed.

Lemma audio_transcript_chunks_are_trimmed_pieces_witness :
  let audio :=
    {| model := talking_whisper "  rent is due ";
       text_splitter := whole_text_splitter |} in
  exists chunks,
    AudioProcessor_process (fun p => p) audio "hearing.wav" = Ok chunks
    /\ map content chunks = map Py.strip ["  rent is due "]
    /\ Forall (fun chunk =>
                 starts_with_space (content chunk) = false
                 /\ ends_with_space (content chunk) = false
                 /\ metadata chunk !! "document_type" = Some (VStr "audio")
                 /\ metadata chunk !! "source_file"
                    = Some (VStr "hearing.wav")
                 /\ metadata chunk !! "language"
                    = Some (default (VStr "en")
                              ((<["text" := VStr "  rent is due "]>
                                  (<["language" := VStr "en"]> ∅)
                                : gmap string pyval) !! "language")))
              chunks.
Proof.
  intros audio.
  exact (audio_transcript_chunks_are_trimmed_pieces (fun p => p) audio
           "hearing.wav"
           (<["text" := VStr "  rent is due "]> (<["language" := VStr "en"]> ∅))
           ["  rent is due "] eq_refl eq_refl eq_refl).
Defined.


(** ** [VideoProcessor]: frames *)

Lemma py_range0_spec (stop step : Z) (ts : list Z) :
  0 < step ->
  py_range0 stop step = Ok ts ->
  (forall t, In t ts <-> 0 <= t < stop /\ exists k, 0 <= k /\ t = k * step)
  /\ StronglySorted Z.lt ts
  /\ (0 <= stop -> Z.of_nat (length ts) = (stop + step - 1) / step).
Proof.
  intros Hpos. unfold py_range0.
  destruct (Z.eqb_spec step 0) as [| _]; [lia |].
  destruct (Z.ltb_spec step 0) as [| _]; [lia |].
  destruct (Z.leb_spec stop 0) as [Hstop | Hstop]; simpl.
  { intros [= <-]. split; [| split].
    - intros t. split; [intros [] | intros [Ht _]; lia].
    - constructor.
    - intros Hs. assert (stop = 0) as -> by lia.
      simpl. rewrite Z.div_small; lia. }
  intros [= <-].
  set (n := Z.to_nat ((stop + step - 1) / step)).
  assert (Hq : 0 <= (stop + step - 1) / step) by (apply Z.div_pos; lia).
  assert (Hn : forall k, (k < n)%nat -> Z.of_nat k * step < stop).
  { intros k Hk.
    assert (Z.of_nat k + 1 <= (stop + step - 1) / step) by lia.
    assert (step * (Z.of_nat k + 1) <= stop + step - 1).
    { etransitivity; [apply Z.mul_le_mono_nonneg_l; [lia | eassumption] |].
      apply Z.mul_div_le. lia. }
    lia. }
  split; [| split].
  - intros t. rewrite in_map_iff. split.
    + intros (k & <- & Hk). apply in_seq in Hk.
      split; [split; [nia | apply Hn; lia] |].
      exists (Z.of_nat k). split; [lia | reflexivity].
    + intros (Ht & k & Hk & ->). exists (Z.to_nat k).
      split; [rewrite Z2Nat.id by lia; reflexivity |].
      apply in_seq. split; [lia |]. simpl.
      assert (k + 1 <= (stop + step - 1) / step).
      { apply Z.div_le_lower_bound; [lia | nia]. }
      unfold n. lia.
  - clearbody n. clear Hn Hq.
    assert (Hgen : forall a,
               StronglySorted Z.lt
                 (map (fun k => Z.of_nat k * step) (seq a n))).
    { induction n as [| n IH]; intros a; simpl; constructor; [apply IH |].
      apply Forall_forall. intros t Ht.
      apply list_elem_of_In, in_map_iff in Ht. destruct Ht as (k & <- & Hk).
      apply in_seq in Hk. nia. }
    apply Hgen.
  - intros _. rewrite length_map, length_seq. unfold n. lia.
Qed.

Lemma sublist_strongly_sorted {A} (R : A -> A -> Prop) (l1 l2 : list A) :
  sublist l1 l2 -> StronglySorted R l2 -> StronglySorted R l1.
Proof.
  induction 1 as [| x l1 l2 Hsub IH | x l1 l2 Hsub IH]; intros Hsorted.
  - constructor.
  - apply StronglySorted_inv in Hsorted as [Hrest Hx].
    constructor; [apply IH; exact Hrest |].
    apply Forall_forall. intros y Hy. rewrite Forall_forall in Hx.
    apply Hx. eapply elem_of_sublist; eassumption.
  - apply StronglySorted_inv in Hsorted as [Hrest _]. apply IH. exact Hrest.
Qed.

Section Frames.

Variable clip : Type.
Variable duration : clip -> Z.
Variable detect : clip -> Z -> Q -> outcome (list (string * string)).
Variable str_of_int : Z -> string.

Local Abbreviation process_frames :=
  (_process_frames clip duration detect str_of_int).
Local Abbreviation frames := (frames_loop clip detect str_of_int).

(** The loop returns the chunks it had, then one chunk for every second
    of [ts], in order, at which something was detected. *)
Lemma frames_loop_kept self video (ts : list Z) :
  forall chunks result,
    frames self video ts chunks = Ok result ->
    exists kept : list (Z * list (string * string)),
      result
      = (chunks
         ++ map (fun '(t, results) => detection_chunk str_of_int t results)
                kept)%list
      /\ sublist (map fst kept) ts
      /\ Forall (fun '(t, results) =>
                   results <> []
                   /\ detect video t (confidence_threshold self) = Ok results)
                kept.
Proof.
  induction ts as [| t ts IH]; intros chunks result; simpl.
  - intros [= <-]. exists []. simpl. rewrite app_nil_r.
    repeat split; constructor.
  - destruct (detect video t (confidence_threshold self))
      as [results | e] eqn:Hdet; simpl; [| discriminate].
    destruct results as [| d ds].
    + intros Hrun. destruct (IH _ _ Hrun) as (kept & -> & Hsub & Hall).
      exists kept. repeat split; try assumption.
      apply sublist_cons. exact Hsub.
    + intros Hrun. destruct (IH _ _ Hrun) as (kept & -> & Hsub & Hall).
      exists ((t, d :: ds) :: kept). rewrite <- app_assoc. simpl.
      repeat split.
      * apply sublist_skip. exact Hsub.
      * constructor; [split; [discriminate | exact Hdet] | exact Hall].
Qed.

(** Where detection succeeds at every second of [ts], the loop returns the
    chunks it had, then one chunk for every second at which something was
    detected, in the order of [ts]. *)
Lemma frames_loop_seen self video (ts : list Z) :
  Forall (detects clip detect self video) ts ->
  forall chunks,
    exists seen : list (Z * list (string * string)),
      map fst seen = ts
      /\ Forall (fun '(t, results) =>
                   detect video t (confidence_threshold self) = Ok results)
                seen
      /\ frames self video ts chunks
         = Ok (chunks
               ++ flat_map
                    (fun '(t, results) =>
                       match results with
                       | [] => []
                       | _ :: _ => [detection_chunk str_of_int t results]
                       end) seen)%list.
Proof.
  induction 1 as [| t ts [results Hdet] _ IH]; intros chunks.
  - exists []. simpl. rewrite app_nil_r. repeat split. constructor.
  - simpl. rewrite Hdet. simpl. destruct results as [| d ds].
    + destruct (IH chunks) as (seen & Hfst & Hseen & ->).
      exists ((t, []) :: seen). simpl. rewrite Hfst.
      split; [reflexivity |]. split; [| reflexivity].
      constructor; assumption.
    + destruct (IH (chunks ++ [detection_chunk str_of_int t (d :: ds)])%list)
        as (seen & Hfst & Hseen & Hrun).
      exists ((t, d :: ds) :: seen). simpl. rewrite Hfst.
      split; [reflexivity |]. split; [constructor; assumption |].
      etransitivity; [exact Hrun |].
      rewrite <- app_assoc. reflexivity.
Qed.

End Frames.

(** X11.  With a positive [frame_sample_rate] and a detector that
    succeeds at every sampled second, [_process_frames] returns, and what
    it returns is fixed by what the detector saw: the seconds looked at are
    exactly [0, rate, 2 * rate, ...] below the duration, in increasing
    order, and the list holds one chunk for each of them at which the
    detector kept something, in that order, and nothing for the others.
    The chunk of second [t] is tagged [timestamp = t] and
    [type = "object_detection"]. *)
Theorem process_frames_samples_every_rate
    (clip : Type) (duration : clip -> Z)
    (detect : clip -> Z -> Q -> outcome (list (string * string)))
    (str_of_int : Z -> string)
    (self : VideoProcessor) (video : clip) :
  0 < frame_sample_rate self ->
  (forall t,
      0 <= t < duration video ->
      (exists k, 0 <= k /\ t = k * frame_sample_rate self) ->
      detects clip detect self video t) ->
  exists seen : list (Z * list (string * string)),
    StronglySorted Z.lt (map fst seen)
    /\ (forall t,
          In t (map fst seen)
          <-> 0 <= t < duration video
              /\ exists k, 0 <= k /\ t = k * frame_sample_rate self)
    /\ Forall (fun '(t, results) =>
                 detect video t (confidence_threshold self) = Ok results)
              seen
    /\ _process_frames clip duration detect str_of_int self video
       = Ok (flat_map
               (fun '(t, results) =>
                  match results with
                  | [] => []
                  | _ :: _ => [detection_chunk str_of_int t results]
                  end) seen)
    /\ forall t results,
         metadata (detection_chunk str_of_int t results) !! "timestamp"
         = Some (VInt t)
         /\ metadata (detection_chunk str_of_int t results) !! "type"
            = Some (VStr "object_detection").
Proof.
  intros Hrate Hdetects. unfold _process_frames.
  destruct (py_range0 (duration video) (frame_sample_rate self))
    as [ts | e] eqn:Hrange.
  2:{ unfold py_range0 in Hrange.
      destruct (Z.eqb_spec (frame_sample_rate self) 0); [lia |].
      destruct (frame_sample_rate self <? 0); [discriminate |].
      destruct (duration video <=? 0); discriminate. }
  destruct (py_range0_spec _ _ _ Hrate Hrange) as (Hin & Hsorted & _).
  assert (Hall : Forall (detects clip detect self video) ts).
  { apply Forall_forall. intros t Ht. apply list_elem_of_In, Hin in Ht.
    destruct Ht as [Hr Hk]. apply Hdetects; assumption. }
  destruct (frames_loop_seen clip detect str_of_int self video ts Hall [])
    as (seen & Hfst & Hseen & Hrun).
  exists seen. rewrite Hfst.
  split; [exact Hsorted |]. split; [exact Hin |]. split; [exact Hseen |].
  split; [simpl; rewrite Hrun; reflexivity |].
  intros t results. split; reflexivity.
Qed.

Lemma process_frames_samples_every_rate_witness :
  let self := {| frame_sample_rate := 3; confidence_threshold := 0.5 |} in
  0 < frame_sample_rate self
  /\ (forall t,
        0 <= t < 10 ->
        (exists k, 0 <= k /\ t = k * frame_sample_rate self) ->
        detects unit gavel_detect self tt t)
  /\ _process_frames unit (fun _ => 10) gavel_detect (fun _ => "t") self tt
     = Ok [detection_chunk (fun _ => "t") 0 [("gavel", "0.97")];
           detection_chunk (fun _ => "t") 6 [("gavel", "0.97")]]
  /\ exists seen : list (Z * list (string * string)),
       StronglySorted Z.lt (map fst seen)
       /\ (forall t,
             In t (map fst seen)
             <-> 0 <= t < 10 /\ exists k, 0 <= k /\ t = k * 3)
       /\ Forall (fun '(t, results) => gavel_detect tt t 0.5 = Ok results)
                 seen
       /\ _process_frames unit (fun _ => 10) gavel_detect (fun _ => "t")
            self tt
          = Ok (flat_map
                  (fun '(t, results) =>
                     match results with
                     | [] => []
                     | _ :: _ => [detection_chunk (fun _ => "t") t results]
                     end) seen)
       /\ forall t results,
            metadata (detection_chunk (fun _ => "t") t results) !! "timestamp"
            = Some (VInt t)
            /\ metadata (detection_chunk (fun _ => "t") t results) !! "type"
               = Some (VStr "object_detection").
Proof.
  intros self.
  assert (Hdetects : forall t,
             0 <= t < 10 ->
             (exists k, 0 <= k /\ t = k * frame_sample_rate self) ->
             detects unit gavel_detect self tt t).
  { intros t _ _. unfold detects, gavel_detect.
    destruct (Z.even t); eexists; reflexivity. }
  split; [simpl; lia |]. split; [exact Hdetects |].
  split; [vm_compute; reflexivity |].
  exact (process_frames_samples_every_rate unit (fun _ => 10) gavel_detect
           (fun _ => "t") self tt ltac:(simpl; lia) Hdetects).
Defined.


(** ** [VideoProcessor.process] *)

Lemma audio_chunks_tagged (path_name : string -> string)
    (audio : AudioProcessor) (file_path : string) (chunks : list BaseChunk) :
  AudioProcessor_process path_name audio file_path = Ok chunks ->
  Forall (fun chunk =>
            metadata chunk !! "document_type" = Some (VStr "audio")
            /\ metadata chunk !! "source_file"
               = Some (VStr (path_name file_path))) chunks.
Proof.
  unfold AudioProcessor_process.
  destruct (transcribe (model audio) file_path) as [result | e]; simpl.
  2:{ intros [= <-]. repeat constructor. }
  destruct (negb (dict_truthy result) || negb (truthy (dict_get result "text")));
    simpl.
  { intros [= <-]. repeat constructor. }
  destruct (split_text (text_splitter audio) (dict_get result "text"))
    as [pieces | e]; simpl.
  2:{ intros [= <-]. repeat constructor. }
  intros [= <-]. apply Forall_lookup. intros i chunk Hi.
  rewrite list_lookup_imap in Hi.
  destruct (pieces !! i); [| discriminate].
  injection Hi as <-. split; reflexivity.
Qed.

Section VideoComposition.

Variable path_name : string -> string.
Variable clip : Type.
Variable open_clip : string -> outcome clip.
Variable duration : clip -> Z.
Variable write_audiofile : clip -> string -> outcome unit.
Variable close : clip -> outcome unit.
Variable temporary_directory : outcome string.
Variable path_join : string -> string -> string.
Variable new_audio_processor : outcome AudioProcessor.
Variable detect : clip -> Z -> Q -> outcome (list (string * string)).
Variable str_of_int : Z -> string.

Local Abbreviation video_process :=
  (VideoProcessor_process path_name clip open_clip duration write_audiofile
     close temporary_directory path_join new_audio_processor detect str_of_int).

(** X12.  A [VideoProcessor] built with [frame_sample_rate = 0] cannot
    process any file: whatever the file and whatever the outside
    capabilities do, [process] raises, at the latest when the frame loop
    asks for a range with step 0. *)
Theorem video_zero_sample_rate_always_fails (self : VideoProcessor)
    (file_path : string) :
  frame_sample_rate self = 0 ->
  exists e, video_process self file_path = Raise e.
Proof.
  intros Hrate. unfold VideoProcessor_process.
  destruct (open_clip file_path) as [video | e]; simpl; [| eauto].
  destruct temporary_directory as [temp_dir | e]; simpl; [| eauto].
  destruct (write_audiofile video (path_join temp_dir "temp_audio.wav"))
    as [[] | e]; simpl; [| eauto].
  destruct new_audio_processor as [audio | e]; simpl; [| eauto].
  destruct (audio_process_returns path_name audio
              (path_join temp_dir "temp_audio.wav")) as [audio_chunks ->].
  simpl. unfold _process_frames, py_range0. rewrite Hrate. simpl. eauto.
Qed.

(** X13.  When [process] returns for a video, the list is the chunks of
    the audio extractor run on the extracted track followed by the
    detection chunks.  The former are tagged [document_type = "audio"] and
    with the name of the temporary audio file as [source_file]; the
    latter carry neither key.  No chunk is tagged as coming from a video
    or with the name of the video file. *)
Theorem video_chunks_are_audio_then_detections (self : VideoProcessor)
    (file_path : string) (chunks : list BaseChunk) :
  video_process self file_path = Ok chunks ->
  exists video temp_dir audio audio_chunks frame_chunks,
    open_clip file_path = Ok video
    /\ temporary_directory = Ok temp_dir
    /\ new_audio_processor = Ok audio
    /\ AudioProcessor_process path_name audio
         (path_join temp_dir "temp_audio.wav") = Ok audio_chunks
    /\ _process_frames clip duration detect str_of_int self video
       = Ok frame_chunks
    /\ chunks = (audio_chunks ++ frame_chunks)%list
    /\ Forall (video_chunk_tags
                 (path_name (path_join temp_dir "temp_audio.wav"))) chunks
    /\ Forall (fun chunk =>
                 metadata chunk !! "document_type" <> Some (VStr "video"))
              chunks.
Proof.
  unfold VideoProcessor_process.
  destruct (open_clip file_path) as [video | e]; simpl; [| discriminate].
  destruct temporary_directory as [temp_dir | e]; simpl; [| discriminate].
  destruct (write_audiofile video (path_join temp_dir "temp_audio.wav"))
    as [[] | e]; simpl; [| discriminate].
  destruct new_audio_processor as [audio | e]; simpl; [| discriminate].
  destruct (AudioProcessor_process path_name audio
              (path_join temp_dir "temp_audio.wav"))
    as [audio_chunks | e] eqn:Haudio; simpl; [| discriminate].
  destruct (_process_frames clip duration detect str_of_int self video)
    as [frame_chunks | e] eqn:Hframes; simpl; [| discriminate].
  destruct (close video) as [[] | e]; simpl; [| discriminate].
  intros [= <-].
  assert (Htags : Forall (video_chunk_tags
                            (path_name (path_join temp_dir "temp_audio.wav")))
                    (audio_chunks ++ frame_chunks)).
  { apply Forall_app. split.
    - eapply Forall_impl; [apply (audio_chunks_tagged _ _ _ _ Haudio) |].
      intros chunk Htag. left. exact Htag.
    - unfold _process_frames in Hframes.
      destruct (py_range0 (duration video) (frame_sample_rate self))
        as [ts | e]; simpl in Hframes; [| discriminate].
      destruct (frames_loop clip detect str_of_int self video ts [])
        as [result | e] eqn:Hrun; simpl in Hframes; [| discriminate].
      injection Hframes as <-.
      destruct (frames_loop_kept clip detect str_of_int self video ts []
                  result Hrun) as (kept & -> & _ & _).
      simpl. apply Forall_forall. intros chunk Hin.
      apply list_elem_of_fmap in Hin as ([t results] & -> & _).
      right. repeat split; reflexivity. }
  exists video, temp_dir, audio, audio_chunks, frame_chunks.
  repeat (split; [reflexivity || assumption |]).
  eapply Forall_impl; [exact Htags |].
  intros chunk [[Htype _] | [Htype _]]; rewrite Htype; discriminate.
Qed.

End VideoComposition.

Lemma video_zero_sample_rate_always_fails_witness :
  let self := {| frame_sample_rate := 0; confidence_threshold := 0.5 |} in
  let audio :=
    {| model := silent_whisper; text_splitter := whole_text_splitter |} in
  frame_sample_rate self = 0
  /\ exists e,
       VideoProcessor_process (fun p => p) unit (fun _ => Ok tt) (fun _ => 5)
         (fun _ _ => Ok tt) (fun _ => Ok tt) (Ok "/tmp/x")
         (fun d f => d ++ "/" ++ f) (Ok audio) gavel_detect (fun _ => "t")
         self "hearing.mp4"
       = Raise e.
Proof.
  intros self audio. split; [reflexivity |].
  exact (video_zero_sample_rate_always_fails (fun p => p) unit
           (fun _ => Ok tt) (fun _ => 5) (fun _ _ => Ok tt) (fun _ => Ok tt)
           (Ok "/tmp/x") (fun d f => d ++ "/" ++ f) (Ok audio) gavel_detect
           (fun _ => "t") self "hearing.mp4" eq_refl).
Defined.

Lemma video_chunks_are_audio_then_detections_witness :
  let self := {| frame_sample_rate := 2; confidence_threshold := 0.5 |} in
  let audio :=
    {| model := silent_whisper; text_splitter := whole_text_splitter |} in
  exists chunks,
    VideoProcessor_process (fun p => p) unit (fun _ => Ok tt) (fun _ => 3)
      (fun _ _ => Ok tt) (fun _ => Ok tt) (Ok "/tmp/x")
      (fun d f => d ++ "/" ++ f) (Ok audio) gavel_detect (fun _ => "t")
      self "hearing.mp4"
    = Ok chunks
    /\ length chunks = 3%nat
    /\ Forall (video_chunk_tags "/tmp/x/temp_audio.wav") chunks
    /\ Forall (fun chunk =>
                 metadata chunk !! "document_type" <> Some (VStr "video"))
              chunks.
Proof.
  intros self audio.
  assert (Hrun : VideoProcessor_process (fun p => p) unit (fun _ => Ok tt)
                   (fun _ => 3) (fun _ _ => Ok tt) (fun _ => Ok tt)
                   (Ok "/tmp/x") (fun d f => d ++ "/" ++ f) (Ok audio)
                   gavel_detect (fun _ => "t") self "hearing.mp4"
                 = Ok [no_speech_chunk (fun p => p) "/tmp/x/temp_audio.wav";
                       detection_chunk (fun _ => "t") 0 [("gavel", "0.97")];
                       detection_chunk (fun _ => "t") 2 [("gavel", "0.97")]])
    by (vm_compute; reflexivity).
  destruct (video_chunks_are_audio_then_detections (fun p => p) unit
              (fun _ => Ok tt) (fun _ => 3) (fun _ _ => Ok tt)
              (fun _ => Ok tt) (Ok "/tmp/x") (fun d f => d ++ "/" ++ f)
              (Ok audio) gavel_detect (fun _ => "t") self "hearing.mp4" _ Hrun)
    as (video & temp_dir & audio' & audio_chunks & frame_chunks
        & _ & Htmp & _ & _ & _ & _ & Htags & Hnot).
  injection Htmp as <-.
  eexists. split; [exact Hrun |]. split; [reflexivity |].
  split; [exact Htags | exact Hnot].
Defined.


(** ** [ChromaStore]: reading back *)

Section ReadBack.

Import ChromaStore.

Context {S : Type}.
Variable h : backend S.
Variable s : S.

(** X14.  Insert, then look up.  When the vector store answers [get] with
    the text and the metadata that [add_document] handed it for a chunk,
    [get_document] returns the chunk's content unchanged and a metadata
    record of exactly four keys, [document_type], [page_number],
    [source_file] and [language], each with the chunk's value, or [None]
    ([language]: ["en"]) when the chunk has none.  The chunk's
    [chunk_index] and [timestamp], though stored, are not returned. *)
Theorem get_document_after_add_document (chunk : BaseChunk)
    (s' : S) (document_id : string) (texts : list string)
    (metadatas : list (gmap string pyval)) :
  added (run h (add_document chunk) s).2 = [(texts, metadatas)] ->
  (h _ (Get [document_id]) s').1
  = Ok {| documents := texts; metadatas := metadatas |} ->
  exists doc,
    (run h (get_document document_id) s').1.1 = Ok (Some doc)
    /\ sd_content doc = content chunk
    /\ dom (sd_metadata doc) = returned_keys
    /\ sd_metadata doc !! "document_type"
       = Some (default VNone (metadata chunk !! "document_type"))
    /\ sd_metadata doc !! "page_number"
       = Some (default VNone (metadata chunk !! "page_number"))
    /\ sd_metadata doc !! "source_file"
       = Some (default VNone (metadata chunk !! "source_file"))
    /\ sd_metadata doc !! "language"
       = Some (default (VStr "en") (metadata chunk !! "language"))
    /\ sd_metadata doc !! "chunk_index" = None
    /\ sd_metadata doc !! "timestamp" = None.
Proof.
  rewrite added_by_add_document. intros [= <- <-] Hget.
  destruct (pair_of_fst _ _ Hget) as [s'' Hcall].
  unfold get_document. cbn [run]. rewrite Hcall. simpl.
  eexists. split; [reflexivity |]. simpl.
  split; [reflexivity |]. split.
  { unfold returned_keys. rewrite !dom_insert_L, dom_empty_L. set_solver. }
  unfold add_document_metadata, dict_get, dict_get_default.
  repeat split; reflexivity.
Qed.

(** X15.  [get_document] also returns [None] when the vector store raises
    and when its answer has a document without metadata: a failed lookup
    cannot be told from an absent id, and nothing is raised. *)
Theorem get_document_hides_failures (document_id : string) (e : exn)
    (S' : Type) (h' : backend S') (s' : S') (doc : string)
    (docs : list string) :
  (h _ (Get [document_id]) s).1 = Raise e ->
  (h' _ (Get [document_id]) s').1
  = Ok {| documents := doc :: docs; metadatas := [] |} ->
  (run h (get_document document_id) s).1.1 = Ok None
  /\ (run h' (get_document document_id) s').1.1 = Ok None.
Proof.
  intros Hfail Hbad.
  destruct (pair_of_fst _ _ Hfail) as [s1 Hcall1].
  destruct (pair_of_fst _ _ Hbad) as [s2 Hcall2].
  unfold get_document. cbn [run]. rewrite Hcall1, Hcall2. split; reflexivity.
Qed.

(** X16.  The id [add_document] returns is the first one the vector store
    returned; when the store accepts the text but returns no id,
    [add_document] raises an index error although the text was added. *)
Theorem add_document_returns_first_id (chunk : BaseChunk)
    (ids : list string) :
  (h _ (AddTexts [content chunk] [add_document_metadata chunk]) s).1
  = Ok ids ->
  (run h (add_document chunk) s).1.1
  = match ids with
    | id :: _ => Ok id
    | [] => Raise {| exn_str := "list index out of range" |}
    end.
Proof.
  intros Hadd. destruct (pair_of_fst _ _ Hadd) as [s' Hcall].
  rewrite run_add_document, Hcall. destruct ids; reflexivity.
Qed.

End ReadBack.

Lemma get_document_after_add_document_witness :
  let chunk :=
    {| content := "Lease agreement";
       metadata := <["document_type" := VStr "pdf"]>
                   (<["chunk_index" := VInt 3]> ∅) |} in
  let h := single_document_backend "Lease agreement"
             (ChromaStore.add_document_metadata chunk) in
  exists doc,
    (run h (ChromaStore.get_document "id-0") tt).1.1 = Ok (Some doc)
    /\ ChromaStore.sd_content doc = "Lease agreement"
    /\ dom (ChromaStore.sd_metadata doc) = returned_keys
    /\ ChromaStore.sd_metadata doc !! "document_type" = Some (VStr "pdf")
    /\ ChromaStore.sd_metadata doc !! "language" = Some (VStr "en")
    /\ ChromaStore.sd_metadata doc !! "chunk_index" = None.
Proof.
  intros chunk h.
  destruct (get_document_after_add_document h tt chunk tt "id-0"
              ["Lease agreement"] [ChromaStore.add_document_metadata chunk]
              eq_refl eq_refl)
    as (doc & Hget & Hcontent & Hdom & Htype & _ & _ & Hlang & Hindex & _).
  exists doc. repeat split; assumption.
Defined.

Lemma get_document_hides_failures_witness :
  let e := {| exn_str := "connection refused" |} in
  (run (broken_backend e) (ChromaStore.get_document "42") tt).1.1 = Ok None
  /\ (run lopsided_backend (ChromaStore.get_document "42") tt).1.1 = Ok None.
Proof.
  intros e.
  exact (get_document_hides_failures (broken_backend e) tt "42" e unit
           lopsided_backend tt "text" [] eq_refl eq_refl).
Defined.

Lemma add_document_returns_first_id_witness :
  let chunk := {| content := "Lease agreement"; metadata := ∅ |} in
  (run lopsided_backend (ChromaStore.add_document chunk) tt).1.1
  = Raise {| exn_str := "list index out of range" |}
  /\ (run empty_backend (ChromaStore.add_document chunk) tt).1.1 = Ok "id".
Proof.
  intros chunk. split.
  - exact (add_document_returns_first_id lopsided_backend tt chunk []
             eq_refl).
  - exact (add_document_returns_first_id empty_backend tt chunk ["id"]
             eq_refl).
Defined.


(** ** [ChromaStore.search]: the results *)

Section SearchResults.

Import ChromaStore.

Variable validate_str : pyval -> outcome string.

Lemma search_result_of doc score id :
  validate_str (default (VStr "") (doc_metadata doc !! "id")) = Ok id ->
  exists result,
    search_result validate_str doc score = Ok result
    /\ result_of validate_str (doc, score) result.
Proof.
  intros Hid. unfold search_result, dict_get_default. rewrite Hid. simpl.
  eexists. split; [reflexivity |].
  unfold result_of. simpl.
  split; [reflexivity |]. split; [reflexivity |]. split; [exact Hid |].
  split.
  - unfold returned_keys. rewrite !dom_insert_L, dom_empty_L. set_solver.
  - intros k Hk. unfold returned_keys in Hk.
    rewrite !elem_of_union, !elem_of_singleton in Hk. unfold dict_get.
    destruct Hk as [[[-> | ->] | ->] | ->]; reflexivity.
Qed.

Lemma search_results_all_valid (docs : list (Document * Q)) :
  Forall (fun found =>
            exists id,
              validate_str (default (VStr "") (doc_metadata found.1 !! "id"))
              = Ok id) docs ->
  forall acc,
    exists results,
      search_results validate_str docs acc = Ok (acc ++ results)%list
      /\ Forall2 (result_of validate_str) docs results.
Proof.
  induction 1 as [| [doc score] docs (id & Hid) _ IH]; intros acc; simpl.
  - exists []. rewrite app_nil_r. split; [reflexivity | constructor].
  - destruct (search_result_of doc score id Hid) as (r & -> & Hr). simpl.
    destruct (IH (acc ++ [r])%list) as (results & -> & Hall).
    exists (r :: results). rewrite <- app_assoc. split; [reflexivity |].
    constructor; assumption.
Qed.

(** X17.  When the vector store answers a search with documents whose
    ["id"] entries all pass validation, [search] returns one result per
    document, in the store's order, with the content and the score as
    found and the metadata cut down to [document_type], [page_number],
    [source_file] and [language] ([None] where the document has none).
    An empty [document_type] argument searches without a filter, like no
    argument. *)
Theorem search_returns_documents_in_order {S} (h : backend S) (s : S)
    (query : string) (document_type : option string) (limit : Z)
    (docs : list (Document * Q)) :
  (h _ (SimilaritySearchWithScore query limit (filter_dict document_type))
     s).1 = Ok docs ->
  Forall (fun found =>
            exists id,
              validate_str (default (VStr "") (doc_metadata found.1 !! "id"))
              = Ok id) docs ->
  (exists results,
      (run h (search validate_str query document_type limit) s).1.1
      = Ok results
      /\ Forall2 (result_of validate_str) docs results)
  /\ search validate_str query (Some "") limit
     = search validate_str query None limit.
Proof.
  intros Hcall Hvalid. split; [| reflexivity].
  destruct (pair_of_fst _ _ Hcall) as [s' Hrun].
  destruct (search_results_all_valid docs Hvalid []) as (results & Hres & Hall).
  exists results. split; [| exact Hall].
  rewrite run_search, Hrun. simpl. rewrite Hres. reflexivity.
Qed.

End SearchResults.

Lemma search_returns_documents_in_order_witness :
  let md : gmap string pyval :=
    <["document_type" := VStr "pdf"]> (<["chunk_index" := VInt 3]> ∅) in
  let docs := [({| page_content := "Lease agreement"; doc_metadata := md |},
                0.25%Q)] in
  exists results,
    (run (single_document_backend "Lease agreement" md)
         (ChromaStore.search strict_str "rent" (Some "pdf") 5) tt).1.1
    = Ok results
    /\ Forall2 (result_of strict_str) docs results.
Proof.
  intros md docs.
  destruct (search_returns_documents_in_order strict_str
              (single_document_backend "Lease agreement" md) tt "rent"
              (Some "pdf") 5 docs eq_refl) as [Hres _].
  - repeat constructor. exists "". reflexivity.
  - exact Hres.
Defined.


(** ** [MockStore] *)

Lemma str_of_nat_inj (n m : nat) : str_of_nat n = str_of_nat m -> n = m.
Proof.
  unfold str_of_nat. intros Heq.
  assert (Hu : Nat.to_uint n = Nat.to_uint m).
  { apply (f_equal NilEmpty.uint_of_string) in Heq.
    rewrite !NilEmpty.usu in Heq. congruence. }
  apply (f_equal Nat.of_uint) in Hu.
  rewrite !DecimalNat.Unsigned.of_to in Hu. exact Hu.
Qed.

Section MockStoreProperties.

Import MockStore.

Local Abbreviation chunk_t := (base_chunker.BaseChunk string).

Lemma dict_set_fresh (d : list (string * chunk_t)) k v :
  Forall (fun entry => entry.1 <> k) d -> dict_set d k v = (d ++ [(k, v)])%list.
Proof.
  induction 1 as [| [k' v'] d Hk _ IH]; simpl; [reflexivity |].
  destruct (String.eqb_spec k' k); [contradiction |].
  rewrite IH. reflexivity.
Qed.

Lemma dict_lookup_app_fresh (d : list (string * chunk_t)) k v :
  Forall (fun entry => entry.1 <> k) d ->
  dict_lookup (d ++ [(k, v)]) k = Some v.
Proof.
  induction 1 as [| [k' v'] d Hk _ IH]; simpl.
  - rewrite String.eqb_refl. reflexivity.
  - destruct (String.eqb_spec k' k); [contradiction | exact IH].
Qed.

Lemma dict_lookup_app_old (d d' : list (string * chunk_t)) k v :
  dict_lookup d k = Some v -> dict_lookup (d ++ d') k = Some v.
Proof.
  induction d as [| [k' v'] d IH]; simpl; [discriminate |].
  destruct (String.eqb k' k); [trivial | exact IH].
Qed.

Lemma numbered_fresh m d :
  numbered m d -> Forall (fun entry => entry.1 <> str_of_nat m) d.
Proof.
  unfold numbered. intros Hkeys. apply Forall_forall. intros entry Hin Heq.
  apply list_elem_of_In, (in_map fst) in Hin. rewrite Hkeys, Heq in Hin.
  apply in_map_iff in Hin as (j & Hj & Hin).
  apply str_of_nat_inj in Hj. subst j.
  apply in_seq in Hin. lia.
Qed.

Lemma numbered_length m d : numbered m d -> length d = m.
Proof.
  unfold numbered. intros Hkeys.
  apply (f_equal (@length string)) in Hkeys.
  rewrite !length_map, length_seq in Hkeys. exact Hkeys.
Qed.

Lemma add_all_numbered chunks :
  forall m self,
    numbered m (documents self) ->
    (add_all self chunks).1 = map str_of_nat (seq m (length chunks))
    /\ documents (add_all self chunks).2
       = (documents self
          ++ zip (map str_of_nat (seq m (length chunks))) chunks)%list
    /\ numbered (m + length chunks) (documents (add_all self chunks).2).
Proof.
  induction chunks as [| chunk chunks IH]; intros m self Hnum; simpl.
  - rewrite app_nil_r, Nat.add_0_r.
    split; [reflexivity | split; [reflexivity | exact Hnum]].
  - rewrite (numbered_length m _ Hnum).
    rewrite (dict_set_fresh _ _ _ (numbered_fresh m _ Hnum)).
    set (self' := {| documents := documents self ++ [(str_of_nat m, chunk)] |}).
    assert (Hnum' : numbered (S m) (documents self')).
    { unfold numbered in *. unfold self'. cbn [documents].
      rewrite map_app, Hnum.
      replace (S m) with (m + 1)%nat by lia.
      rewrite seq_app, map_app. reflexivity. }
    destruct (IH (S m) self' Hnum') as (Hids & Hdocs & Hnum'').
    destruct (add_all self' chunks) as [ids self'']. simpl in *.
    split; [rewrite Hids; reflexivity |].
    split; [rewrite Hdocs, <- app_assoc; reflexivity |].
    replace (m + S (length chunks))%nat with (S (m + length chunks)) by lia.
    exact Hnum''.
Qed.

Lemma numbered_lookup m d (i : nat) entry :
  numbered m d ->
  d !! i = Some entry ->
  entry.1 = str_of_nat i /\ dict_lookup d entry.1 = Some entry.2.
Proof.
  revert m i. induction d as [| [k v] d IH] using rev_ind;
    intros m i Hnum Hi; [discriminate |].
  pose proof (numbered_length _ _ Hnum) as Hlen.
  rewrite length_app in Hlen. simpl in Hlen.
  destruct m as [| m]; [lia |].
  assert (Hprev : numbered m d /\ k = str_of_nat m).
  { unfold numbered in *. rewrite map_app in Hnum.
    replace (S m) with (m + 1)%nat in Hnum by lia.
    rewrite seq_app, map_app in Hnum. simpl in Hnum.
    apply app_inj_tail in Hnum. exact Hnum. }
  destruct Hprev as [Hprev ->].
  destruct (Nat.lt_ge_cases i (length d)) as [Hlt | Hge].
  - rewrite lookup_app_l in Hi by exact Hlt.
    destruct (IH m i Hprev Hi) as [Hk Hv]. split; [exact Hk |].
    apply dict_lookup_app_old. exact Hv.
  - rewrite lookup_app_r in Hi by exact Hge.
    assert (i = length d) as ->.
    { destruct (i - length d)%nat eqn:Hd; [lia | discriminate]. }
    rewrite Nat.sub_diag in Hi. injection Hi as <-. simpl.
    assert (length d = m) as -> by lia.
    split; [reflexivity |].
    apply dict_lookup_app_fresh. apply numbered_fresh. exact Hprev.
Qed.

(** X18.  Starting from an empty [MockStore], adding chunks one after the
    other returns the ids ["0"], ["1"], ["2"], ... in order, all different;
    the store then holds each chunk under its id, in insertion order, and
    no chunk has replaced another. *)
Theorem mock_store_ids_are_positions (chunks : list chunk_t) :
  (add_all init chunks).1 = map str_of_nat (seq 0 (length chunks))
  /\ NoDup (add_all init chunks).1
  /\ documents (add_all init chunks).2
     = zip (add_all init chunks).1 chunks
  /\ forall (i : nat) chunk,
       chunks !! i = Some chunk ->
       dict_lookup (documents (add_all init chunks).2) (str_of_nat i)
       = Some chunk.
Proof.
  destruct (add_all_numbered chunks 0 init eq_refl) as (Hids & Hdocs & Hnum).
  simpl in Hdocs, Hnum. rewrite Hids at 1 2.
  split; [reflexivity |]. split; [| split].
  - apply NoDup_fmap_2; [intros n m; apply str_of_nat_inj | apply NoDup_seq].
  - rewrite Hdocs, Hids. reflexivity.
  - intros i chunk Hi.
    assert (Hentry : documents (add_all init chunks).2 !! i
                     = Some (str_of_nat i, chunk)).
    { rewrite Hdocs. apply lookup_zip_with_Some.
      exists (str_of_nat i), chunk. split; [reflexivity |].
      split; [| exact Hi].
      rewrite list_lookup_fmap, lookup_seq_lt; [reflexivity |].
      apply lookup_lt_Some in Hi. exact Hi. }
    destruct (numbered_lookup _ _ _ _ Hnum Hentry) as [_ Hlookup].
    exact Hlookup.
Qed.

Lemma search_loop_kept (items : list (string * chunk_t)) document_type :
  forall results,
    exists kept,
      search_loop items document_type results
      = (results ++ map mock_result kept)%list
      /\ sublist kept items
      /\ Forall (fun entry => matches_type document_type entry.2) kept
      /\ (forall entry,
            entry ∈ items -> matches_type document_type entry.2 ->
            entry ∈ kept).
Proof.
  induction items as [| [doc_id chunk] items IH]; intros results; simpl.
  - exists []. rewrite app_nil_r. repeat split; try constructor.
    intros entry Hin. inversion Hin.
  - set (skip := match document_type with
                 | Some t => _
                 | None => false
                 end).
    assert (Hskip : skip = false <-> matches_type document_type chunk).
    { unfold skip, matches_type, dict_get. destruct document_type as [t |];
        [| tauto].
      destruct (String.eqb_spec t "") as [-> | Hne]; simpl; [tauto |].
      destruct (base_chunker.metadata chunk !! "document_type") as [[] |];
        simpl; try (split; [discriminate | intros [? | ?]; congruence]).
      destruct (String.eqb_spec s t) as [-> | Hst]; simpl.
      - split; [right; reflexivity | reflexivity].
      - split; [discriminate | intros [? | ?]; congruence]. }
    destruct skip.
    + destruct (IH results) as (kept & -> & Hsub & Hall & Hcomplete).
      exists kept. repeat split; try assumption.
      * apply sublist_cons. exact Hsub.
      * intros entry Hin Hmatch. apply elem_of_cons in Hin as [-> | Hin].
        -- apply Hskip in Hmatch. discriminate.
        -- apply Hcomplete; assumption.
    + destruct (IH (results ++ [mock_result (doc_id, chunk)])%list)
        as (kept & Hrun & Hsub & Hall & Hcomplete).
      exists ((doc_id, chunk) :: kept). repeat split.
      * unfold mock_result in Hrun at 1. simpl in Hrun. rewrite Hrun.
        rewrite <- app_assoc. reflexivity.
      * apply sublist_skip. exact Hsub.
      * constructor; [apply Hskip; reflexivity | exact Hall].
      * intros entry Hin Hmatch. apply elem_of_cons in Hin as [-> | Hin].
        -- apply list_elem_of_here.
        -- apply list_elem_of_further. apply Hcomplete; assumption.
Qed.

(** X19.  [MockStore.search] ignores the query.  It returns stored
    entries in insertion order, each with its id, content and metadata
    and the score 1.0, and only entries whose [document_type] is the one
    asked for (all of them for no or an empty [document_type]); with a
    limit [>= 0] it returns at most that many, and with a limit at least
    the size of the store it returns every matching entry. *)
Theorem mock_store_search_filters_in_order (self : t) (query : string)
    (document_type : option string) (limit : Z) :
  exists kept,
    search self query document_type limit = map mock_result kept
    /\ sublist kept (documents self)
    /\ Forall (fun entry => matches_type document_type entry.2) kept
    /\ (0 <= limit -> Z.of_nat (length kept) <= limit)
    /\ (Z.of_nat (length (documents self)) <= limit ->
        forall entry,
          entry ∈ documents self -> matches_type document_type entry.2 ->
          entry ∈ kept)
    /\ forall query', search self query' document_type limit
                      = search self query document_type limit.
Proof.
  unfold search.
  destruct (search_loop_kept (documents self) document_type [])
    as (kept & -> & Hsub & Hall & Hcomplete).
  simpl. rewrite length_map.
  set (k := Z.to_nat (Py.adjust (Z.of_nat (length kept)) limit)).
  exists (take k kept). split; [rewrite fmap_take; reflexivity |].
  split; [etransitivity; [apply sublist_take | exact Hsub] |].
  split; [apply Forall_take; exact Hall |].
  split; [| split; [| reflexivity]].
  - intros Hlimit. rewrite length_take. unfold k, Py.adjust.
    destruct (Z.ltb_spec limit 0); lia.
  - intros Hbig entry Hin Hmatch.
    rewrite take_ge; [apply Hcomplete; assumption |].
    pose proof (sublist_length _ _ Hsub). unfold k, Py.adjust.
    destruct (Z.ltb_spec limit 0); lia.
Qed.

End MockStoreProperties.


(** ** [py_split] with a one-character separator *)

Lemma split_chars_single_length (c : ascii) (l : list ascii) :
  forall cur,
    length (split_chars [c] 0 cur l)
    = S (length (List.filter (Ascii.eqb c) l)).
Proof.
  induction l as [| x l IH]; intros cur; simpl; [reflexivity |].
  destruct (Ascii.eqb c x); simpl; rewrite IH; reflexivity.
Qed.

Lemma py_split_single_length (s : string) (c : ascii) :
  length (py_split s (String c "")) = S (count_char s c).
Proof.
  unfold py_split, count_char. rewrite length_map. simpl.
  apply split_chars_single_length.
Qed.

Lemma contains_count (s : string) (c : ascii) :
  contains s c = false <-> count_char s c = 0%nat.
Proof.
  unfold contains, count_char.
  induction (Py.chars s) as [| x l IH]; simpl; [tauto |].
  destruct (Ascii.eqb c x); simpl; [split; discriminate | exact IH].
Qed.

Lemma split_chars_not_nil sep skip cur l : split_chars sep skip cur l <> [].
Proof.
  revert skip cur. induction l as [| x l IH]; intros skip cur; simpl;
    [discriminate |].
  destruct skip; [| apply IH].
  destruct (starts_with sep (x :: l)); [discriminate | apply IH].
Qed.

Lemma py_split_first (s sep : string) :
  exists first rest, py_split s sep = first :: rest.
Proof.
  unfold py_split.
  destruct (split_chars (Py.chars sep) 0 [] (Py.chars s)) eqn:Hsplit.
  - exfalso. exact (split_chars_not_nil _ _ _ _ Hsplit).
  - simpl. eauto.
Qed.

(** ** [MistralService] *)

Section MistralProperties.

Import MistralService.

Variable http_str : Z -> string -> string.
Variable chat :
  string -> list (gmap string pyval) -> Q -> Z -> outcome (list string).
Variable py_float : string -> outcome Q.

Local Abbreviation key_points := (extract_key_points http_str chat).
Local Abbreviation citations := (extract_legal_citations http_str chat).
Local Abbreviation risks := (assess_legal_risks http_str chat).

Lemma or_http_500_value_or_500 {A} prefix (body : result A) :
  value_or_500 (or_http_500 http_str prefix body).
Proof. destruct body; simpl; [exact I | reflexivity]. Qed.

Lemma make_request_answer self messages max_tokens temperature response rest :
  chat (model self) messages temperature max_tokens = Ok (response :: rest) ->
  _make_request http_str chat self messages max_tokens temperature
  = Returns response.
Proof. intros Hchat. unfold _make_request. rewrite Hchat. reflexivity. Qed.

Lemma make_request_failure self messages max_tokens temperature e :
  chat (model self) messages temperature max_tokens = Raise e ->
  _make_request http_str chat self messages max_tokens temperature
  = Raises (HTTPException 500 ("API request failed: " ++ exn_str e)).
Proof. intros Hchat. unfold _make_request. rewrite Hchat. reflexivity. Qed.

Lemma stripped_points_clean (lines : list string) :
  Forall clean_point (stripped_points lines)
  /\ sublist (stripped_points lines) (map Py.strip lines)
  /\ (Forall (fun line => Py.strip line = "") lines ->
      stripped_points lines = []).
Proof.
  induction lines as [| line lines (IHclean & IHsub & IHblank)]; simpl.
  - repeat split; constructor.
  - destruct (String.eqb_spec (Py.strip line) "") as [Heq | Hne]; simpl.
    + split; [exact IHclean |]. split; [apply sublist_cons; exact IHsub |].
      intros Hall. apply IHblank. inversion Hall; assumption.
    + split; [| split].
      * constructor; [| exact IHclean].
        destruct (strip_no_outer_space line) as [Hs He].
        split; [exact Hne | split; assumption].
      * apply sublist_skip. exact IHsub.
      * intros Hall. inversion Hall; contradiction.
Qed.

Lemma stripped_points_filter (lines : list string) :
  stripped_points lines
  = List.filter (fun point => negb (String.eqb point ""))
      (map Py.strip lines).
Proof.
  induction lines as [| line lines IH]; simpl; [reflexivity |].
  destruct (negb (String.eqb (Py.strip line) "")); rewrite IH; reflexivity.
Qed.

End MistralProperties.


Section MistralParsing.

Import MistralService.

Variable http_str : Z -> string -> string.
Variable chat :
  string -> list (gmap string pyval) -> Q -> Z -> outcome (list string).
Variable py_float : string -> outcome Q.

(** X20.  When the model answers, [extract_key_points] returns the lines
    of that answer, trimmed, without the ones that are empty after
    trimming, in the order of the answer.  So every point is non-empty and
    has no whitespace around it, and an answer of blank lines gives no
    point. *)
Theorem key_points_are_clean_lines (self : t) (content : string)
    (response : string) (rest : list string) :
  (forall messages,
      chat (model self) messages 0.1 500 = Ok (response :: rest)) ->
  exists points,
    extract_key_points http_str chat self content = Returns points
    /\ points
       = List.filter (fun point => negb (String.eqb point ""))
           (map Py.strip (py_split response nl))
    /\ Forall clean_point points
    /\ (Forall (fun line => Py.strip line = "") (py_split response nl) ->
        points = []).
Proof.
  intros Hchat. unfold extract_key_points.
  rewrite (make_request_answer http_str chat self _ _ _ response rest
             (Hchat _)).
  simpl.
  destruct (stripped_points_clean (py_split response nl))
    as (Hclean & _ & Hblank).
  exists (stripped_points (py_split response nl)).
  split; [reflexivity |]. split; [apply stripped_points_filter |].
  split; assumption.
Qed.

Lemma unpack3_ok (l : list string) :
  length l = 3%nat -> exists a b c, l = [a; b; c] /\ unpack3 l = Ok (a, b, c).
Proof.
  destruct l as [| a [| b [| c [| d l]]]]; simpl; try discriminate.
  intros _. exists a, b, c. split; reflexivity.
Qed.

Lemma unpack3_fails (l : list string) :
  length l <> 3%nat -> exists e, unpack3 l = Raise e.
Proof.
  destruct l as [| a [| b [| c [| d l]]]]; simpl; intros Hlen;
    try (eexists; reflexivity). lia.
Qed.

Lemma citations_loop_malformed (lines : list string) :
  Exists malformed_citation_line lines ->
  forall acc, exists e, citations_loop lines acc = Raise e.
Proof.
  induction lines as [| line lines IH]; intros Hbad acc;
    [inversion Hbad |].
  simpl. destruct (contains line "|") eqn:Hbar.
  - destruct (Nat.eq_dec (count_char line "|") 2%nat) as [Htwo | Hnot].
    + destruct (unpack3_ok (map Py.strip (py_split line "|")))
        as (a & b & c & _ & ->).
      { rewrite length_map, py_split_single_length, Htwo. reflexivity. }
      simpl. apply IH. inversion Hbad as [? ? [_ Hne] | ? ? Hrest]; subst;
        [contradiction | exact Hrest].
    + destruct (unpack3_fails (map Py.strip (py_split line "|"))) as [e ->].
      { rewrite length_map, py_split_single_length. lia. }
      simpl. eauto.
  - apply contains_count in Hbar. apply IH.
    inversion Hbad as [? ? [Hne _] | ? ? Hrest]; subst;
      [contradiction | exact Hrest].
Qed.

Lemma citations_loop_well_formed (lines : list string) :
  Forall (fun line => count_char line "|" = 0%nat
                      \/ count_char line "|" = 2%nat) lines ->
  forall acc,
    exists cs,
      citations_loop lines acc = Ok (acc ++ cs)%list
      /\ Forall2 citation_of_line
           (List.filter (fun line => contains line "|") lines) cs.
Proof.
  induction 1 as [| line lines Hline _ IH]; intros acc; simpl.
  - exists []. rewrite app_nil_r. split; [reflexivity | constructor].
  - destruct (contains line "|") eqn:Hbar.
    + assert (Htwo : count_char line "|" = 2%nat).
      { destruct Hline as [Hzero | Htwo]; [| exact Htwo].
        apply contains_count in Hzero. congruence. }
      destruct (unpack3_ok (map Py.strip (py_split line "|")))
        as (a & b & c & Hparts & ->).
      { rewrite length_map, py_split_single_length, Htwo. reflexivity. }
      simpl.
      destruct (IH (acc ++ [ <["citation" := VStr a]>
                             (<["type" := VStr b]>
                             (<["relevance" := VStr c]> ∅)) ])%list)
        as (cs & -> & Hall).
      eexists (_ :: cs). rewrite <- app_assoc. split; [reflexivity |].
      constructor; [| exact Hall]. exists a, b, c. split; [exact Hparts | reflexivity].
    + apply IH.
Qed.

(** X21.  One line of the model's answer with a ['|'] but not exactly two
    makes [extract_legal_citations] fail as a whole with an
    [HTTPException] of status 500 whose detail starts
    ["Citation extraction failed: "]; the citations of the well-formed
    lines are lost. *)
Theorem citations_fail_on_one_malformed_line (self : t) (content : string)
    (response : string) (rest : list string) :
  (forall messages,
      chat (model self) messages 0.1 1000 = Ok (response :: rest)) ->
  Exists malformed_citation_line (py_split response nl) ->
  exists message,
    extract_legal_citations http_str chat self content
    = Raises (HTTPException 500 ("Citation extraction failed: " ++ message)).
Proof.
  intros Hchat Hbad. unfold extract_legal_citations.
  rewrite (make_request_answer http_str chat self _ _ _ response rest
             (Hchat _)).
  simpl.
  destruct (citations_loop_malformed _ Hbad []) as [e ->]. simpl.
  eexists. reflexivity.
Qed.

(** X22.  When every line of the model's answer has no ['|'] or exactly
    two, [extract_legal_citations] returns one dictionary for each line
    with ['|'], in order, with the three parts of the line, trimmed, under
    [citation], [type] and [relevance]; lines without ['|'] are
    ignored. *)
Theorem citations_of_well_formed_lines (self : t) (content : string)
    (response : string) (rest : list string) :
  (forall messages,
      chat (model self) messages 0.1 1000 = Ok (response :: rest)) ->
  Forall (fun line => count_char line "|" = 0%nat
                      \/ count_char line "|" = 2%nat)
         (py_split response nl) ->
  exists cs,
    extract_legal_citations http_str chat self content = Returns cs
    /\ Forall2 citation_of_line
         (List.filter (fun line => contains line "|") (py_split response nl))
         cs.
Proof.
  intros Hchat Hgood. unfold extract_legal_citations.
  rewrite (make_request_answer http_str chat self _ _ _ response rest
             (Hchat _)).
  simpl.
  destruct (citations_loop_well_formed _ Hgood []) as (cs & -> & Hall).
  exists cs. split; [reflexivity | exact Hall].
Qed.

(** X23.  [assess_legal_risks] needs four sections separated by blank
    lines and a [':'] in the first: with fewer sections, or without the
    colon, it fails with an [HTTPException] of status 500 and the detail
    ["Risk assessment failed: list index out of range"]. *)
Theorem risk_assessment_needs_four_sections (self : t) (content : string)
    (response : string) (rest : list string) :
  (forall messages,
      chat (model self) messages 0.1 1000 = Ok (response :: rest)) ->
  (length (py_split response (nl ++ nl)) < 4)%nat
  \/ count_char (hd "" (py_split response (nl ++ nl))) ":" = 0%nat ->
  assess_legal_risks http_str chat self content
  = Raises (HTTPException 500
              "Risk assessment failed: list index out of range").
Proof.
  intros Hchat Hshort. unfold assess_legal_risks.
  rewrite (make_request_answer http_str chat self _ _ _ response rest
             (Hchat _)).
  simpl. unfold risk_sections.
  destruct (py_split_first response (nl ++ nl)) as (s0 & more & Hsplit).
  rewrite Hsplit in *. simpl.
  pose proof (py_split_single_length s0 ":") as Hlen.
  destruct (py_split s0 ":") as [| p0 [| p1 ps]] eqn:Hparts;
    simpl in Hlen; try lia.
  - reflexivity.
  - simpl. destruct Hshort as [Hshort | Hcolon]; [| simpl in Hcolon; lia].
    simpl in Hshort.
    destruct more as [| s1 [| s2 [| s3 more]]]; simpl in *; try reflexivity.
    lia.
Qed.

(** X24.  No method of the service raises anything but an
    [HTTPException] of status 500.  A failure of the client is wrapped
    twice: [analyze_document] reports
    ["Document analysis failed: "] followed by the text of the
    [HTTPException] that [_make_request] raised for it. *)
Theorem service_raises_only_http_500 (self : t) (content query : string)
    (e : exn) :
  (forall messages temperature max_tokens,
      chat (model self) messages temperature max_tokens = Raise e) ->
  analyze_document http_str chat self content query
  = Raises (HTTPException 500
              ("Document analysis failed: "
               ++ http_str 500 ("API request failed: " ++ exn_str e)))
  /\ (forall (self' : t)
        (chat' : string -> list (gmap string pyval) -> Q -> Z
                 -> outcome (list string))
        (content' query' : string),
        value_or_500 (analyze_document http_str chat' self' content' query')
        /\ value_or_500 (summarize_document http_str chat' self' content')
        /\ value_or_500 (extract_key_points http_str chat' self' content')
        /\ value_or_500 (extract_legal_citations http_str chat' self' content')
        /\ value_or_500 (analyze_contract_clauses http_str chat' self' content')
        /\ value_or_500 (assess_legal_risks http_str chat' self' content')
        /\ value_or_500
             (classify_document http_str chat' py_float self' content')
        /\ value_or_500 (identify_parties http_str chat' self' content')).
Proof.
  intros Hchat. split.
  - unfold analyze_document.
    rewrite (make_request_failure http_str chat self _ _ _ e (Hchat _ _ _)).
    reflexivity.
  - intros self' chat' content' query'.
    repeat split; apply or_http_500_value_or_500.
Qed.

End MistralParsing.


Lemma key_points_are_clean_lines_witness :
  (forall messages,
      canned_chat key_points_answer (MistralService.model a_service)
        messages 0.1 500
      = Ok [key_points_answer])
  /\ MistralService.extract_key_points starlette_str
       (canned_chat key_points_answer) a_service "contract"
     = Returns ["Rent is due monthly"; "Deposit: two months"]
  /\ exists points,
       MistralService.extract_key_points starlette_str
         (canned_chat key_points_answer) a_service "contract"
       = Returns points
       /\ points
          = List.filter (fun point => negb (String.eqb point ""))
              (map Py.strip (py_split key_points_answer nl))
       /\ Forall clean_point points
       /\ (Forall (fun line => Py.strip line = "")
                  (py_split key_points_answer nl) ->
           points = []).
Proof.
  split; [intros messages; reflexivity |].
  split; [vm_compute; reflexivity |].
  apply (key_points_are_clean_lines starlette_str
           (canned_chat key_points_answer) a_service "contract"
           key_points_answer []).
  intros messages. reflexivity.
Defined.

Lemma citations_fail_on_one_malformed_line_witness :
  (forall messages,
      canned_chat broken_citations_answer
        (MistralService.model a_service) messages 0.1 1000
      = Ok [broken_citations_answer])
  /\ Exists malformed_citation_line (py_split broken_citations_answer nl)
  /\ exists message,
       MistralService.extract_legal_citations starlette_str
         (canned_chat broken_citations_answer) a_service "contract"
       = Raises (HTTPException 500
                   ("Citation extraction failed: " ++ message)).
Proof.
  assert (Hbad : Exists malformed_citation_line
                   (py_split broken_citations_answer nl)).
  { assert (Hlines : py_split broken_citations_answer nl
                     = ["Smith v. Jones | case law | notice period";
                        "Doe v. Roe | statute"])
      by (vm_compute; reflexivity).
    rewrite Hlines. apply Exists_cons_tl, Exists_cons_hd.
    split; vm_compute; discriminate. }
  split; [reflexivity |]. split; [exact Hbad |].
  exact (citations_fail_on_one_malformed_line starlette_str
           (canned_chat broken_citations_answer) a_service "contract"
           broken_citations_answer [] (fun _ => eq_refl) Hbad).
Defined.

Lemma citations_of_well_formed_lines_witness :
  (forall messages,
      canned_chat citations_answer
        (MistralService.model a_service) messages 0.1 1000
      = Ok [citations_answer])
  /\ exists cs,
       MistralService.extract_legal_citations starlette_str
         (canned_chat citations_answer) a_service "contract" = Returns cs
       /\ Forall2 citation_of_line
            (List.filter (fun line => contains line "|")
                         (py_split citations_answer nl)) cs.
Proof.
  split; [reflexivity |].
  apply (citations_of_well_formed_lines starlette_str
           (canned_chat citations_answer) a_service "contract"
           citations_answer [] (fun _ => eq_refl)).
  assert (Hlines : py_split citations_answer nl
                   = ["Smith v. Jones | case law | notice period";
                      "No other citation."])
    by (vm_compute; reflexivity).
  rewrite Hlines.
  constructor; [right; vm_compute; reflexivity |].
  constructor; [left; vm_compute; reflexivity | constructor].
Defined.

Lemma risk_assessment_needs_four_sections_witness :
  (forall messages,
      canned_chat short_risk_answer
        (MistralService.model a_service) messages 0.1 1000
      = Ok [short_risk_answer])
  /\ (length (py_split short_risk_answer (nl ++ nl)) < 4)%nat
  /\ MistralService.assess_legal_risks starlette_str
       (canned_chat short_risk_answer) a_service "contract"
     = Raises (HTTPException 500
                 "Risk assessment failed: list index out of range").
Proof.
  assert (Hshort : (length (py_split short_risk_answer (nl ++ nl)) < 4)%nat)
    by (vm_compute; lia).
  split; [reflexivity |]. split; [exact Hshort |].
  exact (risk_assessment_needs_four_sections starlette_str
           (canned_chat short_risk_answer) a_service "contract"
           short_risk_answer [] (fun _ => eq_refl) (or_introl Hshort)).
Defined.

Lemma service_raises_only_http_500_witness :
  let e := {| exn_str := "connection refused" |} in
  (forall messages temperature max_tokens,
      failing_chat e (MistralService.model a_service) messages temperature
        max_tokens = Raise e)
  /\ MistralService.analyze_document starlette_str (failing_chat e) a_service
       "contract" "Who pays?"
     = Raises (HTTPException 500
                 ("Document analysis failed: "
                  ++ starlette_str 500
                       ("API request failed: " ++ "connection refused"))).
Proof.
  intros e. split; [reflexivity |].
  exact (proj1 (service_raises_only_http_500 starlette_str (failing_chat e)
                  (fun _ => Ok 0%Q) a_service "contract" "Who pays?" e
                  (fun _ _ _ => eq_refl))).
Defined.


(** ** The upload route *)

Lemma upload_try_never_returns save_upload pdf_process audio_process
    video_process fuel filename file_path r :
  Routes.upload_try save_upload pdf_process audio_process video_process
    fuel filename file_path = Some r ->
  exists x, r = Raises x.
Proof.
  unfold Routes.upload_try.
  destruct (save_upload file_path) as [[]|e].
  2: { intros [= <-]. eexists; reflexivity. }
  set (ext := last_piece _).
  match goal with
  | |- match ?p with _ => _ end = _ -> _ => destruct p as [[chunks|x]|]
  end; [| | discriminate]; intros [= <-]; simpl; eexists; reflexivity.
Qed.

(** X25. [upload_document] never returns its success message.  Whatever the
    file system and the three processors do, a call that ends raises an
    [HTTPException] of status 500, or the error of removing the uploaded
    file when that removal itself fails; no call ends with status 400. *)
Theorem upload_document_never_succeeds
    (http_str : Z -> string -> string) (mkdir_uploads : outcome unit)
    (upload_path : string -> string) (save_upload unlink : string -> outcome unit)
    (pdf_process : nat -> string -> option (outcome (list BaseChunk)))
    (audio_process video_process : string -> outcome (list BaseChunk))
    (fuel : nat) (filename : string) (r : result (gmap string pyval)) :
  Routes.upload_document http_str mkdir_uploads upload_path save_upload unlink
    pdf_process audio_process video_process fuel filename = Some r ->
  (exists detail, r = Raises (HTTPException 500 detail))
  \/ (exists e, unlink (upload_path filename) = Raise e /\ r = Raises (Plain e)).
Proof.
  unfold Routes.upload_document.
  destruct mkdir_uploads as [[]|e].
  2: { intros [= <-]. left. eexists; reflexivity. }
  destruct (Routes.upload_try _ _ _ _ _ _ _) as [r0|] eqn:Htry; [| discriminate].
  apply upload_try_never_returns in Htry as (x & ->).
  destruct (unlink (upload_path filename)) as [[]|e]; intros [= <-].
  - left. eexists; reflexivity.
  - right. exists e. split; reflexivity.
Qed.

Lemma upload_document_never_succeeds_witness :
  let upload :=
    Routes.upload_document starlette_str (Ok tt)
      (fun name => "uploads/" ++ name) (fun _ => Ok tt) (fun _ => Ok tt)
      (fun fuel path =>
         PDFProcessor_process (fun p => p) one_page_pdf fuel
           PDFProcessor_default path)
      (fun _ => Ok []) (fun _ => Ok []) 5 "Lease.PDF" in
  upload = Some (Raises (HTTPException 500
             "'ChromaStore' object has no attribute 'add_documents'"))
  /\ ((exists detail,
         Raises (HTTPException 500
           "'ChromaStore' object has no attribute 'add_documents'")
         = Raises (A := gmap string pyval) (HTTPException 500 detail))
      \/ (exists e, Ok tt = Raise e
                    /\ Raises (A := gmap string pyval) (HTTPException 500
                         "'ChromaStore' object has no attribute 'add_documents'")
                       = Raises (Plain e))).
Proof.
  split; [vm_compute; reflexivity |].
  apply (upload_document_never_succeeds starlette_str (Ok tt)
           (fun name => "uploads/" ++ name) (fun _ => Ok tt) (fun _ => Ok tt)
           (fun fuel path =>
              PDFProcessor_process (fun p => p) one_page_pdf fuel
                PDFProcessor_default path)
           (fun _ => Ok []) (fun _ => Ok []) 5 "Lease.PDF").
  vm_compute; reflexivity.
Defined.




(** ** Chunk length and padding *)

Lemma chars_app (s1 s2 : string) :
  Py.chars (s1 ++ s2) = (Py.chars s1 ++ Py.chars s2)%list.
Proof.
  unfold Py.chars. induction s1 as [| c s1 IH]; simpl; [reflexivity |].
  rewrite IH. reflexivity.
Qed.

Lemma lstrip_chars_spaces (ws l : list ascii) :
  forallb Py.isspace ws = true ->
  Py.lstrip_chars (ws ++ l) = Py.lstrip_chars l.
Proof.
  induction ws as [| c ws IH]; simpl; [reflexivity |].
  intros [Hc Hws]%andb_prop. rewrite Hc. exact (IH Hws).
Qed.

Lemma lstrip_chars_app (l m : list ascii) :
  Py.lstrip_chars l <> [] ->
  Py.lstrip_chars (l ++ m) = (Py.lstrip_chars l ++ m)%list.
Proof.
  induction l as [| c l IH]; simpl; [congruence |].
  destruct (Py.isspace c); [exact IH | reflexivity].
Qed.

Lemma lstrip_chars_all_space (l : list ascii) :
  Py.lstrip_chars l = [] -> forallb Py.isspace l = true.
Proof.
  induction l as [| c l IH]; simpl; [reflexivity |].
  destruct (Py.isspace c); [exact IH | discriminate].
Qed.

Lemma forallb_isspace_rev (l : list ascii) :
  forallb Py.isspace l = true -> forallb Py.isspace (rev l) = true.
Proof.
  rewrite !forallb_forall. intros Hl c Hc. apply Hl, in_rev, Hc.
Qed.

Lemma strip_chars_padding (pre l post : list ascii) :
  forallb Py.isspace pre = true ->
  forallb Py.isspace post = true ->
  Py.strip_chars (pre ++ l ++ post) = Py.strip_chars l.
Proof.
  intros Hpre Hpost. unfold Py.strip_chars.
  rewrite (lstrip_chars_spaces pre _ Hpre).
  destruct (Py.lstrip_chars l) as [| c k] eqn:Hl.
  - apply lstrip_chars_all_space in Hl.
    assert (Hall : forallb Py.isspace (l ++ post) = true)
      by (rewrite forallb_app, Hl, Hpost; reflexivity).
    rewrite <- (app_nil_r (l ++ post)), (lstrip_chars_spaces _ [] Hall).
    reflexivity.
  - rewrite lstrip_chars_app by congruence. rewrite Hl.
    rewrite rev_app_distr.
    rewrite (lstrip_chars_spaces _ _ (forallb_isspace_rev _ Hpost)).
    reflexivity.
Qed.

(** X27. The length of a chunk, and with it the validity check, sees the
    content without the whitespace around it: padding a content with
    whitespace on either side changes neither, so a content of whitespace
    alone has length 0 and is rejected under every positive minimum. *)
Theorem validate_chunk_ignores_padding
    (self : base_chunker.BaseChunker) (pre s post : string)
    (md : gmap string pyval) :
  all_space pre = true ->
  all_space post = true ->
  base_chunker.__len__ (base_chunker.BaseChunk_init (pre ++ s ++ post) md)
  = base_chunker.__len__ (base_chunker.BaseChunk_init s md)
  /\ base_chunker._validate_chunk self
       (base_chunker.BaseChunk_init (pre ++ s ++ post) md)
     = base_chunker._validate_chunk self (base_chunker.BaseChunk_init s md)
  /\ base_chunker.__len__ (base_chunker.BaseChunk_init (pre ++ post) md) = 0
  /\ (0 < base_chunker.min_chunk_size self ->
      base_chunker._validate_chunk self
        (base_chunker.BaseChunk_init (pre ++ post) md) = false).
Proof.
  intros Hpre Hpost.
  assert (Hstrip : forall t, Py.strip (pre ++ t ++ post) = Py.strip t).
  { intros t. unfold Py.strip. rewrite !chars_app.
    rewrite (strip_chars_padding _ _ _ Hpre Hpost). reflexivity. }
  assert (Hlen : forall t,
             base_chunker.__len__
               (base_chunker.BaseChunk_init (pre ++ t ++ post) md)
             = base_chunker.__len__ (base_chunker.BaseChunk_init t md)).
  { intros t. unfold base_chunker.__len__, base_chunker.py_str,
      base_chunker.str_PyStr. simpl. rewrite Hstrip. reflexivity. }
  assert (Hzero : base_chunker.__len__
                    (base_chunker.BaseChunk_init (pre ++ post) md) = 0).
  { change (pre ++ post) with (pre ++ "" ++ post). rewrite Hlen. reflexivity. }
  split; [apply Hlen |]. split.
  - unfold base_chunker._validate_chunk. rewrite Hlen. reflexivity.
  - split; [exact Hzero |]. intros Hmin.
    unfold base_chunker._validate_chunk. rewrite Hzero.
    apply Z.leb_gt. exact Hmin.
Qed.

Lemma validate_chunk_ignores_padding_witness :
  let pre := String Py.newline "  " in
  let post := String Py.space (String Py.newline "") in
  all_space pre = true
  /\ all_space post = true
  /\ base_chunker.__len__
       (base_chunker.BaseChunk_init (pre ++ "Lease agreement" ++ post) ∅) = 15
  /\ base_chunker._validate_chunk base_chunker.BaseChunker_default
       (base_chunker.BaseChunk_init (pre ++ "clause 4" ++ post) ∅)
     = base_chunker._validate_chunk base_chunker.BaseChunker_default
         (base_chunker.BaseChunk_init "clause 4" ∅)
  /\ base_chunker._validate_chunk base_chunker.BaseChunker_default
       (base_chunker.BaseChunk_init (pre ++ post) ∅) = false.
Proof.
  split; [reflexivity |]. split; [reflexivity |].
  split; [vm_compute; reflexivity |].
  destruct (validate_chunk_ignores_padding base_chunker.BaseChunker_default
              (String Py.newline "  ") "clause 4"
              (String Py.space (String Py.newline "")) ∅
              eq_refl eq_refl) as (_ & Hvalid & _ & Hblank).
  split; [exact Hvalid |]. apply Hblank. reflexivity.
Defined.
